(** * QuillHaven account security: a shallow embedding of the services

    The development follows the TypeScript sources
    [src/lib/services/security.ts], [src/lib/services/session.ts],
    [src/lib/config/security.ts] and the profile synchronisation service.
    Numbers are [Z]; a JavaScript [Date] is its epoch value in milliseconds;
    bytes are [Z] in the range 0..255; strings are [string]. *)

From Stdlib Require Import ZArith List String Ascii Bool Lia Arith.
From Stdlib Require Import DecimalString Permutation.
Import ListNotations.
Local Open Scope string_scope.
Local Open Scope list_scope.
Local Open Scope Z_scope.

(** ** JavaScript 32-bit integer operators *)

Module Js.

Definition two32 : Z := 4294967296.
Definition two31 : Z := 2147483648.

(** ToUint32 and ToInt32 of an integral number. *)
Definition toUint32 (x : Z) : Z := x mod two32.
Definition toInt32 (x : Z) : Z := (x + two31) mod two32 - two31.

(** [a & b], [a | b], [a << n], [a >>> n]. *)
Definition and (a b : Z) : Z := toInt32 (Z.land (toInt32 a) (toInt32 b)).
Definition or (a b : Z) : Z := toInt32 (Z.lor (toInt32 a) (toInt32 b)).
Definition shl (a n : Z) : Z := toInt32 (Z.shiftl (toInt32 a) (n mod 32)).
Definition ushr (a n : Z) : Z := Z.shiftr (toUint32 a) (n mod 32).

(** [a % b] keeps the sign of the dividend. *)
Definition rem (a b : Z) : Z := Z.rem a b.

(** [Number.prototype.toString()] of an integer. *)
Definition toString (n : Z) : string :=
  if n <? 0
  then String "-" (NilZero.string_of_uint (N.to_uint (Z.to_N (- n))))
  else NilZero.string_of_uint (N.to_uint (Z.to_N n)).

Fixpoint replicate (n : nat) (c : ascii) : string :=
  match n with
  | O => EmptyString
  | S k => String c (replicate k c)
  end.

(** [s.padStart(n, c)] for a one-character filler. *)
Definition padStart (n : nat) (c : ascii) (s : string) : string :=
  (replicate (n - String.length s) c ++ s)%string.

(** [s.toUpperCase()] on ASCII letters. *)
Definition upper (c : ascii) : ascii :=
  let n := nat_of_ascii c in
  if (andb (97 <=? n) (n <=? 122))%nat then ascii_of_nat (n - 32) else c.

Fixpoint toUpperCase (s : string) : string :=
  match s with
  | EmptyString => EmptyString
  | String c r => String (upper c) (toUpperCase r)
  end.

(** [s.indexOf(c)] for a one-character needle, [-1] when absent. *)
Fixpoint indexOf_from (i : Z) (c : ascii) (s : string) : Z :=
  match s with
  | EmptyString => -1
  | String d r => if Ascii.eqb c d then i else indexOf_from (i + 1) c r
  end.
Definition indexOf (c : ascii) (s : string) : Z := indexOf_from 0 c s.

(** [s.includes(sub)]. *)
Fixpoint includes (sub s : string) : bool :=
  if String.prefix sub s then true
  else match s with
       | EmptyString => false
       | String _ r => includes sub r
       end.

End Js.

(** ** SHA-1 and HMAC (the [crypto.createHmac('sha1', key)] primitive)

    Node's HMAC-SHA1 is a library primitive of the program; it is written
    here after FIPS 180-4 and RFC 2104 so that the one-time passwords of the
    service can be evaluated. *)

Module Sha1.

Definition w32 (x : Z) : Z := x mod 4294967296.
Definition add32 (x y : Z) : Z := w32 (x + y).
Definition rotl (n x : Z) : Z :=
  w32 (Z.lor (Z.shiftl x n) (Z.shiftr x (32 - n))).
Definition not32 (x : Z) : Z := Z.lxor x 4294967295.

Definition be32 (x : Z) : list Z :=
  [Z.shiftr x 24 mod 256; Z.shiftr x 16 mod 256; Z.shiftr x 8 mod 256; x mod 256].

Definition be64 (x : Z) : list Z :=
  be32 (Z.shiftr x 32 mod 4294967296) ++ be32 (x mod 4294967296).

Fixpoint words_of_bytes (l : list Z) : list Z :=
  match l with
  | b0 :: b1 :: b2 :: b3 :: r =>
      (Z.shiftl b0 24 + Z.shiftl b1 16 + Z.shiftl b2 8 + b3) :: words_of_bytes r
  | _ => []
  end.

Definition pad (msg : list Z) : list Z :=
  let len := Z.of_nat (List.length msg) in
  msg ++ [128] ++ repeat 0 (Z.to_nat ((55 - len) mod 64)) ++ be64 (8 * len).

Fixpoint blocks (fuel : nat) (ws : list Z) : list (list Z) :=
  match fuel with
  | O => []
  | S f =>
      match ws with
      | [] => []
      | _ => firstn 16 ws :: blocks f (skipn 16 ws)
      end
  end.

(** The message schedule; [rev_w] holds the words so far, latest first. *)
Fixpoint schedule (n : nat) (rev_w : list Z) : list Z :=
  match n with
  | O => rev rev_w
  | S k =>
      let w := rotl 1 (Z.lxor (Z.lxor (nth 2 rev_w 0) (nth 7 rev_w 0))
                              (Z.lxor (nth 13 rev_w 0) (nth 15 rev_w 0))) in
      schedule k (w :: rev_w)
  end.

Record state := mkState { ha : Z; hb : Z; hc : Z; hd : Z; he : Z }.

Definition init : state :=
  mkState 1732584193 4023233417 2562383102 271733878 3285377520.

Definition round_f (t : nat) (b c d : Z) : Z :=
  if (t <? 20)%nat then Z.lor (Z.land b c) (Z.land (not32 b) d)
  else if (t <? 40)%nat then Z.lxor (Z.lxor b c) d
  else if (t <? 60)%nat then Z.lor (Z.lor (Z.land b c) (Z.land b d)) (Z.land c d)
  else Z.lxor (Z.lxor b c) d.

Definition round_k (t : nat) : Z :=
  if (t <? 20)%nat then 1518500249
  else if (t <? 40)%nat then 1859775393
  else if (t <? 60)%nat then 2400959708
  else 3395469782.

Fixpoint rounds (t : nat) (ws : list Z) (s : state) : state :=
  match ws with
  | [] => s
  | w :: r =>
      let tmp := add32 (add32 (add32 (add32 (rotl 5 (ha s)) (round_f t (hb s) (hc s) (hd s)))
                                     (he s)) w) (round_k t) in
      rounds (S t) r (mkState tmp (ha s) (rotl 30 (hb s)) (hc s) (hd s))
  end.

Definition compress (s : state) (block : list Z) : state :=
  let s' := rounds 0 (schedule 64 (rev block)) s in
  mkState (add32 (ha s) (ha s')) (add32 (hb s) (hb s')) (add32 (hc s) (hc s'))
          (add32 (hd s) (hd s')) (add32 (he s) (he s')).

Definition digest (msg : list Z) : list Z :=
  let ws := words_of_bytes (pad msg) in
  let s := fold_left compress (blocks (List.length ws) ws) init in
  be32 (ha s) ++ be32 (hb s) ++ be32 (hc s) ++ be32 (hd s) ++ be32 (he s).

Definition hmac (key msg : list Z) : list Z :=
  let k0 := if (64 <? List.length key)%nat then digest key else key in
  let k := k0 ++ repeat 0 (64 - List.length k0) in
  digest (map (Z.lxor 92) k ++ digest (map (Z.lxor 54) k ++ msg)).

Definition bytes_of_string (s : string) : list Z :=
  map (fun c => Z.of_nat (nat_of_ascii c)) (list_ascii_of_string s).

End Sha1.

(** ** TOTP verification ([SecurityService.verifyTOTPToken]) *)

Module Totp.

Definition base32chars : string := "ABCDEFGHIJKLMNOPQRSTUVWXYZ234567".

(** The loop that turns the base32 secret into bytes; the state is
    [(value, bits, output)]. *)
Fixpoint decode_loop (secret : string) (value bits : Z) (output : list Z) : list Z :=
  match secret with
  | EmptyString => output
  | String c r =>
      let index := Js.indexOf (Js.upper c) base32chars in
      if index =? -1 then decode_loop r value bits output
      else
        let value := Js.or (Js.shl value 5) index in
        let bits := bits + 5 in
        if 8 <=? bits
        then decode_loop r value (bits - 8)
               (output ++ [Js.and (Js.ushr value (bits - 8)) 255])
        else decode_loop r value bits output
  end.

Definition secretBuffer (secret : string) : list Z := decode_loop secret 0 0 [].

(** [Math.floor(Date.now() / 1000 / 30)]. *)
Definition timeStep (nowMs : Z) : Z := nowMs / 1000 / 30.

(** [buf.writeUInt32BE(v, off)] raises a RangeError outside 0..2^32-1. *)
Definition writeUInt32BE (v : Z) : option (list Z) :=
  if andb (0 <=? v) (v <? Js.two32) then Some (Sha1.be32 v) else None.

(** The 8-byte counter buffer of one loop iteration. *)
Definition timeBuffer (time : Z) : option (list Z) :=
  match writeUInt32BE (time / 4294967296), writeUInt32BE (Js.and time 4294967295) with
  | Some hi, Some lo => Some (hi ++ lo)
  | _, _ => None
  end.

(** [hash[i]], with [undefined & m = 0] outside the buffer. *)
Definition at_ (hash : list Z) (i : Z) : Z :=
  if i <? 0 then 0 else nth (Z.to_nat i) hash 0.

Definition truncate (hash : list Z) : Z :=
  let offset := Js.and (at_ hash (Z.of_nat (List.length hash) - 1)) 15 in
  Js.or (Js.or (Js.or (Js.shl (Js.and (at_ hash offset) 127) 24)
                      (Js.shl (Js.and (at_ hash (offset + 1)) 255) 16))
               (Js.shl (Js.and (at_ hash (offset + 2)) 255) 8))
        (Js.and (at_ hash (offset + 3)) 255).

Definition otp_of (hash : list Z) : string :=
  Js.padStart 6 "0" (Js.toString (Js.rem (truncate hash) 1000000)).

(** The body of the [for] loop over [i = first, first+1, ...]; [None] is a
    raised exception. *)
Fixpoint check_steps (key : list Z) (token : string) (times : list Z) : option bool :=
  match times with
  | [] => Some false
  | time :: rest =>
      match timeBuffer time with
      | None => None
      | Some buf =>
          if String.eqb (otp_of (Sha1.hmac key buf)) token then Some true
          else check_steps key token rest
      end
  end.

(** The values [timeStep + i] for [i] from [-window] to [window]. *)
Definition window_steps (step window : Z) : list Z :=
  map (fun k => step - window + Z.of_nat k) (seq 0 (Z.to_nat (2 * window + 1))).

Definition verifyTOTPToken (nowMs : Z) (secret token : string) (window : Z) : option bool :=
  check_steps (secretBuffer secret) token (window_steps (timeStep nowMs) window).

(** *** The specification's HOTP (RFC 4226) *)

(** The counter as 8 big-endian bytes. *)
Definition counter_bytes (c : Z) : list Z :=
  map (fun k => (c / 256 ^ Z.of_nat (7 - k)) mod 256) (seq 0 8).

(** Dynamic truncation (RFC 4226, section 5.3): the low nibble of the last
    byte is an offset; four bytes from there, top bit masked, read as an
    integer. *)
Definition dynamic_truncation (h : list Z) : Z :=
  let o := Z.to_nat (Z.land (nth 19 h 0) 15) in
  Z.lor (Z.lor (Z.lor (Z.shiftl (Z.land (nth o h 0) 127) 24)
                      (Z.shiftl (Z.land (nth (o + 1) h 0) 255) 16))
               (Z.shiftl (Z.land (nth (o + 2) h 0) 255) 8))
        (Z.land (nth (o + 3) h 0) 255).

(** Six decimal digits, zero-padded on the left. *)
Definition six_digits (v : Z) : string := Js.padStart 6 "0" (Js.toString v).

Definition hotp_spec (key : list Z) (counter : Z) : string :=
  six_digits (dynamic_truncation (Sha1.hmac key (counter_bytes counter)) mod 1000000).

(** The code an authenticator shows at [nowMs]. *)
Definition totp_spec (secret : string) (nowMs : Z) : string :=
  hotp_spec (secretBuffer secret) (timeStep nowMs).

End Totp.


(** ** The persistent store, the identity provider and the effect monad *)

(** [Array.prototype.sort] with a comparator and Prisma's [orderBy] are
    modelled by a stable insertion sort; [le x y] says that [x] may stand
    before [y]. *)
Section Sorting.
Context {A : Type} (le : A -> A -> bool).

Fixpoint insert_by (x : A) (l : list A) : list A :=
  match l with
  | [] => [x]
  | y :: r => if le x y then x :: l else y :: insert_by x r
  end.

Definition sort_by (l : list A) : list A := fold_right insert_by [] l.
End Sorting.

(** JSON values of [UserActivity.metadata]: the scalars, string arrays and
    the array of backup-code objects that the services write. *)
Module Json.

Record BackupCode := mkCode { code : string; used : bool; createdAt : Z }.

Inductive t :=
| Null
| Bool (b : bool)
| Num (n : Z)
| Str (s : string)
| Strs (l : list string)
| Codes (l : list BackupCode).

(** A JSON object as its key/value pairs, in insertion order. *)
Definition obj := list (string * t).

Fixpoint get (k : string) (o : obj) : option t :=
  match o with
  | [] => None
  | (k', v) :: r => if String.eqb k k' then Some v else get k r
  end.

(** [{...o, k: v}]: an existing key keeps its place. *)
Fixpoint set (k : string) (v : t) (o : obj) : obj :=
  match o with
  | [] => [(k, v)]
  | (k', v') :: r => if String.eqb k k' then (k, v) :: r else (k', v') :: set k v r
  end.

(** JavaScript truthiness of [o?.k]. *)
Definition truthy (v : option t) : bool :=
  match v with
  | None | Some Null => false
  | Some (Bool b) => b
  | Some (Num n) => negb (n =? 0)
  | Some (Str s) => negb (String.eqb s "")
  | Some (Strs _) | Some (Codes _) => true
  end.

(** [vs.includes(s)] for a string [s]. *)
Definition includes_str (s : string) (vs : list (option t)) : bool :=
  existsb (fun v => match v with Some (Str s') => String.eqb s' s | _ => false end) vs.

End Json.

Module UserSession.
Record t := mk {
  userId : string;
  token : string;
  expiresAt : Z;
  createdAt : Z;
  lastActiveAt : Z;
  ipAddress : option string;
  userAgent : option string;
  isActive : bool
}.
End UserSession.

Module UserActivity.
Record t := mk {
  userId : string;
  activity : string;
  sessionId : option string;
  metadata : Json.obj;
  createdAt : Z
}.
End UserActivity.

Inductive UserRole := USER | EDITOR | ADMIN.

Module UserProfile.
Record t := mk {
  bio : option string;
  location : option string;
  website : option string;
  writingGenres : list string;
  experienceLevel : option string;
  updatedAt : Z
}.
End UserProfile.

Module UserPreferences.
Record t := mk {
  theme : string;
  language : string;
  timezone : string;
  emailNotifications : bool;
  marketingEmails : bool;
  weeklyDigest : bool;
  autoSave : bool;
  autoSaveInterval : Z;
  updatedAt : Z
}.
End UserPreferences.

Module User.
Record t := mk {
  clerkId : string;
  email : string;
  emailVerified : bool;
  firstName : option string;
  lastName : option string;
  imageUrl : option string;
  role : UserRole;
  updatedAt : Z;
  lastLoginAt : option Z;
  twoFactorEnabled : bool;
  profile : option UserProfile.t;
  preferences : option UserPreferences.t
}.
End User.

(** The identity provider's user record, as far as the services read it. *)
Module Clerk.

Record EmailAddress := mkEmail { emailAddress : string; verified : bool }.

Record ProfileMeta := mkProfileMeta {
  bio : option string;
  location : option string;
  website : option string;
  writingGenres : option (list string);
  experienceLevel : option string
}.

(** [privateMetadata.preferences]; [otherKeys] counts keys beyond those
    listed, for [Object.keys(...).length]. *)
Record PreferencesMeta := mkPreferencesMeta {
  theme : option string;
  language : option string;
  timezone : option string;
  emailNotifications : option bool;
  marketingEmails : option bool;
  weeklyDigest : option bool;
  autoSave : option bool;
  autoSaveInterval : option Z;
  otherKeys : nat
}.

Record PrivateMetadata := mkPrivate {
  totpSecret : option string;
  backupCodesGenerated : option bool;
  profile : option ProfileMeta;
  preferences : option PreferencesMeta
}.

Record User := mkUser {
  id : string;
  emailAddresses : list EmailAddress;
  firstName : option string;
  lastName : option string;
  imageUrl : option string;
  twoFactorEnabled : bool;
  updatedAt : Z;
  publicRole : option string;
  privateMetadata : PrivateMetadata
}.

End Clerk.

(** The tables of the database and the users held by the identity provider.
    A [UserActivity] row is identified by its position in the table, which
    only grows. Foreign keys are not checked. *)
Record World := mkWorld {
  users : list User.t;
  userSessions : list UserSession.t;
  userActivities : list UserActivity.t;
  clerkUsers : list Clerk.User
}.

(** What a call reads from its surroundings: the clock ([Date.now()], read
    once per call), whether the database and the identity provider answer,
    and [NEXT_PUBLIC_SECURITY_LEVEL]. *)
Record Env := mkEnv {
  now : Z;
  dbUp : bool;
  clerkUp : bool;
  securityLevel : option string
}.

(** A promise either resolves or rejects; the world it leaves behind is kept
    in both cases. *)
Inductive Outcome (A : Type) :=
| Returns (a : A)
| Throws (message : string).
Arguments Returns {A} a.
Arguments Throws {A} message.

Definition M (A : Type) : Type := World -> Outcome A * World.

Definition ret {A} (a : A) : M A := fun w => (Returns a, w).
Definition throw {A} (message : string) : M A := fun w => (Throws message, w).
Definition bind {A B} (m : M A) (k : A -> M B) : M B :=
  fun w => match m w with
           | (Returns a, w') => k a w'
           | (Throws e, w') => (Throws e, w')
           end.
(** [try { m } catch (error) { h error }]. *)
Definition try_catch {A} (m : M A) (h : string -> M A) : M A :=
  fun w => match m w with
           | (Returns a, w') => (Returns a, w')
           | (Throws e, w') => h e w'
           end.

Declare Scope monad_scope.
Delimit Scope monad_scope with monad.
Notation "x <- m ;; k" := (bind m (fun x => k))
  (at level 61, m at next level, right associativity) : monad_scope.
Notation "m ;; k" := (bind m (fun _ => k))
  (at level 61, right associativity) : monad_scope.
Local Open Scope monad_scope.

(** [for (const x of l) { await f(x) }]. *)
Fixpoint for_each {A} (f : A -> M unit) (l : list A) : M unit :=
  match l with
  | [] => ret tt
  | x :: r => f x ;; for_each f r
  end.

(** *** Prisma calls *)

Module Prisma.

Definition rejected : string := "PrismaClientError".

(** Every call rejects while the database is down. *)
Definition guard {A} (e : Env) (m : M A) : M A :=
  if dbUp e then m else throw rejected.

(** [prisma.userActivity.create]. *)
Definition userActivity_create (e : Env) (row : UserActivity.t) : M unit :=
  guard e (fun w =>
    (Returns tt, mkWorld (users w) (userSessions w) (userActivities w ++ [row]) (clerkUsers w))).

(** The rows with their ids. *)
Definition indexed {A} (l : list A) : list (nat * A) := combine (seq 0 (List.length l)) l.

(** [findMany({ where, orderBy: { createdAt: 'desc' } })]. *)
Definition userActivity_findMany (e : Env) (where_ : UserActivity.t -> bool)
  : M (list (nat * UserActivity.t)) :=
  guard e (fun w =>
    (Returns (sort_by (fun a b => UserActivity.createdAt (snd b) <=? UserActivity.createdAt (snd a))
                (filter (fun r => where_ (snd r)) (indexed (userActivities w)))), w)).

(** [findFirst({ where, orderBy: { createdAt: 'desc' } })]. *)
Definition userActivity_findFirst (e : Env) (where_ : UserActivity.t -> bool)
  : M (option (nat * UserActivity.t)) :=
  rows <- userActivity_findMany e where_ ;; ret (hd_error rows).

Fixpoint update_nth {A} (n : nat) (f : A -> A) (l : list A) : list A :=
  match l, n with
  | [], _ => []
  | x :: r, O => f x :: r
  | x :: r, S k => x :: update_nth k f r
  end.

(** [prisma.userActivity.update({ where: { id }, data: { metadata } })]. *)
Definition userActivity_update (e : Env) (id : nat) (md : Json.obj) : M unit :=
  guard e (fun w =>
    if (id <? List.length (userActivities w))%nat
    then (Returns tt,
          mkWorld (users w) (userSessions w)
            (update_nth id (fun r => UserActivity.mk (UserActivity.userId r) (UserActivity.activity r)
                                       (UserActivity.sessionId r) md (UserActivity.createdAt r))
               (userActivities w))
            (clerkUsers w))
    else (Throws rejected, w)).

(** [prisma.userSession.findUnique({ where: { token } })]. *)
Definition userSession_findUnique (e : Env) (tok : string) : M (option UserSession.t) :=
  guard e (fun w =>
    (Returns (find (fun s => String.eqb (UserSession.token s) tok) (userSessions w)), w)).

(** [prisma.userSession.findMany({ where, orderBy: { lastActiveAt: 'desc' } })]. *)
Definition userSession_findMany (e : Env) (where_ : UserSession.t -> bool)
  : M (list UserSession.t) :=
  guard e (fun w =>
    (Returns (sort_by (fun a b => UserSession.lastActiveAt b <=? UserSession.lastActiveAt a)
                (filter where_ (userSessions w))), w)).

(** [prisma.userSession.update({ where: { token }, data })]; rejects when
    no row has the token. *)
Definition userSession_update (e : Env) (tok : string) (f : UserSession.t -> UserSession.t)
  : M unit :=
  guard e (fun w =>
    if existsb (fun s => String.eqb (UserSession.token s) tok) (userSessions w)
    then (Returns tt,
          mkWorld (users w)
            (map (fun s => if String.eqb (UserSession.token s) tok then f s else s) (userSessions w))
            (userActivities w) (clerkUsers w))
    else (Throws rejected, w)).

(** [prisma.user.findUnique({ where: { clerkId } })]. *)
Definition user_findUnique (e : Env) (cid : string) : M (option User.t) :=
  guard e (fun w =>
    (Returns (find (fun u => String.eqb (User.clerkId u) cid) (users w)), w)).

(** [prisma.user.update({ where: { clerkId }, data })]; rejects when no row
    has the id, or when the new e-mail address belongs to another row. *)
Definition user_update (e : Env) (cid : string) (f : User.t -> User.t) : M unit :=
  guard e (fun w =>
    match find (fun u => String.eqb (User.clerkId u) cid) (users w) with
    | None => (Throws rejected, w)
    | Some u =>
        if existsb (fun v => andb (negb (String.eqb (User.clerkId v) cid))
                                  (String.eqb (User.email v) (User.email (f u)))) (users w)
        then (Throws rejected, w)
        else (Returns tt,
              mkWorld (map (fun v => if String.eqb (User.clerkId v) cid then f v else v) (users w))
                (userSessions w) (userActivities w) (clerkUsers w))
    end).

(** [prisma.userProfile.upsert] and [prisma.userPreferences.upsert] (and
    the two [create] calls) for the user's one-to-one relations: the
    related record is rewritten by [f]; rejects when the user is missing. *)
Definition relation_upsert (e : Env) (cid : string) (f : User.t -> User.t) : M unit :=
  guard e (fun w =>
    if existsb (fun u => String.eqb (User.clerkId u) cid) (users w)
    then (Returns tt,
          mkWorld (map (fun v => if String.eqb (User.clerkId v) cid then f v else v) (users w))
            (userSessions w) (userActivities w) (clerkUsers w))
    else (Throws rejected, w)).

(** [prisma.user.create]; rejects on a duplicate [clerkId] or [email]. *)
Definition user_create (e : Env) (u : User.t) : M unit :=
  guard e (fun w =>
    if existsb (fun v => orb (String.eqb (User.clerkId v) (User.clerkId u))
                             (String.eqb (User.email v) (User.email u))) (users w)
    then (Throws rejected, w)
    else (Returns tt, mkWorld (users w ++ [u]) (userSessions w) (userActivities w) (clerkUsers w))).

End Prisma.

(** *** Identity-provider calls *)

Module ClerkApi.

Definition rejected : string := "ClerkAPIResponseError".

(** [clerk.users.getUser(userId)]; rejects for an unknown id. *)
Definition getUser (e : Env) (uid : string) : M Clerk.User :=
  if clerkUp e
  then fun w => match find (fun u => String.eqb (Clerk.id u) uid) (clerkUsers w) with
                | Some u => (Returns u, w)
                | None => (Throws rejected, w)
                end
  else throw rejected.

(** [clerk.users.updateUserMetadata(userId, { privateMetadata })]. *)
Definition updateUserMetadata (e : Env) (uid : string) (pm : Clerk.PrivateMetadata) : M unit :=
  if clerkUp e
  then fun w =>
    if existsb (fun u => String.eqb (Clerk.id u) uid) (clerkUsers w)
    then (Returns tt,
          mkWorld (users w) (userSessions w) (userActivities w)
            (map (fun u => if String.eqb (Clerk.id u) uid
                           then Clerk.mkUser (Clerk.id u) (Clerk.emailAddresses u) (Clerk.firstName u)
                                  (Clerk.lastName u) (Clerk.imageUrl u) (Clerk.twoFactorEnabled u)
                                  (Clerk.updatedAt u) (Clerk.publicRole u) pm
                           else u) (clerkUsers w)))
    else (Throws rejected, w)
  else throw rejected.

End ClerkApi.

(** ** SecurityService ([src/lib/services/security.ts]) *)

Inductive RiskLevel := low | medium | high.

Record SuspiciousLoginResult := mkSuspicious {
  isSuspicious : bool;
  factors : list string;
  riskLevel : RiskLevel
}.

Record TwoFactorSetup := mkSetup {
  success : bool;
  message : option string;
  secret : option string;
  qrCode : option string;
  backupCodes : option (list string)
}.

Record SecurityEvent := mkEvent {
  ev_userId : string;
  event : string;
  ev_metadata : Json.obj
}.

(** The randomness one call of [enableTwoFactor] draws: the base-36 strings
    of the ten [Math.random()] values and the bytes of [crypto.randomBytes]. *)
Record Entropy := mkEntropy {
  randomBase36 : nat -> string;
  randomBytes : list Z
}.

Module SecurityService.
Section WithPrimitives.

(** The SHA-256 hex digest of [hashBackupCode] and the two URL encoders of
    [generateQRCodeURL] are library functions. *)
Variable sha256_hex : string -> string.
Variable encodeURIComponent : string -> string.
Variable urlSearchParams : list (string * string) -> string.

Definition logSecurityEvent (e : Env) (ev : SecurityEvent) : M unit :=
  try_catch
    (Prisma.userActivity_create e
       (UserActivity.mk (ev_userId ev) (event ev) None (ev_metadata ev) (now e)))
    (fun _ => ret tt).

Definition generateBackupCodes (en : Entropy) : list string :=
  map (fun i => Js.toUpperCase (String.substring 2 8 (randomBase36 en i))) (seq 0 10).

Definition hashBackupCode (code : string) : string := sha256_hex code.

Definition storeBackupCodes (e : Env) (userId : string) (codes : list string) : M unit :=
  try_catch
    (let hashedCodes := map (fun c => Json.mkCode (hashBackupCode c) false (now e)) codes in
     logSecurityEvent e
       (mkEvent userId "backup_codes_generated"
          [("codesCount", Json.Num (Z.of_nat (List.length codes)));
           ("generatedAt", Json.Num (now e));
           ("codes", Json.Codes hashedCodes)]))
    (fun _ => ret tt).

(** [storedCodes.find(c => c.code === hashedCode && !c.used)] followed by
    [matchingCode.used = true]: the array with its first unused match
    marked, if there is one. *)
Fixpoint mark_first (hashed : string) (l : list Json.BackupCode) : option (list Json.BackupCode) :=
  match l with
  | [] => None
  | c :: r =>
      if andb (String.eqb (Json.code c) hashed) (negb (Json.used c))
      then Some (Json.mkCode (Json.code c) true (Json.createdAt c) :: r)
      else option_map (cons c) (mark_first hashed r)
  end.

Definition is_backup_codes_of (userId : string) (a : UserActivity.t) : bool :=
  andb (String.eqb (UserActivity.userId a) userId)
       (String.eqb (UserActivity.activity a) "backup_codes_generated").

Definition verifyBackupCode (e : Env) (userId code : string) : M bool :=
  try_catch
    (backupCodesActivity <- Prisma.userActivity_findFirst e (is_backup_codes_of userId) ;;
     match backupCodesActivity with
     | None => ret false
     | Some (id, row) =>
         let metadata := UserActivity.metadata row in
         match Json.get "codes" metadata with
         | Some (Json.Codes storedCodes) =>
             match mark_first (hashBackupCode code) storedCodes with
             | Some marked =>
                 Prisma.userActivity_update e id (Json.set "codes" (Json.Codes marked) metadata) ;;
                 logSecurityEvent e
                   (mkEvent userId "backup_code_used"
                      [("usedAt", Json.Num (now e));
                       ("remainingCodes",
                        Json.Num (Z.of_nat (List.length
                          (filter (fun c => negb (Json.used c)) marked))))]) ;;
                 ret true
             | None => ret false
             end
         | Some (Json.Strs _) => ret false
         | _ => throw "TypeError"
         end
     end)
    (fun _ => ret false).

(** The inner [while (bits >= 5)] of [generateTOTPSecret]; it runs
    [bits / 5] times. *)
Fixpoint emit_quintets (n : nat) (value bits : Z) (result : string) : Z * string :=
  match n with
  | O => (bits, result)
  | S k =>
      let c := match String.get (Z.to_nat (Js.and (Js.ushr value (bits - 5)) 31)) Totp.base32chars with
               | Some c => String c EmptyString
               | None => "undefined"
               end in
      emit_quintets k value (bits - 5) (result ++ c)%string
  end.

Fixpoint encode_loop (buffer : list Z) (value bits : Z) (result : string) : string :=
  match buffer with
  | [] =>
      if 0 <? bits
      then match String.get (Z.to_nat (Js.and (Js.shl value (5 - bits)) 31)) Totp.base32chars with
           | Some c => (result ++ String c EmptyString)%string
           | None => (result ++ "undefined")%string
           end
      else result
  | b :: r =>
      let value := Js.or (Js.shl value 8) b in
      let bits := bits + 8 in
      let '(bits', result') := emit_quintets (Z.to_nat (bits / 5)) value bits result in
      encode_loop r value bits' result'
  end.

Definition generateTOTPSecret (en : Entropy) : string :=
  encode_loop (firstn 20 (randomBytes en)) 0 0 "".

Definition generateQRCodeURL (email secret : string) : string :=
  let issuer := "QuillHaven" in
  let label := (issuer ++ ":" ++ email)%string in
  let params := urlSearchParams
                  [("secret", secret); ("issuer", issuer); ("algorithm", "SHA1");
                   ("digits", "6"); ("period", "30")] in
  ("otpauth://totp/" ++ encodeURIComponent label ++ "?" ++ params)%string.

Definition orUnknown (s : option string) : string :=
  match s with
  | Some (String c r) => String c r
  | _ => "unknown"
  end.

Definition enableTwoFactor (e : Env) (en : Entropy) (userId : string) (ipAddress : option string)
  : M TwoFactorSetup :=
  try_catch
    (user <- ClerkApi.getUser e userId ;;
     if Clerk.twoFactorEnabled user
     then ret (mkSetup false (Some "Two-factor authentication is already enabled") None None None)
     else
       Prisma.user_update e userId
         (fun u => User.mk (User.clerkId u) (User.email u) (User.emailVerified u) (User.firstName u)
                     (User.lastName u) (User.imageUrl u) (User.role u) (now e) (User.lastLoginAt u)
                     true (User.profile u) (User.preferences u)) ;;
       logSecurityEvent e
         (mkEvent userId "two_factor_enabled"
            [("enabledAt", Json.Num (now e)); ("method", Json.Str "totp");
             ("ipAddress", Json.Str (orUnknown ipAddress)); ("userAgent", Json.Str "unknown")]) ;;
       let backupCodes := generateBackupCodes en in
       storeBackupCodes e userId backupCodes ;;
       let totpSecret := generateTOTPSecret en in
       ClerkApi.updateUserMetadata e userId
         (Clerk.mkPrivate (Some totpSecret) (Some true)
            (Clerk.profile (Clerk.privateMetadata user))
            (Clerk.preferences (Clerk.privateMetadata user))) ;;
       ret (mkSetup true (Some "Two-factor authentication enabled successfully")
              (Some totpSecret)
              (Some (generateQRCodeURL
                       (match Clerk.emailAddresses user with
                        | a :: _ => Clerk.emailAddress a
                        | [] => ""
                        end) totpSecret))
              (Some backupCodes)))
    (fun error =>
       logSecurityEvent e
         (mkEvent userId "two_factor_enable_failed"
            [("error", Json.Str error); ("attemptedAt", Json.Num (now e));
             ("ipAddress", Json.Str (orUnknown ipAddress))]) ;;
       throw "Failed to enable two-factor authentication").

(** The [where] clause of the login-history query. *)
Definition is_recent_login (e : Env) (userId : string) (a : UserActivity.t) : bool :=
  andb (andb (String.eqb (UserActivity.userId a) userId)
             (String.eqb (UserActivity.activity a) "session_created"))
       (now e - 7 * 24 * 60 * 60 * 1000 <=? UserActivity.createdAt a).

(** The metadata values under [key] of the logins, the falsy ones dropped. *)
Definition known (key : string) (recentLogins : list (nat * UserActivity.t)) : list (option Json.t) :=
  filter Json.truthy
    (map (fun login => Json.get key (UserActivity.metadata (snd login))) recentLogins).

(** The factor list that the body of [detectSuspiciousLogin] builds. *)
Definition suspiciousFactors (e : Env) (ipAddress userAgent : string)
  (recentLogins : list (nat * UserActivity.t)) : list string :=
  let knownIPs := known "ipAddress" recentLogins in
  let knownUserAgents := known "userAgent" recentLogins in
  let recentAttempts :=
    filter (fun login => now e - 60 * 60 * 1000 <? UserActivity.createdAt (snd login))
      recentLogins in
  (if andb (0 <? List.length knownIPs)%nat (negb (Json.includes_str ipAddress knownIPs))
   then ["new_ip_address"] else [])
  ++ (if andb (0 <? List.length knownUserAgents)%nat
              (negb (Json.includes_str userAgent knownUserAgents))
      then ["new_user_agent"] else [])
  ++ (if (5 <? List.length recentAttempts)%nat then ["rapid_login_attempts"] else []).

Definition detectSuspiciousLogin (e : Env) (userId ipAddress userAgent : string)
  : M SuspiciousLoginResult :=
  try_catch
    (found <- Prisma.userActivity_findMany e (is_recent_login e userId) ;;
     let recentLogins := firstn 10 found in
     let suspiciousFactors := suspiciousFactors e ipAddress userAgent recentLogins in
     let isSuspicious := (0 <? List.length suspiciousFactors)%nat in
     (if isSuspicious
      then logSecurityEvent e
             (mkEvent userId "suspicious_login"
                [("factors", Json.Strs suspiciousFactors); ("ipAddress", Json.Str ipAddress);
                 ("userAgent", Json.Str userAgent); ("detectedAt", Json.Num (now e))])
      else ret tt) ;;
     ret (mkSuspicious isSuspicious suspiciousFactors
            (if (2 <=? List.length suspiciousFactors)%nat then high else medium)))
    (fun _ => ret (mkSuspicious false [] low)).

End WithPrimitives.
End SecurityService.

(** ** Security configuration ([src/lib/config/security.ts]) *)

Record SessionSecurityConfig := mkSessionConfig {
  maxConcurrentSessions : Z;
  sessionTimeoutMinutes : Z;
  inactiveSessionTimeoutDays : Z;
  requireReauthenticationHours : Z;
  suspiciousLoginThreshold : Z;
  maxLoginAttemptsPerHour : Z;
  sessionCleanupIntervalHours : Z
}.

(** [defaultSecurityConfig.session] when no environment variable overrides
    a value. *)
Definition defaultSecurityConfig : SessionSecurityConfig :=
  mkSessionConfig 5 1440 30 168 3 10 24.

(** ** SessionService ([src/lib/services/session.ts]) *)

Record SessionActivity := mkSessionActivity {
  sa_userId : string;
  sa_sessionId : string;
  sa_activity : string;
  sa_metadata : Json.obj
}.

Record SecurityPolicyResult := mkPolicyResult {
  violations : list string;
  actions : list string;
  actionsPerformed : bool;
  remainingSessions : Z;
  totalSessions : Z;
  revokedSessions : Z
}.

Module SessionService.

Definition logSessionActivity (e : Env) (a : SessionActivity) : M unit :=
  try_catch
    (Prisma.userActivity_create e
       (UserActivity.mk (sa_userId a) (sa_activity a) (Some (sa_sessionId a)) (sa_metadata a) (now e)))
    (fun _ => ret tt).

(** The [data] of the update in [endSession]. *)
Definition ended (e : Env) (s : UserSession.t) : UserSession.t :=
  UserSession.mk (UserSession.userId s) (UserSession.token s) (UserSession.expiresAt s)
    (UserSession.createdAt s) (now e) (UserSession.ipAddress s) (UserSession.userAgent s) false.

Definition endSession (e : Env) (sessionId reason : string) : M unit :=
  try_catch
    (session <- Prisma.userSession_findUnique e sessionId ;;
     match session with
     | None => ret tt
     | Some session =>
         Prisma.userSession_update e sessionId (ended e) ;;
         logSessionActivity e
           (mkSessionActivity (UserSession.userId session) sessionId "session_ended"
              [("reason", Json.Str reason);
               ("duration", Json.Num (now e - UserSession.createdAt session));
               ("endedAt", Json.Num (now e))])
     end)
    (fun _ => throw "Failed to end session").

(** The [where] clause of [getActiveSessions]. *)
Definition is_active_of (e : Env) (userId : string) (s : UserSession.t) : bool :=
  andb (andb (String.eqb (UserSession.userId s) userId) (UserSession.isActive s))
       (now e <? UserSession.expiresAt s).

Definition getActiveSessions (e : Env) (userId : string) : M (list UserSession.t) :=
  try_catch (Prisma.userSession_findMany e (is_active_of e userId)) (fun _ => ret []).

(** [xs.filter(Boolean)] on nullable strings. *)
Definition truthy_strings (l : list (option string)) : list string :=
  flat_map (fun o => match o with
                     | Some (String c r) => [String c r]
                     | _ => []
                     end) l.

(** [[...new Set(xs)]]: first occurrences, in order. *)
Fixpoint dedup (l : list string) : list string :=
  match l with
  | [] => []
  | x :: r => x :: filter (fun y => negb (String.eqb y x)) (dedup r)
  end.

Definition by_lastActiveAt (a b : UserSession.t) : bool :=
  UserSession.lastActiveAt a <=? UserSession.lastActiveAt b.

Definition is_stale (e : Env) (cfg : SessionSecurityConfig) (s : UserSession.t) : bool :=
  inactiveSessionTimeoutDays cfg * 24 * 60 * 60 * 1000 <? now e - UserSession.lastActiveAt s.

Definition is_bot_agent (ua : string) : bool :=
  orb (orb (Js.includes "bot" ua) (Js.includes "crawler" ua)) (Js.includes "spider" ua).

Definition needs_reauth (e : Env) (cfg : SessionSecurityConfig) (s : UserSession.t) : bool :=
  requireReauthenticationHours cfg * 60 * 60 * 1000 <? now e - UserSession.createdAt s.

Definition len {A} (l : list A) : Z := Z.of_nat (List.length l).

Definition enforceSecurityPolicies (e : Env) (cfg : SessionSecurityConfig) (userId : string)
  : M SecurityPolicyResult :=
  try_catch
    (fetched <- getActiveSessions e userId ;;
     let maxSessions := maxConcurrentSessions cfg in
     let tooMany := maxSessions <? len fetched in
     (* [sort] orders the array in place *)
     let activeSessions := if tooMany then sort_by by_lastActiveAt fetched else fetched in
     let oldestSessions :=
       if tooMany then firstn (Z.to_nat (len activeSessions - maxSessions)) activeSessions else [] in
     for_each (fun s => endSession e (UserSession.token s) "policy_violation_concurrent_limit")
       oldestSessions ;;
     let ipAddresses := dedup (truthy_strings (map UserSession.ipAddress activeSessions)) in
     let manyLocations := 3 <? len ipAddresses in
     let staleSessions := filter (is_stale e cfg) activeSessions in
     let anyStale := 0 <? len staleSessions in
     for_each (fun s => endSession e (UserSession.token s) "policy_violation_stale")
       (if anyStale then staleSessions else []) ;;
     let suspiciousAgents :=
       filter is_bot_agent (truthy_strings (map UserSession.userAgent activeSessions)) in
     let anySuspicious := 0 <? len suspiciousAgents in
     let oldAuthSessions := filter (needs_reauth e cfg) activeSessions in
     let anyOldAuth := 0 <? len oldAuthSessions in
     let violations :=
       (if tooMany then ["too_many_sessions"] else [])
       ++ (if manyLocations then ["multiple_locations"] else [])
       ++ (if anyStale then ["stale_sessions"] else [])
       ++ (if anySuspicious then ["suspicious_user_agents"] else [])
       ++ (if anyOldAuth then ["requires_reauthentication"] else []) in
     let actions :=
       (if tooMany
        then ["Revoked " ++ Js.toString (len activeSessions - maxSessions) ++ " oldest sessions"]%string
        else [])
       ++ (if manyLocations
           then ["Detected sessions from " ++ Js.toString (len ipAddresses)
                 ++ " different locations"]%string
           else [])
       ++ (if anyStale
           then ["Revoked " ++ Js.toString (len staleSessions) ++ " stale sessions"]%string
           else [])
       ++ (if anySuspicious
           then ["Detected " ++ Js.toString (len suspiciousAgents) ++ " suspicious user agents"]%string
           else [])
       ++ (if anyOldAuth
           then [Js.toString (len oldAuthSessions) ++ " sessions require re-authentication"]%string
           else []) in
     let revokedSessionsCount :=
       (if tooMany then len oldestSessions else 0) + (if anyStale then len staleSessions else 0) in
     (if (0 <? List.length violations)%nat
      then logSessionActivity e
             (mkSessionActivity userId "" "security_policy_enforced"
                [("violations", Json.Strs violations);
                 ("actions", Json.Strs actions);
                 ("enforcedAt", Json.Num (now e));
                 ("sessionsRevoked", Json.Num revokedSessionsCount);
                 ("totalSessions", Json.Num (len activeSessions));
                 ("remainingSessions", Json.Num (len activeSessions - revokedSessionsCount));
                 ("securityLevel",
                  Json.Str (match securityLevel e with
                            | Some (String c r) => String c r
                            | _ => "development"
                            end))])
      else ret tt) ;;
     ret (mkPolicyResult violations actions (0 <? List.length violations)%nat
            (len activeSessions - revokedSessionsCount) (len activeSessions)
            revokedSessionsCount))
    (fun _ => ret (mkPolicyResult [] [] false 0 0 0)).

End SessionService.

(** ** ProfileSyncService (synchronisation from the identity provider) *)

Module ProfileSyncService.

Record SyncOptions := mkOptions { force : bool; skipConflicts : bool }.

(** [options = {}]. *)
Definition defaultOptions : SyncOptions := mkOptions false false.

Record SyncResult := mkResult {
  success : bool;
  changes : list string;
  conflicts : list string;
  message : string;
  error : option string
}.

Record SyncActivity := mkSyncActivity {
  sy_userId : string;
  direction : string;
  sy_changes : list string;
  sy_success : bool;
  sy_error : option string;
  sy_conflicts : option (list string)
}.

Definition logSyncActivity (e : Env) (a : SyncActivity) : M unit :=
  try_catch
    (Prisma.userActivity_create e
       (UserActivity.mk (sy_userId a) ("profile_sync_" ++ direction a)%string None
          [("changes", Json.Strs (sy_changes a));
           ("success", Json.Bool (sy_success a));
           ("error", match sy_error a with Some m => Json.Str m | None => Json.Null end);
           ("conflicts", match sy_conflicts a with Some c => Json.Strs c | None => Json.Null end);
           ("duration", Json.Num 0);
           ("timestamp", Json.Num (now e))]
          (now e)))
    (fun _ => ret tt).

(** [x || ''] and [x || null] on a nullable string. *)
Definition orEmpty (o : option string) : string :=
  match o with Some s => s | None => "" end.
Definition orNull (o : option string) : option string :=
  match o with Some (String c r) => Some (String c r) | _ => None end.
(** [x || d] on a nullable string. *)
Definition orDefault (d : string) (o : option string) : string :=
  match o with Some (String c r) => String c r | _ => d end.

Definition opt_eqb (a b : option string) : bool :=
  match a, b with
  | Some x, Some y => String.eqb x y
  | None, None => true
  | _, _ => false
  end.

Definition strings_eqb (a b : list string) : bool :=
  if list_eq_dec string_dec a b then true else false.

Definition role_eqb (a b : UserRole) : bool :=
  match a, b with
  | USER, USER | EDITOR, EDITOR | ADMIN, ADMIN => true
  | _, _ => false
  end.

(** [['USER', 'EDITOR', 'ADMIN'].includes(clerkRole) ? clerkRole : 'USER']. *)
Definition validRole (clerkRole : option string) : UserRole :=
  match clerkRole with
  | Some r => if String.eqb r "EDITOR" then EDITOR
              else if String.eqb r "ADMIN" then ADMIN else USER
  | None => USER
  end.

(** The [userData] object built from the identity provider's record. *)
Record UserData := mkUserData {
  d_email : string;
  d_firstName : string;
  d_lastName : string;
  d_imageUrl : string;
  d_emailVerified : bool;
  d_twoFactorEnabled : bool
}.

Definition userData (c : Clerk.User) : UserData :=
  mkUserData
    (match Clerk.emailAddresses c with a :: _ => Clerk.emailAddress a | [] => "" end)
    (orEmpty (Clerk.firstName c)) (orEmpty (Clerk.lastName c)) (orEmpty (Clerk.imageUrl c))
    (match Clerk.emailAddresses c with a :: _ => Clerk.verified a | [] => false end)
    (Clerk.twoFactorEnabled c).

(** The seven comparisons of the update branch, as (field name, differs). *)
Definition userDiffs (u : User.t) (c : Clerk.User) : list (string * bool) :=
  let d := userData c in
  [("email", negb (String.eqb (User.email u) (d_email d)));
   ("firstName", negb (opt_eqb (User.firstName u) (Some (d_firstName d))));
   ("lastName", negb (opt_eqb (User.lastName u) (Some (d_lastName d))));
   ("imageUrl", negb (opt_eqb (User.imageUrl u) (Some (d_imageUrl d))));
   ("emailVerified", negb (Bool.eqb (User.emailVerified u) (d_emailVerified d)));
   ("twoFactorEnabled", negb (Bool.eqb (User.twoFactorEnabled u) (d_twoFactorEnabled d)));
   ("role", negb (role_eqb (User.role u) (validRole (Clerk.publicRole c))))].

Definition changed (diffs : list (string * bool)) : list string :=
  map fst (filter snd diffs).

(** [updateData] applied to a row: the differing fields and [updatedAt]. *)
Definition applyUpdateData (e : Env) (c : Clerk.User) (u : User.t) : User.t :=
  let d := userData c in
  User.mk (User.clerkId u)
    (if String.eqb (User.email u) (d_email d) then User.email u else d_email d)
    (if Bool.eqb (User.emailVerified u) (d_emailVerified d)
     then User.emailVerified u else d_emailVerified d)
    (if opt_eqb (User.firstName u) (Some (d_firstName d))
     then User.firstName u else Some (d_firstName d))
    (if opt_eqb (User.lastName u) (Some (d_lastName d))
     then User.lastName u else Some (d_lastName d))
    (if opt_eqb (User.imageUrl u) (Some (d_imageUrl d))
     then User.imageUrl u else Some (d_imageUrl d))
    (if role_eqb (User.role u) (validRole (Clerk.publicRole c))
     then User.role u else validRole (Clerk.publicRole c))
    (now e) (User.lastLoginAt u)
    (if Bool.eqb (User.twoFactorEnabled u) (d_twoFactorEnabled d)
     then User.twoFactorEnabled u else d_twoFactorEnabled d)
    (User.profile u) (User.preferences u).

Definition emptyProfileMeta : Clerk.ProfileMeta := Clerk.mkProfileMeta None None None None None.
Definition emptyPreferencesMeta : Clerk.PreferencesMeta :=
  Clerk.mkPreferencesMeta None None None None None None None None 0.

(** The profile that the [upsert] writes. *)
Definition profileOf (e : Env) (p : Clerk.ProfileMeta) : UserProfile.t :=
  UserProfile.mk (orNull (Clerk.bio p)) (orNull (Clerk.location p)) (orNull (Clerk.website p))
    (match Clerk.writingGenres p with Some g => g | None => [] end)
    (orNull (Clerk.experienceLevel p)) (now e).

Definition profileDiffs (existing : option UserProfile.t) (p : Clerk.ProfileMeta) : list string :=
  match existing with
  | None => ["profile_created"]
  | Some x =>
      changed
        [("profile_bio", negb (opt_eqb (UserProfile.bio x) (orNull (Clerk.bio p))));
         ("profile_location", negb (opt_eqb (UserProfile.location x) (orNull (Clerk.location p))));
         ("profile_website", negb (opt_eqb (UserProfile.website x) (orNull (Clerk.website p))));
         ("profile_writing_genres",
          negb (strings_eqb (UserProfile.writingGenres x)
                  (match Clerk.writingGenres p with Some g => g | None => [] end)));
         ("profile_experience_level",
          negb (opt_eqb (UserProfile.experienceLevel x) (orNull (Clerk.experienceLevel p))))]
  end.

Definition some_key {A} (o : option A) : nat := match o with Some _ => 1 | None => 0 end.

(** [Object.keys(preferencesData).length]. *)
Definition preferenceKeys (p : Clerk.PreferencesMeta) : nat :=
  (some_key (Clerk.theme p) + some_key (Clerk.language p) + some_key (Clerk.timezone p)
   + some_key (Clerk.emailNotifications p) + some_key (Clerk.marketingEmails p)
   + some_key (Clerk.weeklyDigest p) + some_key (Clerk.autoSave p)
   + some_key (Clerk.autoSaveInterval p) + Clerk.otherKeys p)%nat.

(** The preferences that the [upsert] writes. *)
Definition preferencesOf (e : Env) (p : Clerk.PreferencesMeta) : UserPreferences.t :=
  UserPreferences.mk (orDefault "system" (Clerk.theme p)) (orDefault "en" (Clerk.language p))
    (orDefault "UTC" (Clerk.timezone p))
    (match Clerk.emailNotifications p with Some b => b | None => true end)
    (match Clerk.marketingEmails p with Some b => b | None => false end)
    (match Clerk.weeklyDigest p with Some b => b | None => true end)
    (match Clerk.autoSave p with Some b => b | None => true end)
    (match Clerk.autoSaveInterval p with
     | Some n => if n =? 0 then 30 else n
     | None => 30
     end)
    (now e).

Definition preferencesDiffs (existing : option UserPreferences.t) (p : Clerk.PreferencesMeta)
  : list string :=
  match existing with
  | None => ["preferences_created"]
  | Some x =>
      changed
        [("preferences_theme",
          negb (String.eqb (UserPreferences.theme x) (orDefault "system" (Clerk.theme p))));
         ("preferences_language",
          negb (String.eqb (UserPreferences.language x) (orDefault "en" (Clerk.language p))));
         ("preferences_timezone",
          negb (String.eqb (UserPreferences.timezone x) (orDefault "UTC" (Clerk.timezone p))))]
  end.

Definition setProfile (p : UserProfile.t) (u : User.t) : User.t :=
  User.mk (User.clerkId u) (User.email u) (User.emailVerified u) (User.firstName u)
    (User.lastName u) (User.imageUrl u) (User.role u) (User.updatedAt u) (User.lastLoginAt u)
    (User.twoFactorEnabled u) (Some p) (User.preferences u).

Definition setPreferences (p : UserPreferences.t) (u : User.t) : User.t :=
  User.mk (User.clerkId u) (User.email u) (User.emailVerified u) (User.firstName u)
    (User.lastName u) (User.imageUrl u) (User.role u) (User.updatedAt u) (User.lastLoginAt u)
    (User.twoFactorEnabled u) (User.profile u) (Some p).

(** [syncProfileData]: its [catch] returns the changes gathered so far. *)
Definition syncProfileData (e : Env) (clerkId : string) (clerkUser : Clerk.User)
  (options : SyncOptions) : M (list string) :=
  try_catch
    (found <- Prisma.user_findUnique e clerkId ;;
     match found with
     | None => ret []
     | Some user =>
         let profileData :=
           match Clerk.profile (Clerk.privateMetadata clerkUser) with
           | Some p => p
           | None => emptyProfileMeta
           end in
         let profileChanges := profileDiffs (User.profile user) profileData in
         let apply := orb (force options) (negb (skipConflicts options)) in
         try_catch
           ((if andb (0 <? List.length profileChanges)%nat apply
             then Prisma.relation_upsert e clerkId (setProfile (profileOf e profileData))
             else ret tt) ;;
            let preferencesData :=
              match Clerk.preferences (Clerk.privateMetadata clerkUser) with
              | Some p => p
              | None => emptyPreferencesMeta
              end in
            if (0 <? preferenceKeys preferencesData)%nat
            then
              let preferencesChanges := preferencesDiffs (User.preferences user) preferencesData in
              try_catch
                ((if andb (0 <? List.length preferencesChanges)%nat apply
                  then Prisma.relation_upsert e clerkId (setPreferences (preferencesOf e preferencesData))
                  else ret tt) ;;
                 ret (profileChanges ++ preferencesChanges))
                (fun _ => ret (profileChanges ++ preferencesChanges))
            else ret profileChanges)
           (fun _ => ret profileChanges)
     end)
    (fun _ => ret []).

Definition newUser (e : Env) (clerkId : string) (c : Clerk.User) : User.t :=
  let d := userData c in
  User.mk clerkId (d_email d) (d_emailVerified d) (Some (d_firstName d)) (Some (d_lastName d))
    (Some (d_imageUrl d)) (validRole (Clerk.publicRole c)) (now e) None (d_twoFactorEnabled d)
    None None.

Definition defaultPreferences (e : Env) : UserPreferences.t :=
  UserPreferences.mk "system" "en" "UTC" true false true true 30 (now e).

Definition defaultProfile (e : Env) : UserProfile.t :=
  UserProfile.mk None None None [] None (now e).

Definition syncFromClerk (e : Env) (clerkId : string) (options : SyncOptions) : M SyncResult :=
  try_catch
    (clerkUser <- ClerkApi.getUser e clerkId ;;
     existingUser <- Prisma.user_findUnique e clerkId ;;
     outcome <-
       match existingUser with
       | Some existingUser =>
           let conflicts :=
             if andb (negb (force options))
                     (Clerk.updatedAt clerkUser <? User.updatedAt existingUser)
             then ["user_data_newer_in_database"] else [] in
           let changes := changed (userDiffs existingUser clerkUser) in
           (if andb (0 <? List.length changes)%nat
                    (orb (force options) (List.length conflicts =? 0)%nat)
            then Prisma.user_update e clerkId (applyUpdateData e clerkUser)
            else ret tt) ;;
           profileChanges <- syncProfileData e clerkId clerkUser options ;;
           ret (changes ++ profileChanges, conflicts)
       | None =>
           Prisma.user_create e (newUser e clerkId clerkUser) ;;
           Prisma.relation_upsert e clerkId (setPreferences (defaultPreferences e)) ;;
           Prisma.relation_upsert e clerkId (setProfile (defaultProfile e)) ;;
           ret (["user_created"; "preferences_created"; "profile_created"], [])
       end ;;
     let '(changes, conflicts) := outcome in
     logSyncActivity e (mkSyncActivity clerkId "from_clerk" changes true None (Some conflicts)) ;;
     ret (mkResult true changes conflicts
            ("Synchronized " ++ Js.toString (Z.of_nat (List.length changes))
             ++ " changes from Clerk")%string None))
    (fun err =>
       logSyncActivity e (mkSyncActivity clerkId "from_clerk" [] false (Some err) None) ;;
       ret (mkResult false [] [] "Failed to sync from Clerk" (Some err))).

End ProfileSyncService.

(** ** Derived notions used to state the properties *)

Module Effects.

(** A byte value, and a counter that fits the 32-bit writes of the source. *)
Definition byte (b : Z) : Prop := 0 <= b <= 255.
Definition in_range (t : Z) : Prop := 0 <= t < 2147483648.

(** The world after one more [UserActivity] row. *)
Definition add_activity (row : UserActivity.t) (w : World) : World :=
  mkWorld (users w) (userSessions w) (userActivities w ++ [row]) (clerkUsers w).

(** The rows that [logSecurityEvent] and [logSessionActivity] create. *)
Definition security_row (e : Env) (ev : SecurityEvent) : UserActivity.t :=
  UserActivity.mk (ev_userId ev) (event ev) None (ev_metadata ev) (now e).
Definition session_row (e : Env) (a : SessionActivity) : UserActivity.t :=
  UserActivity.mk (sa_userId a) (sa_activity a) (Some (sa_sessionId a)) (sa_metadata a) (now e).

(** The login history that the query of [detectSuspiciousLogin] returns. *)
Definition recentLogins (e : Env) (userId : string) (w : World) : list (nat * UserActivity.t) :=
  firstn 10
    (sort_by (fun a b => UserActivity.createdAt (snd b) <=? UserActivity.createdAt (snd a))
       (filter (fun r => SecurityService.is_recent_login e userId (snd r))
          (Prisma.indexed (userActivities w)))).

(** The [session_ended] row that [endSession] logs for the session [s]. *)
Definition session_ended_row (e : Env) (s : UserSession.t) (sessionId reason : string)
  : UserActivity.t :=
  session_row e
    (mkSessionActivity (UserSession.userId s) sessionId "session_ended"
       [("reason", Json.Str reason);
        ("duration", Json.Num (now e - UserSession.createdAt s));
        ("endedAt", Json.Num (now e))]).

Definition has_token (tok : string) (s : UserSession.t) : bool :=
  String.eqb (UserSession.token s) tok.

(** The session table after the rows with token [tok] were ended. *)
Definition end_rows (e : Env) (tok : string) (l : list UserSession.t) : list UserSession.t :=
  map (fun s => if has_token tok s then SessionService.ended e s else s) l.

(** The world that [endSession] leaves behind while the store answers. *)
Definition end_effect (e : Env) (tok reason : string) (w : World) : World :=
  match find (has_token tok) (userSessions w) with
  | None => w
  | Some s =>
      mkWorld (users w) (end_rows e tok (userSessions w))
        (userActivities w ++ [session_ended_row e s tok reason]) (clerkUsers w)
  end.

(** The rows numbered from [k], and what an update of row [n] does to the
    numbered rows. *)
Definition indexed_from {A} (k : nat) (l : list A) : list (nat * A) :=
  combine (seq k (List.length l)) l.
Definition at_id {A} (n : nat) (f : A -> A) (p : nat * A) : nat * A :=
  if Nat.eqb (fst p) n then (fst p, f (snd p)) else p.

(** The newest [backup_codes_generated] row of a principal, as
    [verifyBackupCode] finds it, and the codes stored in it. *)
Definition latestBackupCodes (w : World) (userId : string) : option (nat * UserActivity.t) :=
  hd_error
    (sort_by (fun a b => UserActivity.createdAt (snd b) <=? UserActivity.createdAt (snd a))
       (filter (fun r => SecurityService.is_backup_codes_of userId (snd r))
          (Prisma.indexed (userActivities w)))).

Definition codes_of (row : UserActivity.t) : option (list Json.BackupCode) :=
  match Json.get "codes" (UserActivity.metadata row) with
  | Some (Json.Codes l) => Some l
  | _ => None
  end.

Definition storedCodes (w : World) (userId : string) : option (list Json.BackupCode) :=
  match latestBackupCodes w userId with
  | Some (_, row) => codes_of row
  | None => None
  end.

(** A stored code with its flag set when its hash is [h]. *)
Definition mark_used (h : string) (c : Json.BackupCode) : Json.BackupCode :=
  if String.eqb (Json.code c) h then Json.mkCode (Json.code c) true (Json.createdAt c) else c.

(** The same stored code, its [used] flag not reset. *)
Definition flag_le (a b : Json.BackupCode) : Prop :=
  Json.code a = Json.code b /\ Json.createdAt a = Json.createdAt b /\
  (Json.used a = true -> Json.used b = true).

(** No stored code of any principal has its flag reset from [w] to [w']. *)
Definition codes_le (w w' : World) : Prop :=
  forall userId l, storedCodes w userId = Some l ->
    exists l', storedCodes w' userId = Some l' /\ Forall2 flag_le l l'.

(** Every stored code with hash [h] is used. *)
Definition all_used (h : string) (l : list Json.BackupCode) : Prop :=
  forall b, In b l -> Json.code b = h -> Json.used b = true.

(** The order of [orderBy: { createdAt: 'desc' }] on numbered rows. *)
Definition by_createdAt_desc (a b : nat * UserActivity.t) : bool :=
  UserActivity.createdAt (snd b) <=? UserActivity.createdAt (snd a).

(** A row with its metadata replaced (the [data] of the update). *)
Definition with_metadata (md : Json.obj) (r : UserActivity.t) : UserActivity.t :=
  UserActivity.mk (UserActivity.userId r) (UserActivity.activity r) (UserActivity.sessionId r)
    md (UserActivity.createdAt r).

(** The world after a successful [verifyBackupCode]: row [id] carries the
    marked codes and a [backup_code_used] event is appended. *)
Definition code_used_world (e : Env) (userId : string) (id : nat) (row : UserActivity.t)
  (marked : list Json.BackupCode) (w : World) : World :=
  add_activity
    (security_row e
       (mkEvent userId "backup_code_used"
          [("usedAt", Json.Num (now e));
           ("remainingCodes",
            Json.Num (Z.of_nat (List.length (filter (fun c => negb (Json.used c)) marked))))]))
    (mkWorld (users w) (userSessions w)
       (Prisma.update_nth id
          (with_metadata (Json.set "codes" (Json.Codes marked) (UserActivity.metadata row)))
          (userActivities w))
       (clerkUsers w)).

(** A sequence of later [verifyBackupCode] calls: environment, principal
    and candidate of each. *)
Definition run_verifies (sha256_hex : string -> string)
  (calls : list (Env * string * string)) (w : World) : World :=
  fold_left (fun w c => snd (SecurityService.verifyBackupCode sha256_hex
                               (fst (fst c)) (snd (fst c)) (snd c) w)) calls w.

(** *** What [enforceSecurityPolicies] computes while the store answers *)

(** The result of [getActiveSessions]. *)
Definition fetched (e : Env) (userId : string) (w : World) : list UserSession.t :=
  sort_by (fun a b => UserSession.lastActiveAt b <=? UserSession.lastActiveAt a)
    (filter (SessionService.is_active_of e userId) (userSessions w)).

Definition tooMany (cfg : SessionSecurityConfig) (fs : list UserSession.t) : bool :=
  maxConcurrentSessions cfg <? SessionService.len fs.

(** [activeSessions] after the in-place sort of the first check. *)
Definition activeSessions (cfg : SessionSecurityConfig) (fs : list UserSession.t)
  : list UserSession.t :=
  if tooMany cfg fs then sort_by SessionService.by_lastActiveAt fs else fs.

Definition oldestSessions (cfg : SessionSecurityConfig) (fs : list UserSession.t)
  : list UserSession.t :=
  if tooMany cfg fs
  then firstn (Z.to_nat (SessionService.len (activeSessions cfg fs) - maxConcurrentSessions cfg))
         (activeSessions cfg fs)
  else [].

Definition staleSessions (e : Env) (cfg : SessionSecurityConfig) (fs : list UserSession.t)
  : list UserSession.t :=
  filter (SessionService.is_stale e cfg) (activeSessions cfg fs).

Definition ipAddresses (cfg : SessionSecurityConfig) (fs : list UserSession.t) : list string :=
  SessionService.dedup
    (SessionService.truthy_strings (map UserSession.ipAddress (activeSessions cfg fs))).

Definition suspiciousAgents (cfg : SessionSecurityConfig) (fs : list UserSession.t) : list string :=
  filter SessionService.is_bot_agent
    (SessionService.truthy_strings (map UserSession.userAgent (activeSessions cfg fs))).

Definition oldAuthSessions (e : Env) (cfg : SessionSecurityConfig) (fs : list UserSession.t)
  : list UserSession.t :=
  filter (SessionService.needs_reauth e cfg) (activeSessions cfg fs).

Definition policy_violations (e : Env) (cfg : SessionSecurityConfig) (fs : list UserSession.t)
  : list string :=
  (if tooMany cfg fs then ["too_many_sessions"] else [])
  ++ (if 3 <? SessionService.len (ipAddresses cfg fs) then ["multiple_locations"] else [])
  ++ (if 0 <? SessionService.len (staleSessions e cfg fs) then ["stale_sessions"] else [])
  ++ (if 0 <? SessionService.len (suspiciousAgents cfg fs) then ["suspicious_user_agents"] else [])
  ++ (if 0 <? SessionService.len (oldAuthSessions e cfg fs)
      then ["requires_reauthentication"] else []).

Definition policy_actions (e : Env) (cfg : SessionSecurityConfig) (fs : list UserSession.t)
  : list string :=
  (if tooMany cfg fs
   then ["Revoked "
         ++ Js.toString (SessionService.len (activeSessions cfg fs) - maxConcurrentSessions cfg)
         ++ " oldest sessions"]%string
   else [])
  ++ (if 3 <? SessionService.len (ipAddresses cfg fs)
      then ["Detected sessions from " ++ Js.toString (SessionService.len (ipAddresses cfg fs))
            ++ " different locations"]%string
      else [])
  ++ (if 0 <? SessionService.len (staleSessions e cfg fs)
      then ["Revoked " ++ Js.toString (SessionService.len (staleSessions e cfg fs))
            ++ " stale sessions"]%string
      else [])
  ++ (if 0 <? SessionService.len (suspiciousAgents cfg fs)
      then ["Detected " ++ Js.toString (SessionService.len (suspiciousAgents cfg fs))
            ++ " suspicious user agents"]%string
      else [])
  ++ (if 0 <? SessionService.len (oldAuthSessions e cfg fs)
      then [Js.toString (SessionService.len (oldAuthSessions e cfg fs))
            ++ " sessions require re-authentication"]%string
      else []).

Definition revokedCount (e : Env) (cfg : SessionSecurityConfig) (fs : list UserSession.t) : Z :=
  (if tooMany cfg fs then SessionService.len (oldestSessions cfg fs) else 0)
  + (if 0 <? SessionService.len (staleSessions e cfg fs)
     then SessionService.len (staleSessions e cfg fs) else 0).

Definition policy_result (e : Env) (cfg : SessionSecurityConfig) (fs : list UserSession.t)
  : SecurityPolicyResult :=
  mkPolicyResult (policy_violations e cfg fs) (policy_actions e cfg fs)
    (0 <? List.length (policy_violations e cfg fs))%nat
    (SessionService.len (activeSessions cfg fs) - revokedCount e cfg fs)
    (SessionService.len (activeSessions cfg fs)) (revokedCount e cfg fs).

(** The [security_policy_enforced] row. *)
Definition policy_row (e : Env) (cfg : SessionSecurityConfig) (userId : string)
  (fs : list UserSession.t) : UserActivity.t :=
  session_row e
    (mkSessionActivity userId "" "security_policy_enforced"
       [("violations", Json.Strs (policy_violations e cfg fs));
        ("actions", Json.Strs (policy_actions e cfg fs));
        ("enforcedAt", Json.Num (now e));
        ("sessionsRevoked", Json.Num (revokedCount e cfg fs));
        ("totalSessions", Json.Num (SessionService.len (activeSessions cfg fs)));
        ("remainingSessions",
         Json.Num (SessionService.len (activeSessions cfg fs) - revokedCount e cfg fs));
        ("securityLevel",
         Json.Str (match securityLevel e with
                   | Some (String c r) => String c r
                   | _ => "development"
                   end))]).

(** The world after [endSession] was called for each session of a list. *)
Definition end_all (e : Env) (reason : string) (ss : list UserSession.t) (w : World) : World :=
  fold_left (fun w s => end_effect e (UserSession.token s) reason w) ss w.

(** The session table after the rows with a token in [toks] were ended. *)
Definition end_all_rows (e : Env) (toks : list string) (l : list UserSession.t)
  : list UserSession.t :=
  map (fun s => if existsb (String.eqb (UserSession.token s)) toks
                then SessionService.ended e s else s) l.

(** The world that [enforceSecurityPolicies] leaves behind. *)
Definition policy_world (e : Env) (cfg : SessionSecurityConfig) (userId : string) (w : World)
  : World :=
  let fs := fetched e userId w in
  let w1 := end_all e "policy_violation_concurrent_limit" (oldestSessions cfg fs) w in
  let w2 := end_all e "policy_violation_stale" (staleSessions e cfg fs) w1 in
  if (0 <? List.length (policy_violations e cfg fs))%nat
  then add_activity (policy_row e cfg userId fs) w2
  else w2.

End Effects.

(** Concrete worlds and environments for the examples. *)
Module Fixtures.

Definition env_at (t : Z) : Env := mkEnv t true true None.
Definition env_down_at (t : Z) : Env := mkEnv t false true None.

(** One earlier login of [user_123], as in [security.test.ts]. *)
Definition world_one_login : World :=
  mkWorld [] []
    [UserActivity.mk "user_123" "session_created" (Some "sess_1")
       [("ipAddress", Json.Str "192.168.1.1"); ("userAgent", Json.Str "Mozilla/5.0")]
       1700000000000]
    [].

(** A principal whose identity record has two-factor authentication
    enabled, with a stored secret and stored backup codes. *)
Definition world_2fa : World :=
  mkWorld
    [User.mk "user_123" "test@example.com" true (Some "Ada") (Some "Byron") None USER
       1690000000000 None true None None]
    []
    [UserActivity.mk "user_123" "backup_codes_generated" None
       [("codesCount", Json.Num 2); ("generatedAt", Json.Num 1690000000000);
        ("codes", Json.Codes [Json.mkCode "h:ABCD1234" false 1690000000000;
                              Json.mkCode "h:WXYZ5678" true 1690000000000])]
       1690000000000]
    [Clerk.mkUser "user_123" [Clerk.mkEmail "test@example.com" true] (Some "Ada") (Some "Byron")
       None true 1690000000000 (Some "USER")
       (Clerk.mkPrivate (Some "GEZDGNBVGY3TQOJQGEZDGNBVGY3TQOJQ") (Some true) None None)].

Definition no_entropy : Entropy := mkEntropy (fun _ => "0.abcdefghij") (repeat 7 20).

(** A stand-in for the SHA-256 hex digest in examples. *)
Definition tag_hash (s : string) : string := ("h:" ++ s)%string.

(** One active and one already ended session of [user_123]. *)
Definition world_sessions : World :=
  mkWorld [] 
    [UserSession.mk "user_123" "sess_1" 1700086400000 1699990000000 1699999000000
       (Some "192.168.1.1") (Some "Mozilla/5.0") true;
     UserSession.mk "user_123" "sess_2" 1700086400000 1699980000000 1699985000000
       (Some "192.168.1.1") (Some "Mozilla/5.0") false]
    [] [].

End Fixtures.

(** Further concrete worlds for the examples. *)
Module Scenarios.

Definition t0 : Z := 1700000000000.

Definition session (userId tok : string) (lastActive : Z) (active : bool) : UserSession.t :=
  UserSession.mk userId tok (t0 + 86400000) lastActive lastActive
    (Some "192.168.1.1") (Some "Mozilla/5.0") active.

(** Six active sessions of [user_123], one minute apart (the input of the
    session test), and one session of another principal. *)
Definition world_six : World :=
  mkWorld []
    [session "user_123" "sess_1" t0 true;
     session "user_123" "sess_2" (t0 - 60000) true;
     session "user_123" "sess_3" (t0 - 120000) true;
     session "user_123" "sess_4" (t0 - 180000) true;
     session "user_123" "sess_5" (t0 - 240000) true;
     session "user_123" "sess_6" (t0 - 300000) true;
     session "user_456" "sess_7" (t0 - 900000) true]
    [] [].

End Scenarios.

(** Closes a [NoDup] goal on a list of distinct literals. *)
Ltac nodup_by_discriminate :=
  repeat (constructor;
          [cbn; let H := fresh "H" in
                intros H; repeat (destruct H as [H | H]; [discriminate H |]); exact H |]);
  constructor.

(** ** What [syncFromClerk] computes for an existing local record *)

Module SyncEffects.
Import ProfileSyncService.

Definition has_clerkId (cid : string) (u : User.t) : bool := String.eqb (User.clerkId u) cid.
Definition has_id (cid : string) (c : Clerk.User) : bool := String.eqb (Clerk.id c) cid.

(** The rows of [cid] rewritten by [f]. *)
Definition map_user (cid : string) (f : User.t -> User.t) (us : list User.t) : list User.t :=
  map (fun v => if String.eqb (User.clerkId v) cid then f v else v) us.

Definition with_users (us : list User.t) (w : World) : World :=
  mkWorld us (userSessions w) (userActivities w) (clerkUsers w).

Definition profileData (c : Clerk.User) : Clerk.ProfileMeta :=
  match Clerk.profile (Clerk.privateMetadata c) with
  | Some p => p
  | None => emptyProfileMeta
  end.

Definition preferencesData (c : Clerk.User) : Clerk.PreferencesMeta :=
  match Clerk.preferences (Clerk.privateMetadata c) with
  | Some p => p
  | None => emptyPreferencesMeta
  end.

Definition profileChangesOf (u : User.t) (c : Clerk.User) : list string :=
  profileDiffs (User.profile u) (profileData c).

Definition preferencesChangesOf (u : User.t) (c : Clerk.User) : list string :=
  if (0 <? preferenceKeys (preferencesData c))%nat
  then preferencesDiffs (User.preferences u) (preferencesData c)
  else [].

(** [options.force || !options.skipConflicts]. *)
Definition applies (o : SyncOptions) : bool := orb (force o) (negb (skipConflicts o)).

(** The user table after the two upserts of [syncProfileData]. *)
Definition relations_step (e : Env) (cid : string) (c : Clerk.User) (o : SyncOptions)
  (u : User.t) (us : list User.t) : list User.t :=
  let us1 := if andb (0 <? List.length (profileChangesOf u c))%nat (applies o)
             then map_user cid (setProfile (profileOf e (profileData c))) us else us in
  if andb (0 <? List.length (preferencesChangesOf u c))%nat (applies o)
  then map_user cid (setPreferences (preferencesOf e (preferencesData c))) us1 else us1.

(** The local record is newer than the external one and [force] is not set. *)
Definition conflict (o : SyncOptions) (u : User.t) (c : Clerk.User) : bool :=
  andb (negb (force o)) (Clerk.updatedAt c <? User.updatedAt u).

(** The update of the user fields is attempted. *)
Definition writes (o : SyncOptions) (u : User.t) (c : Clerk.User) : bool :=
  andb (0 <? List.length (changed (userDiffs u c)))%nat (orb (force o) (negb (conflict o u c))).

(** Another row already holds the e-mail address that the update would set. *)
Definition email_taken (e : Env) (cid : string) (u : User.t) (c : Clerk.User) (us : list User.t)
  : bool :=
  existsb (fun v => andb (negb (String.eqb (User.clerkId v) cid))
                         (String.eqb (User.email v) (User.email (applyUpdateData e c u)))) us.

(** The changes a call reports for a local record [u]. *)
Definition reported (u : User.t) (c : Clerk.User) : list string :=
  changed (userDiffs u c) ++ profileChangesOf u c ++ preferencesChangesOf u c.

Definition sync_row (e : Env) (cid : string) (changes : list string) (ok : bool)
  (err : option string) (conflicts : option (list string)) : UserActivity.t :=
  UserActivity.mk cid "profile_sync_from_clerk" None
    [("changes", Json.Strs changes);
     ("success", Json.Bool ok);
     ("error", match err with Some m => Json.Str m | None => Json.Null end);
     ("conflicts", match conflicts with Some c => Json.Strs c | None => Json.Null end);
     ("duration", Json.Num 0);
     ("timestamp", Json.Num (now e))]
    (now e).

Definition failure (err : string) : SyncResult :=
  mkResult false [] [] "Failed to sync from Clerk" (Some err).

(** The local record after the two upserts of [syncProfileData]. *)
Definition relations_user (e : Env) (c : Clerk.User) (o : SyncOptions) (u : User.t) : User.t :=
  let u1 := if andb (0 <? List.length (profileChangesOf u c))%nat (applies o)
            then setProfile (profileOf e (profileData c)) u else u in
  if andb (0 <? List.length (preferencesChangesOf u c))%nat (applies o)
  then setPreferences (preferencesOf e (preferencesData c)) u1 else u1.



End SyncEffects.

Module SyncScenarios.

Definition ada_clerk (updated : Z) : Clerk.User :=
  Clerk.mkUser "user_123" [Clerk.mkEmail "ada@example.com" true] (Some "Ada") (Some "Byron")
    (Some "https://example.com/ada.png") false updated (Some "EDITOR")
    (Clerk.mkPrivate None None
       (Some (Clerk.mkProfileMeta (Some "Analyst") None None (Some ["poetry"]) None))
       (Some (Clerk.mkPreferencesMeta (Some "dark") None None None None None None None 0))).

Definition ada_local (updated : Z) : User.t :=
  User.mk "user_123" "ada@example.com" false (Some "Augusta") (Some "Byron") None USER
    updated None false None None.


(** The local record is newer than the external one. *)
Definition world_newer_local : World :=
  mkWorld [ada_local 1699000000000] [] [] [ada_clerk 1695000000000].

End SyncScenarios.

(** ** More store calls *)

Module StoreOps.



(** [prisma.userSession.count({ where })] and
    [prisma.userActivity.count({ where })]. *)
Definition userSession_count (e : Env) (where_ : UserSession.t -> bool) : M Z :=
  Prisma.guard e (fun w =>
    (Returns (Z.of_nat (List.length (filter where_ (userSessions w)))), w)).
Definition userActivity_count (e : Env) (where_ : UserActivity.t -> bool) : M Z :=
  Prisma.guard e (fun w =>
    (Returns (Z.of_nat (List.length (filter where_ (userActivities w)))), w)).

(** [clerk.users.updateUserMetadata(userId, { publicMetadata: { role } })]. *)
Definition updatePublicRole (e : Env) (uid role : string) : M unit :=
  if clerkUp e
  then fun w =>
    if existsb (fun u => String.eqb (Clerk.id u) uid) (clerkUsers w)
    then (Returns tt,
          mkWorld (users w) (userSessions w) (userActivities w)
            (map (fun u => if String.eqb (Clerk.id u) uid
                           then Clerk.mkUser (Clerk.id u) (Clerk.emailAddresses u) (Clerk.firstName u)
                                  (Clerk.lastName u) (Clerk.imageUrl u) (Clerk.twoFactorEnabled u)
                                  (Clerk.updatedAt u) (Some role) (Clerk.privateMetadata u)
                           else u) (clerkUsers w)))
    else (Throws ClerkApi.rejected, w)
  else throw ClerkApi.rejected.


End StoreOps.

(** ** SecurityService, continued ([src/lib/services/security.ts]) *)

Module SecurityOps.

Inductive TwoFactorType := totp | backup_code.

Definition typeName (t : TwoFactorType) : string :=
  match t with totp => "totp" | backup_code => "backup_code" end.

Record TwoFactorVerificationResult := mkVerification {
  success : bool;
  type : TwoFactorType;
  usedBackupCode : bool;
  message : string;
  error : option string
}.

Definition roleName (r : UserRole) : string :=
  match r with USER => "USER" | EDITOR => "EDITOR" | ADMIN => "ADMIN" end.


(** The [data] of the three updates of the user row. *)
Definition disabled (e : Env) (u : User.t) : User.t :=
  User.mk (User.clerkId u) (User.email u) (User.emailVerified u) (User.firstName u)
    (User.lastName u) (User.imageUrl u) (User.role u) (now e) (User.lastLoginAt u)
    false (User.profile u) (User.preferences u).
Definition touched (e : Env) (u : User.t) : User.t :=
  User.mk (User.clerkId u) (User.email u) (User.emailVerified u) (User.firstName u)
    (User.lastName u) (User.imageUrl u) (User.role u) (now e) (User.lastLoginAt u)
    (User.twoFactorEnabled u) (User.profile u) (User.preferences u).
Definition with_role (e : Env) (r : UserRole) (u : User.t) : User.t :=
  User.mk (User.clerkId u) (User.email u) (User.emailVerified u) (User.firstName u)
    (User.lastName u) (User.imageUrl u) r (now e) (User.lastLoginAt u)
    (User.twoFactorEnabled u) (User.profile u) (User.preferences u).

(** The sixteen activity names that [getSecurityEvents] asks for. *)
Definition securityEventNames : list string :=
  ["two_factor_enabled"; "two_factor_disabled"; "two_factor_verification_success";
   "two_factor_verification_failed"; "two_factor_verification_error";
   "two_factor_enable_failed"; "backup_code_used"; "backup_codes_regenerated";
   "session_revoked_manually"; "all_sessions_revoked"; "role_changed";
   "unauthorized_access_attempt"; "suspicious_login"; "password_changed";
   "security_policy_enforced"; "profile_synced"].

Definition is_security_event_of (userId : string) (a : UserActivity.t) : bool :=
  andb (String.eqb (UserActivity.userId a) userId)
       (existsb (String.eqb (UserActivity.activity a)) securityEventNames).

(** A returned event with its [timestamp]. *)
Definition event_of (a : UserActivity.t) : SecurityEvent * Z :=
  (mkEvent (UserActivity.userId a) (UserActivity.activity a) (UserActivity.metadata a),
   UserActivity.createdAt a).

(** [limit] is a count; the default is 50. *)
Definition getSecurityEvents (e : Env) (userId : string) (limit : nat)
  : M (list (SecurityEvent * Z)) :=
  try_catch
    (activities <- Prisma.userActivity_findMany e (is_security_event_of userId) ;;
     ret (map (fun a => event_of (snd a)) (firstn limit activities)))
    (fun _ => ret []).

Definition disableTwoFactor (e : Env) (userId : string) : M unit :=
  try_catch
    (Prisma.user_update e userId (disabled e) ;;
     SecurityService.logSecurityEvent e
       (mkEvent userId "two_factor_disabled" [("disabledAt", Json.Num (now e))]))
    (fun _ => throw "Failed to disable two-factor authentication").



Definition is_admin (adminUser : option User.t) : bool :=
  match adminUser with
  | Some u => match User.role u with ADMIN => true | _ => false end
  | None => false
  end.

Definition updateUserRole (e : Env) (targetUserId : string) (newRole : UserRole)
  (adminUserId : string) : M unit :=
  try_catch
    (adminUser <- Prisma.user_findUnique e adminUserId ;;
     if negb (is_admin adminUser)
     then throw "Insufficient permissions to change user roles"
     else
       Prisma.user_update e targetUserId (with_role e newRole) ;;
       StoreOps.updatePublicRole e targetUserId (roleName newRole) ;;
       SecurityService.logSecurityEvent e
         (mkEvent targetUserId "role_changed"
            [("newRole", Json.Str (roleName newRole));
             ("changedBy", Json.Str adminUserId);
             ("changedAt", Json.Num (now e))]))
    (fun _ => throw "Failed to update user role").

Section WithPrimitives.

Variable sha256_hex : string -> string.

(** The first part of the [try] block: [(isValid, usedBackupCode)]. An
    empty or missing secret is not configured; [writeUInt32BE] raises
    [ERR_OUT_OF_RANGE]. *)
Definition check_token (e : Env) (userId token : string) (type : TwoFactorType)
  : M (bool * bool) :=
  match type with
  | backup_code =>
      isValid <- SecurityService.verifyBackupCode sha256_hex e userId token ;;
      ret (isValid, isValid)
  | totp =>
      user <- ClerkApi.getUser e userId ;;
      match Clerk.totpSecret (Clerk.privateMetadata user) with
      | Some (String c r) =>
          match Totp.verifyTOTPToken (now e) (String c r) token 1 with
          | Some isValid => ret (isValid, false)
          | None => throw "ERR_OUT_OF_RANGE"
          end
      | _ => throw "TOTP not configured for user"
      end
  end.

Definition verifyTwoFactor (e : Env) (userId token : string) (type : TwoFactorType)
  (ipAddress : option string) : M TwoFactorVerificationResult :=
  try_catch
    (checked <- check_token e userId token type ;;
     let isValid := fst checked in
     let usedBackupCode := snd checked in
     SecurityService.logSecurityEvent e
       (mkEvent userId
          (if isValid then "two_factor_verification_success"
           else "two_factor_verification_failed")
          [("success", Json.Bool isValid); ("type", Json.Str (typeName type));
           ("verifiedAt", Json.Num (now e)); ("usedBackupCode", Json.Bool usedBackupCode);
           ("ipAddress", Json.Str (SecurityService.orUnknown ipAddress));
           ("token", Json.Str (String.substring 0 2 token ++ "****")%string)]) ;;
     (if isValid then Prisma.user_update e userId (touched e) else ret tt) ;;
     ret (mkVerification isValid type usedBackupCode
            (if isValid then "Two-factor authentication verified successfully"
             else "Invalid two-factor authentication code")
            None))
    (fun error =>
       SecurityService.logSecurityEvent e
         (mkEvent userId "two_factor_verification_error"
            [("error", Json.Str error); ("type", Json.Str (typeName type));
             ("attemptedAt", Json.Num (now e));
             ("ipAddress", Json.Str (SecurityService.orUnknown ipAddress))]) ;;
       ret (mkVerification false type false "Two-factor authentication verification failed"
              (Some error))).

Definition regenerateBackupCodes (e : Env) (en : Entropy) (userId : string)
  : M (list string) :=
  try_catch
    (let newCodes := SecurityService.generateBackupCodes en in
     SecurityService.storeBackupCodes sha256_hex e userId newCodes ;;
     SecurityService.logSecurityEvent e
       (mkEvent userId "backup_codes_regenerated"
          [("regeneratedAt", Json.Num (now e));
           ("codesCount", Json.Num (Z.of_nat (List.length newCodes)))]) ;;
     ret newCodes)
    (fun _ => throw "Failed to regenerate backup codes").

End WithPrimitives.

End SecurityOps.

(** ** Session revocation ([SecurityService.revokeAllOtherSessions]) *)

(** The sessions that the identity provider keeps; the services reach them
    only through its API, so they are passed to each call and returned by
    it. *)
Record ClerkSession := mkClerkSession {
  cs_id : string;
  cs_userId : string;
  cs_status : string;
  cs_lastActiveAt : Z;
  cs_createdAt : Z;
  cs_expireAt : Z
}.


Module RevokeOps.


Definition revoked (s : ClerkSession) : ClerkSession :=
  mkClerkSession (cs_id s) (cs_userId s) "revoked" (cs_lastActiveAt s) (cs_createdAt s)
    (cs_expireAt s).









(** The provider's sessions after those with an id in [ids] were revoked. *)
Definition revoke_all (ids : list string) (cs : list ClerkSession) : list ClerkSession :=
  map (fun s => if existsb (String.eqb (cs_id s)) ids then revoked s else s) cs.



End RevokeOps.

(** ** Security policies ([src/lib/config/security.ts]) *)

Module SecurityConfig.









(** [securityPolicies], over the session part of the configuration. *)
Definition isSessionLimitExceeded (cfg : SessionSecurityConfig) (sessionCount : Z) : bool :=
  maxConcurrentSessions cfg <? sessionCount.

Definition isSessionExpired (e : Env) (cfg : SessionSecurityConfig) (lastActiveAt : Z) : bool :=
  sessionTimeoutMinutes cfg * 60 * 1000 <? now e - lastActiveAt.

Definition isSessionStale (e : Env) (cfg : SessionSecurityConfig) (lastActiveAt : Z) : bool :=
  inactiveSessionTimeoutDays cfg * 24 * 60 * 60 * 1000 <? now e - lastActiveAt.

Definition isSuspiciousLogin (cfg : SessionSecurityConfig) (factors : list string) : bool :=
  suspiciousLoginThreshold cfg <=? Z.of_nat (List.length factors).

End SecurityConfig.

(** ** SessionService, continued ([src/lib/services/session.ts]) *)


Record SessionStatistics := mkStatistics {
  st_totalSessions : Z;
  st_activeSessions : Z;
  st_recentActivity : Z;
  st_lastActiveAt : option Z;
  st_lastIpAddress : option string
}.

Module SessionOps.














Definition of_user (userId : string) (s : UserSession.t) : bool :=
  String.eqb (UserSession.userId s) userId.

Definition is_recent_session_activity (e : Env) (userId : string) (a : UserActivity.t) : bool :=
  andb (andb (String.eqb (UserActivity.userId a) userId)
             (String.prefix "session_" (UserActivity.activity a)))
       (now e - 30 * 24 * 60 * 60 * 1000 <=? UserActivity.createdAt a).

Definition getSessionStatistics (e : Env) (userId : string) : M SessionStatistics :=
  try_catch
    (totalSessions <- StoreOps.userSession_count e (of_user userId) ;;
     activeSessions <- StoreOps.userSession_count e (SessionService.is_active_of e userId) ;;
     recentActivity <- StoreOps.userActivity_count e (is_recent_session_activity e userId) ;;
     sessions <- Prisma.userSession_findMany e (of_user userId) ;;
     let lastSession := hd_error sessions in
     ret (mkStatistics totalSessions activeSessions recentActivity
            (option_map UserSession.lastActiveAt lastSession)
            (match lastSession with
             | Some s => ProfileSyncService.orNull (UserSession.ipAddress s)
             | None => None
             end)))
    (fun _ => ret (mkStatistics 0 0 0 None None)).

End SessionOps.

(** ** ProfileSyncService, continued ([src/lib/supabase.ts]) *)



Module SyncOps.






End SyncOps.

(** ** What the further calls write *)

Module OpsEffects.

(** No other row holds the e-mail address of the row of [cid]. *)
Definition email_free (cid : string) (u : User.t) (us : list User.t) : bool :=
  negb (existsb (fun v => andb (negb (String.eqb (User.clerkId v) cid))
                               (String.eqb (User.email v) (User.email u))) us).

(** The rows that [storeBackupCodes] and [regenerateBackupCodes] write. *)
Definition codes_row (sha256_hex : string -> string) (e : Env) (userId : string)
  (codes : list string) : UserActivity.t :=
  Effects.security_row e
    (mkEvent userId "backup_codes_generated"
       [("codesCount", Json.Num (Z.of_nat (List.length codes)));
        ("generatedAt", Json.Num (now e));
        ("codes", Json.Codes (map (fun c => Json.mkCode (sha256_hex c) false (now e)) codes))]).

Definition regenerated_row (e : Env) (userId : string) (codes : list string) : UserActivity.t :=
  Effects.security_row e
    (mkEvent userId "backup_codes_regenerated"
       [("regeneratedAt", Json.Num (now e));
        ("codesCount", Json.Num (Z.of_nat (List.length codes)))]).














End OpsEffects.

(** ** Proof steps for the base32 round trip *)

Ltac norm a := let r := eval vm_compute in a in change a with r in *.

Ltac is_pos p :=
  match p with
  | xH => idtac
  | xO ?q => is_pos q
  | xI ?q => is_pos q
  end.

Ltac is_znum a :=
  match a with
  | Z0 => idtac
  | Zpos ?p => is_pos p
  | Zneg ?p => is_pos p
  end.

(** Evaluates the arithmetic on literals. *)
Ltac znorm_in G :=
  match G with
  | context [?a + ?b] => is_znum a; is_znum b; norm (a + b)
  | context [?a - ?b] => is_znum a; is_znum b; norm (a - b)
  | context [?a / ?b] => is_znum a; is_znum b; norm (a / b)
  | context [?a ^ ?b] => is_znum a; is_znum b; norm (a ^ b)
  | context [?a =? ?b] => is_znum a; is_znum b; norm (a =? b)
  | context [?a <=? ?b] => is_znum a; is_znum b; norm (a <=? b)
  | context [?a <? ?b] => is_znum a; is_znum b; norm (a <? b)
  | context [Z.to_nat ?a] => is_znum a; norm (Z.to_nat a)
  end.

Ltac znorm :=
  repeat match goal with
         | |- ?G => znorm_in G
         | H : ?T |- _ => znorm_in T
         end.

(** The next emitted quintet: names it, bounds it, and replaces its
    character by one whose index is known ([char_index] is the lemma on
    the alphabet). *)
Ltac quintet char_index q c Iq :=
  match goal with
  | |- context [String.get (Z.to_nat ?x) Totp.base32chars] =>
      let H := fresh "B" q in
      let G := fresh "G" in
      assert (H : 0 <= x < 32) by (apply Z.mod_pos_bound; lia);
      set (q := x) in *;
      destruct (char_index q H) as (c & G & Iq); rewrite G; clear G
  end.

(** One character through the decoder. *)
Ltac feed q Iq :=
  cbn [Totp.decode_loop]; rewrite Iq;
  rewrite (proj2 (Z.eqb_neq q (-1))) by lia.

(** The accumulator after one more byte or quintet ([or_shl] is the lemma
    on [(v << n) | x]). *)
Ltac accumulate or_shl v n x name H :=
  pose proof (or_shl v n x ltac:(lia) ltac:(cbn; lia)) as H;
  set (name := Js.or (Js.shl v n) x) in *.

Ltac arith := Z.div_mod_to_equations; lia.
(** * Properties *)

(** ** Known answers for the hash primitives *)

Example sha1_abc :
  Sha1.digest (Sha1.bytes_of_string "abc") =
  [169; 153; 62; 54; 71; 6; 129; 106; 186; 62; 37; 113; 120; 80; 194; 108; 156; 208; 216; 157].
Proof. vm_compute. reflexivity. Qed.

Example hmac_rfc2202_case2 :
  Sha1.hmac (Sha1.bytes_of_string "Jefe") (Sha1.bytes_of_string "what do ya want for nothing?") =
  [239; 252; 223; 106; 229; 235; 47; 162; 210; 116; 22; 213; 241; 132; 223; 156; 37; 154; 124; 121].
Proof. vm_compute. reflexivity. Qed.

Example hotp_rfc4226 :
  map (Totp.hotp_spec (Sha1.bytes_of_string "12345678901234567890")) [0; 1; 2; 3; 4; 5; 6; 7; 8; 9] =
  ["755224"; "287082"; "359152"; "969429"; "338314"; "254676"; "287922"; "162583"; "399871"; "520489"].
Proof. vm_compute. reflexivity. Qed.

Example secretBuffer_rfc :
  Totp.secretBuffer "GEZDGNBVGY3TQOJQGEZDGNBVGY3TQOJQ" = Sha1.bytes_of_string "12345678901234567890".
Proof. vm_compute. reflexivity. Qed.

(** ** TOTP verification against RFC 4226 *)

Module TotpFacts.
Import Totp Effects.

Lemma toInt32_small x : -2147483648 <= x < 2147483648 -> Js.toInt32 x = x.
Proof.
  intros H. unfold Js.toInt32, Js.two31, Js.two32.
  rewrite Z.mod_small; lia.
Qed.

Lemma lor_bounds a b : 0 <= a -> 0 <= b -> 0 <= Z.lor a b <= a + b.
Proof.
  intros Ha Hb. split.
  - apply Z.lor_nonneg; auto.
  - pose proof (Z.add_lor_land a b) as E.
    assert (0 <= Z.land a b) by (apply Z.land_nonneg; auto). lia.
Qed.

Lemma land_ones_bounds x n : 0 <= n -> 0 <= Z.land x (Z.ones n) < 2 ^ n.
Proof.
  intros Hn. rewrite Z.land_ones by assumption.
  apply Z.mod_pos_bound. apply Z.pow_pos_nonneg; lia.
Qed.

Lemma js_and_mask x n :
  0 <= x < 2147483648 -> 0 <= n <= 30 ->
  Js.and x (Z.ones n) = Z.land x (Z.ones n).
Proof.
  intros Hx Hn. unfold Js.and.
  assert (Hp : 2 ^ n <= 2 ^ 30) by (apply Z.pow_le_mono_r; lia).
  change (2 ^ 30) with 1073741824 in Hp.
  assert (Ho : 0 <= Z.ones n < 2147483648).
  { rewrite Z.ones_equiv. assert (0 < 2 ^ n) by (apply Z.pow_pos_nonneg; lia). lia. }
  rewrite (toInt32_small x) by lia.
  rewrite (toInt32_small (Z.ones n)) by lia.
  pose proof (land_ones_bounds x n ltac:(lia)).
  apply toInt32_small. lia.
Qed.

Lemma js_or_small a b :
  0 <= a -> 0 <= b -> a + b < 2147483648 -> Js.or a b = Z.lor a b.
Proof.
  intros Ha Hb Hs. unfold Js.or.
  rewrite (toInt32_small a), (toInt32_small b) by lia.
  pose proof (lor_bounds a b Ha Hb). apply toInt32_small. lia.
Qed.

Lemma js_shl_small v n :
  0 <= n < 32 -> 0 <= v -> v * 2 ^ n < 2147483648 -> Js.shl v n = Z.shiftl v n.
Proof.
  intros Hn Hv Hb. unfold Js.shl.
  assert (0 < 2 ^ n) by (apply Z.pow_pos_nonneg; lia).
  assert (v <= v * 2 ^ n) by nia.
  rewrite (toInt32_small v) by lia.
  rewrite Z.mod_small by lia.
  rewrite Z.shiftl_mul_pow2 by lia.
  apply toInt32_small. lia.
Qed.

Lemma byte_nth h k : Forall byte h -> byte (nth k h 0).
Proof.
  intros F. destruct (Nat.lt_ge_cases k (List.length h)) as [L | G].
  - rewrite Forall_forall in F. apply F. apply nth_In. exact L.
  - rewrite nth_overflow by exact G. unfold byte. lia.
Qed.

Lemma at_nth h i : 0 <= i -> at_ h i = nth (Z.to_nat i) h 0.
Proof. intros Hi. unfold at_. destruct (i <? 0) eqn:E; [lia | reflexivity]. Qed.

Lemma be32_bytes x : Forall byte (Sha1.be32 x).
Proof.
  unfold Sha1.be32, byte.
  repeat constructor; try (apply Z.mod_pos_bound; lia);
    match goal with |- ?a mod 256 <= 255 => pose proof (Z.mod_pos_bound a 256); lia end.
Qed.

Lemma digest_shape msg :
  List.length (Sha1.digest msg) = 20%nat /\ Forall byte (Sha1.digest msg).
Proof.
  unfold Sha1.digest.
  set (s := fold_left Sha1.compress _ Sha1.init).
  split.
  - reflexivity.
  - repeat (apply Forall_app; split); apply be32_bytes.
Qed.

Lemma hmac_shape key msg :
  List.length (Sha1.hmac key msg) = 20%nat /\ Forall byte (Sha1.hmac key msg).
Proof. unfold Sha1.hmac. apply digest_shape. Qed.

(** The 32-bit arithmetic of the source computes the dynamic truncation. *)
Lemma truncate_spec h :
  List.length h = 20%nat -> Forall byte h -> truncate h = dynamic_truncation h.
Proof.
  intros L F. unfold truncate, dynamic_truncation.
  rewrite L. change (Z.of_nat 20 - 1) with 19.
  rewrite (at_nth h 19) by lia. change (Z.to_nat 19) with 19%nat.
  pose proof (byte_nth h 19 F) as B19. unfold byte in B19.
  change 15 with (Z.ones 4). change 127 with (Z.ones 7). change 255 with (Z.ones 8).
  rewrite (js_and_mask (nth 19 h 0) 4) by lia.
  pose proof (land_ones_bounds (nth 19 h 0) 4 ltac:(lia)) as Bo.
  change (2 ^ 4) with 16 in Bo.
  set (o := Z.land (nth 19 h 0) (Z.ones 4)) in *.
  rewrite !at_nth by lia.
  replace (Z.to_nat (o + 1)) with (Z.to_nat o + 1)%nat by lia.
  replace (Z.to_nat (o + 2)) with (Z.to_nat o + 2)%nat by lia.
  replace (Z.to_nat (o + 3)) with (Z.to_nat o + 3)%nat by lia.
  set (k := Z.to_nat o).
  pose proof (byte_nth h k F) as B0. pose proof (byte_nth h (k + 1) F) as B1.
  pose proof (byte_nth h (k + 2) F) as B2. pose proof (byte_nth h (k + 3) F) as B3.
  unfold byte in *.
  rewrite !js_and_mask by lia.
  pose proof (land_ones_bounds (nth k h 0) 7 ltac:(lia)) as A0.
  pose proof (land_ones_bounds (nth (k + 1) h 0) 8 ltac:(lia)) as A1.
  pose proof (land_ones_bounds (nth (k + 2) h 0) 8 ltac:(lia)) as A2.
  pose proof (land_ones_bounds (nth (k + 3) h 0) 8 ltac:(lia)) as A3.
  change (2 ^ 7) with 128 in A0. change (2 ^ 8) with 256 in A1, A2, A3.
  set (a0 := Z.land (nth k h 0) (Z.ones 7)) in *.
  set (a1 := Z.land (nth (k + 1) h 0) (Z.ones 8)) in *.
  set (a2 := Z.land (nth (k + 2) h 0) (Z.ones 8)) in *.
  set (a3 := Z.land (nth (k + 3) h 0) (Z.ones 8)) in *.
  rewrite (js_shl_small a0 24) by (change (2 ^ 24) with 16777216; lia).
  rewrite (js_shl_small a1 16) by (change (2 ^ 16) with 65536; lia).
  rewrite (js_shl_small a2 8) by (change (2 ^ 8) with 256; lia).
  assert (S0 : 0 <= Z.shiftl a0 24 <= 127 * 16777216)
    by (rewrite Z.shiftl_mul_pow2 by lia; change (2 ^ 24) with 16777216; lia).
  assert (S1 : 0 <= Z.shiftl a1 16 <= 255 * 65536)
    by (rewrite Z.shiftl_mul_pow2 by lia; change (2 ^ 16) with 65536; lia).
  assert (S2 : 0 <= Z.shiftl a2 8 <= 255 * 256)
    by (rewrite Z.shiftl_mul_pow2 by lia; change (2 ^ 8) with 256; lia).
  rewrite (js_or_small (Z.shiftl a0 24) (Z.shiftl a1 16)) by lia.
  pose proof (lor_bounds _ _ (proj1 S0) (proj1 S1)) as L1.
  rewrite (js_or_small _ (Z.shiftl a2 8)) by lia.
  pose proof (lor_bounds _ _ (proj1 L1) (proj1 S2)) as L2.
  rewrite (js_or_small _ a3) by lia.
  reflexivity.
Qed.

Lemma dynamic_truncation_nonneg h : Forall byte h -> 0 <= dynamic_truncation h.
Proof.
  intros F. unfold dynamic_truncation.
  repeat (apply Z.lor_nonneg; split);
    try (apply Z.shiftl_nonneg); apply Z.land_nonneg; right; lia.
Qed.

(** The one-time password of the source is the HOTP value of the spec. *)
Lemma otp_of_hmac key msg :
  otp_of (Sha1.hmac key msg) = six_digits (dynamic_truncation (Sha1.hmac key msg) mod 1000000).
Proof.
  destruct (hmac_shape key msg) as [L F].
  unfold otp_of, six_digits, Js.rem.
  rewrite (truncate_spec _ L F).
  rewrite Z.rem_mod_nonneg by (try apply dynamic_truncation_nonneg; auto; lia).
  reflexivity.
Qed.

(** Both [writeUInt32BE] calls succeed for a counter below 2^31 and write
    its 8-byte big-endian form. *)
Lemma counter_bytes_unfold t :
  counter_bytes t =
  [(t / 72057594037927936) mod 256; (t / 281474976710656) mod 256;
   (t / 1099511627776) mod 256; (t / 4294967296) mod 256;
   (t / 16777216) mod 256; (t / 65536) mod 256; (t / 256) mod 256; (t / 1) mod 256].
Proof. reflexivity. Qed.

Lemma writeUInt32BE_ok v :
  0 <= v < 4294967296 -> writeUInt32BE v = Some (Sha1.be32 v).
Proof.
  intros Hv. unfold writeUInt32BE, Js.two32.
  destruct (0 <=? v) eqn:E1; [| apply Z.leb_gt in E1; lia].
  destruct (v <? 4294967296) eqn:E2; [| apply Z.ltb_ge in E2; lia].
  reflexivity.
Qed.

Lemma timeBuffer_spec t :
  0 <= t < 2147483648 -> timeBuffer t = Some (counter_bytes t).
Proof.
  intros Ht. unfold timeBuffer.
  rewrite (Z.div_small t 4294967296) by lia.
  change 4294967295 with (Z.ones 32).
  assert (E : Js.and t (Z.ones 32) = t).
  { unfold Js.and. rewrite (toInt32_small t) by lia.
    change (Js.toInt32 (Z.ones 32)) with (-1).
    rewrite Z.land_m1_r. apply toInt32_small. lia. }
  rewrite E, (writeUInt32BE_ok 0), (writeUInt32BE_ok t) by lia.
  rewrite counter_bytes_unfold. unfold Sha1.be32.
  rewrite !Z.shiftr_div_pow2 by lia.
  change (2 ^ 24) with 16777216. change (2 ^ 16) with 65536. change (2 ^ 8) with 256.
  rewrite (Z.div_small t 72057594037927936), (Z.div_small t 281474976710656),
    (Z.div_small t 1099511627776), (Z.div_small t 4294967296) by lia.
  rewrite Z.div_1_r. reflexivity.
Qed.

Lemma hotp_spec_unfold key t :
  hotp_spec key t
  = six_digits (dynamic_truncation (Sha1.hmac key (counter_bytes t)) mod 1000000).
Proof. reflexivity. Qed.

Lemma check_steps_spec key token times :
  Forall in_range times ->
  check_steps key token times =
  Some (existsb (fun t => String.eqb (hotp_spec key t) token) times).
Proof.
  induction 1 as [| t rest Ht _ IH]; [reflexivity |].
  cbn [check_steps existsb].
  rewrite (timeBuffer_spec t Ht), otp_of_hmac, IH, hotp_spec_unfold.
  generalize (six_digits (dynamic_truncation (Sha1.hmac key (counter_bytes t)) mod 1000000)).
  intros s. destruct (String.eqb s token); reflexivity.
Qed.

Lemma window_steps_one step : window_steps step 1 = [step - 1; step; step + 1].
Proof.
  unfold window_steps. change (Z.to_nat (2 * 1 + 1)) with 3%nat.
  cbn [seq map]. change (Z.of_nat 0) with 0. change (Z.of_nat 1) with 1.
  change (Z.of_nat 2) with 2.
  replace (step - 1 + 0) with (step - 1) by lia.
  replace (step - 1 + 1) with step by lia.
  replace (step - 1 + 2) with (step + 1) by lia.
  reflexivity.
Qed.

Lemma verifyTOTPToken_eval nowMs secret token :
  1 <= timeStep nowMs -> timeStep nowMs + 1 < 2147483648 ->
  verifyTOTPToken nowMs secret token 1 =
  Some (existsb (fun t => String.eqb (hotp_spec (secretBuffer secret) t) token)
          [timeStep nowMs - 1; timeStep nowMs; timeStep nowMs + 1]).
Proof.
  intros H1 H2. unfold verifyTOTPToken. rewrite window_steps_one.
  apply check_steps_spec. unfold in_range. repeat constructor; lia.
Qed.

Lemma timeStep_after_91s T : timeStep T + 3 <= timeStep (T + 91000).
Proof.
  unfold timeStep.
  pose proof (Z.div_mod T 1000 ltac:(lia)).
  pose proof (Z.mod_pos_bound T 1000 ltac:(lia)).
  pose proof (Z.div_mod (T + 91000) 1000 ltac:(lia)).
  pose proof (Z.mod_pos_bound (T + 91000) 1000 ltac:(lia)).
  set (a := T / 1000) in *. set (b := (T + 91000) / 1000) in *.
  assert (a + 91 <= b) by lia.
  pose proof (Z.div_mod a 30 ltac:(lia)). pose proof (Z.mod_pos_bound a 30 ltac:(lia)).
  pose proof (Z.div_mod b 30 ltac:(lia)). pose proof (Z.mod_pos_bound b 30 ltac:(lia)).
  lia.
Qed.

(** Acceptance within a window of three steps, for any code function. *)
Lemma window_accepts (f : Z -> string) (s : Z) (tok : string) :
  Some (existsb (fun t => String.eqb (f t) tok) [s - 1; s; s + 1]) = Some true <->
  exists i, In i [-1; 0; 1] /\ tok = f (s + i).
Proof.
  split.
  - intros E. injection E as E. cbn [existsb] in E.
    rewrite !Bool.orb_true_iff in E.
    destruct E as [E | [E | [E | E]]]; try discriminate E;
      apply String.eqb_eq in E; subst tok.
    + exists (-1). split; [cbn; auto | f_equal; lia].
    + exists 0. split; [cbn; auto | f_equal; lia].
    + exists 1. split; [cbn; auto | f_equal; lia].
  - intros [i [Hi ->]]. f_equal. apply existsb_exists.
    exists (s + i). split; [| apply String.eqb_refl].
    cbn [In] in *.
    destruct Hi as [<- | [<- | [<- | []]]]; [left | right; left | right; right; left]; lia.
Qed.

End TotpFacts.

(** C2, as amended.  While the three counters [step-1], [step], [step+1] fit
    the unsigned 32-bit writes of the counter buffer (any clock between 1970
    and the year 4011), [verifyTOTPToken] with window 1 returns a boolean, and
    it accepts a candidate exactly when the candidate is the 6-digit HOTP
    value of one of these three time steps.  The code of time [T] verifies at
    [T].  At [T] + 91 s the three steps checked are all at least two steps
    after the step of [T], so the code of [T] is accepted there only when it
    coincides with the HOTP value of one of those later steps. *)
Theorem verifyTOTPToken_window_one (nowMs : Z) (secret token : string) :
  1 <= Totp.timeStep nowMs -> Totp.timeStep nowMs + 1 < 2147483648 ->
  let key := Totp.secretBuffer secret in
  let step := Totp.timeStep nowMs in
  (Totp.verifyTOTPToken nowMs secret token 1 = Some true <->
   exists i, In i [-1; 0; 1] /\ token = Totp.hotp_spec key (step + i)) /\
  (Totp.verifyTOTPToken nowMs secret token 1 = Some false <->
   forall i, In i [-1; 0; 1] -> token <> Totp.hotp_spec key (step + i)) /\
  Totp.verifyTOTPToken nowMs secret (Totp.totp_spec secret nowMs) 1 = Some true /\
  (forall T, nowMs = T + 91000 ->
     Totp.verifyTOTPToken nowMs secret (Totp.totp_spec secret T) 1 = Some true ->
     exists i, In i [-1; 0; 1] /\ Totp.timeStep T + 2 <= step + i /\
               Totp.totp_spec secret T = Totp.hotp_spec key (step + i)).
Proof.
  intros H1 H2 key step.
  assert (Ev : forall tok,
    Totp.verifyTOTPToken nowMs secret tok 1 =
    Some (existsb (fun t => String.eqb (Totp.hotp_spec key t) tok)
            [step - 1; step; step + 1]))
    by (intro tok; exact (TotpFacts.verifyTOTPToken_eval nowMs secret tok H1 H2)).
  assert (Spec : forall T, Totp.totp_spec secret T = Totp.hotp_spec key (Totp.timeStep T))
    by (intro T; reflexivity).
  assert (St : step = Totp.timeStep nowMs) by reflexivity.
  clearbody key step.
  assert (Acc : forall tok,
    Totp.verifyTOTPToken nowMs secret tok 1 = Some true <->
    exists i, In i [-1; 0; 1] /\ tok = Totp.hotp_spec key (step + i)).
  { intro tok. rewrite Ev. apply TotpFacts.window_accepts. }
  split; [apply Acc |]. split; [| split].
  - split.
    + intros E i Hi Heq.
      assert (A : Totp.verifyTOTPToken nowMs secret token 1 = Some true)
        by (apply Acc; exists i; auto).
      congruence.
    + intros N. rewrite Ev. f_equal. apply Bool.not_true_is_false. intros E.
      assert (A : Totp.verifyTOTPToken nowMs secret token 1 = Some true)
        by (rewrite Ev; f_equal; exact E).
      apply Acc in A. destruct A as [i [Hi Heq]]. exact (N i Hi Heq).
  - apply Acc. exists 0. split; [cbn; auto |].
    rewrite Spec, <- St. f_equal. lia.
  - intros T HT A. apply Acc in A. destruct A as [i [Hi Heq]].
    exists i. split; [exact Hi |]. split; [| exact Heq].
    pose proof (TotpFacts.timeStep_after_91s T) as M. rewrite <- HT, <- St in M.
    cbn [In] in Hi. destruct Hi as [<- | [<- | [<- | []]]]; lia.
Qed.

Lemma verifyTOTPToken_window_one_witness :
  Totp.verifyTOTPToken 1804162440000 "GEZDGNBVGY3TQOJQGEZDGNBVGY3TQOJQ"
    (Totp.totp_spec "GEZDGNBVGY3TQOJQGEZDGNBVGY3TQOJQ" 1804162440000) 1 = Some true.
Proof.
  refine (proj1 (proj2 (proj2
    (verifyTOTPToken_window_one 1804162440000 "GEZDGNBVGY3TQOJQGEZDGNBVGY3TQOJQ" "000000" _ _)))).
  - vm_compute. discriminate.
  - vm_compute. reflexivity.
Defined.

(** C2 as stated fails: with the RFC 4226 test secret, the code shown at
    2027-03-04 (epoch second 1804162440, time step 60138748) equals the code
    of time step 60138751, so it is accepted again 91 seconds later. *)
Lemma totp_code_accepted_after_91s :
  let secret := "GEZDGNBVGY3TQOJQGEZDGNBVGY3TQOJQ" in
  let T := 1804162440000 in
  Totp.totp_spec secret T = "217436" /\
  Totp.verifyTOTPToken T secret (Totp.totp_spec secret T) 1 = Some true /\
  Totp.verifyTOTPToken (T + 91000) secret (Totp.totp_spec secret T) 1 = Some true.
Proof. vm_compute. repeat split; reflexivity. Qed.

(** ** How the calls run *)

Module Run.
Import Effects.

Lemma guard_up {A} e (m : M A) : dbUp e = true -> Prisma.guard e m = m.
Proof. intros H. unfold Prisma.guard. rewrite H. reflexivity. Qed.

Lemma guard_down {A} e (m : M A) w :
  dbUp e = false -> Prisma.guard e m w = (Throws Prisma.rejected, w).
Proof. intros H. unfold Prisma.guard. rewrite H. reflexivity. Qed.

Lemma create_up e row w :
  dbUp e = true -> Prisma.userActivity_create e row w = (Returns tt, add_activity row w).
Proof. intros H. unfold Prisma.userActivity_create. rewrite guard_up by exact H. reflexivity. Qed.

Lemma logSecurityEvent_up e ev w :
  dbUp e = true ->
  SecurityService.logSecurityEvent e ev w = (Returns tt, add_activity (security_row e ev) w).
Proof.
  intros H. unfold SecurityService.logSecurityEvent, try_catch.
  rewrite create_up by exact H. reflexivity.
Qed.

Lemma logSecurityEvent_down e ev w :
  dbUp e = false -> SecurityService.logSecurityEvent e ev w = (Returns tt, w).
Proof.
  intros H. unfold SecurityService.logSecurityEvent, try_catch, Prisma.userActivity_create.
  rewrite guard_down by exact H. reflexivity.
Qed.

Lemma logSessionActivity_up e a w :
  dbUp e = true ->
  SessionService.logSessionActivity e a w = (Returns tt, add_activity (session_row e a) w).
Proof.
  intros H. unfold SessionService.logSessionActivity, try_catch.
  rewrite create_up by exact H. reflexivity.
Qed.

(** The rows of a query that selects nothing. *)
Lemma filter_nil {A} (f : A -> bool) l :
  (forall x, In x l -> f x = false) -> filter f l = [].
Proof.
  induction l as [| a l IH]; intros H; [reflexivity |].
  cbn. rewrite (H a (or_introl eq_refl)). apply IH. intros x Hx. apply H. right. exact Hx.
Qed.

Lemma indexed_In {A} (l : list A) i x : In (i, x) (Prisma.indexed l) -> In x l.
Proof. unfold Prisma.indexed. apply in_combine_r. Qed.

Lemma findMany_up e where_ w :
  dbUp e = true ->
  Prisma.userActivity_findMany e where_ w =
  (Returns (sort_by (fun a b => UserActivity.createdAt (snd b) <=? UserActivity.createdAt (snd a))
              (filter (fun r => where_ (snd r)) (Prisma.indexed (userActivities w)))), w).
Proof. intros H. unfold Prisma.userActivity_findMany. rewrite guard_up by exact H. reflexivity. Qed.

End Run.

(** ** Suspicious-login detection *)

Module DetectFacts.
Import SecurityService Effects.

(** What the call returns and leaves behind while the store answers. *)
Lemma detect_up e userId ip ua w :
  dbUp e = true ->
  let fs := suspiciousFactors e ip ua (recentLogins e userId w) in
  detectSuspiciousLogin e userId ip ua w =
  (Returns (mkSuspicious (0 <? List.length fs)%nat fs
              (if (2 <=? List.length fs)%nat then high else medium)),
   if (0 <? List.length fs)%nat
   then add_activity
          (security_row e
             (mkEvent userId "suspicious_login"
                [("factors", Json.Strs fs); ("ipAddress", Json.Str ip);
                 ("userAgent", Json.Str ua); ("detectedAt", Json.Num (now e))])) w
   else w).
Proof.
  intros H fs. unfold detectSuspiciousLogin, try_catch, bind.
  rewrite Run.findMany_up by exact H. fold (recentLogins e userId w). fold fs.
  destruct (0 <? List.length fs)%nat eqn:E.
  - rewrite Run.logSecurityEvent_up by exact H. reflexivity.
  - reflexivity.
Qed.

(** Fail-open: a store that rejects the query gives the all-clear. *)
Lemma detect_down e userId ip ua w :
  dbUp e = false ->
  detectSuspiciousLogin e userId ip ua w = (Returns (mkSuspicious false [] low), w).
Proof.
  intros H. unfold detectSuspiciousLogin, try_catch, bind, Prisma.userActivity_findMany.
  rewrite Run.guard_down by exact H. reflexivity.
Qed.

(** On every normal completion the risk level is [high] or [medium]. *)
Lemma detect_riskLevel e userId ip ua w r w' :
  dbUp e = true ->
  detectSuspiciousLogin e userId ip ua w = (Returns r, w') ->
  isSuspicious r = (0 <? List.length (factors r))%nat /\
  riskLevel r = if (2 <=? List.length (factors r))%nat then high else medium.
Proof.
  intros H E. rewrite (detect_up e userId ip ua w H) in E.
  injection E as <- _. cbn. split; reflexivity.
Qed.

Lemma no_history_no_factors e ip ua : suspiciousFactors e ip ua [] = [].
Proof. reflexivity. Qed.

End DetectFacts.

(** C6.  A principal without a [session_created] event in the seven-day
    window is never flagged: whatever the address, the user agent and the
    state of the store, [detectSuspiciousLogin] returns with
    [isSuspicious = false] and no factors, and writes nothing. *)
Theorem detectSuspiciousLogin_first_login
  (e : Env) (userId ipAddress userAgent : string) (w : World) :
  (forall a, In a (userActivities w) -> SecurityService.is_recent_login e userId a = false) ->
  exists r,
    SecurityService.detectSuspiciousLogin e userId ipAddress userAgent w = (Returns r, w) /\
    isSuspicious r = false /\ factors r = [].
Proof.
  intros H. destruct (dbUp e) eqn:U.
  - assert (N : Effects.recentLogins e userId w = []).
    { unfold Effects.recentLogins. rewrite Run.filter_nil; [reflexivity |].
      intros [i a] Hin. apply H. exact (Run.indexed_In _ _ _ Hin). }
    rewrite (DetectFacts.detect_up e userId ipAddress userAgent w U), N.
    cbn. eexists. split; [reflexivity |]. split; reflexivity.
  - rewrite (DetectFacts.detect_down e userId ipAddress userAgent w U).
    eexists. split; [reflexivity |]. split; reflexivity.
Qed.

Lemma detectSuspiciousLogin_first_login_witness :
  exists r,
    SecurityService.detectSuspiciousLogin (Fixtures.env_at 1700000000000) "user_456" "10.0.0.1" "curl" Fixtures.world_one_login
    = (Returns r, Fixtures.world_one_login) /\ isSuspicious r = false /\ factors r = [].
Proof.
  apply (detectSuspiciousLogin_first_login (Fixtures.env_at 1700000000000) "user_456" "10.0.0.1" "curl"
           Fixtures.world_one_login).
  intros a [<- | []]. reflexivity.
Defined.

(** C5, at the input of the repository's own test (a login from the known
    address and user agent): the factor list is empty and the call completes
    normally, yet the risk level is [medium], where the claim and
    [security.test.ts] expect [low]. *)
Theorem detectSuspiciousLogin_known_ip_is_medium :
  SecurityService.detectSuspiciousLogin (Fixtures.env_at 1700000000000) "user_123" "192.168.1.1" "Mozilla/5.0"
    Fixtures.world_one_login
  = (Returns (mkSuspicious false [] medium), Fixtures.world_one_login).
Proof. vm_compute. reflexivity. Qed.

(** C10, at a concrete input: with the store down the call returns the
    all-clear with risk level [low] and writes nothing, but the same check
    on a healthy store returns risk level [medium], so the two results
    differ. *)
Theorem detectSuspiciousLogin_fail_open_differs :
  let failed := SecurityService.detectSuspiciousLogin (Fixtures.env_down_at 1700000000000)
                  "user_123" "192.168.1.1" "Mozilla/5.0" Fixtures.world_one_login in
  let clean := SecurityService.detectSuspiciousLogin (Fixtures.env_at 1700000000000)
                 "user_123" "192.168.1.1" "Mozilla/5.0" Fixtures.world_one_login in
  failed = (Returns (mkSuspicious false [] low), Fixtures.world_one_login) /\
  clean = (Returns (mkSuspicious false [] medium), Fixtures.world_one_login) /\
  fst failed <> fst clean.
Proof.
  cbv zeta. split; [vm_compute; reflexivity |]. split; [vm_compute; reflexivity |].
  vm_compute. discriminate.
Qed.

(** ** The two-factor re-enable guard *)

(** C9.  When the identity provider's record of the principal already has
    two-factor authentication enabled, [enableTwoFactor] returns
    [{success: false}] with the already-enabled message and leaves the
    whole world as it was: the principal record, the stored TOTP secret and
    the stored backup codes. *)
Theorem enableTwoFactor_already_enabled
  (sha256_hex encodeURIComponent : string -> string)
  (urlSearchParams : list (string * string) -> string)
  (e : Env) (en : Entropy) (userId : string) (ipAddress : option string)
  (w : World) (u : Clerk.User) :
  clerkUp e = true ->
  find (fun c => String.eqb (Clerk.id c) userId) (clerkUsers w) = Some u ->
  Clerk.twoFactorEnabled u = true ->
  SecurityService.enableTwoFactor sha256_hex encodeURIComponent urlSearchParams
    e en userId ipAddress w
  = (Returns (mkSetup false (Some "Two-factor authentication is already enabled")
                None None None), w).
Proof.
  intros Up Hu H2.
  unfold SecurityService.enableTwoFactor, try_catch, bind, ClerkApi.getUser.
  rewrite Up, Hu, H2. reflexivity.
Qed.

Lemma enableTwoFactor_already_enabled_witness :
  SecurityService.enableTwoFactor Fixtures.tag_hash (fun s => s) (fun _ => "")
    (Fixtures.env_at 1700000000000) Fixtures.no_entropy "user_123" None Fixtures.world_2fa
  = (Returns (mkSetup false (Some "Two-factor authentication is already enabled")
                None None None), Fixtures.world_2fa).
Proof.
  eapply enableTwoFactor_already_enabled.
  - reflexivity.
  - reflexivity.
  - reflexivity.
Defined.

(** ** Ending a session *)

Module EndFacts.
Import SessionService Effects.

Lemma find_existsb {A} (f : A -> bool) l x : find f l = Some x -> existsb f l = true.
Proof.
  intros H. apply existsb_exists. exists x. apply find_some in H. exact H.
Qed.

Lemma endSession_up e tok reason w :
  dbUp e = true -> endSession e tok reason w = (Returns tt, end_effect e tok reason w).
Proof.
  intros H. unfold endSession, try_catch, bind, Prisma.userSession_findUnique,
    Prisma.userSession_update, end_effect.
  rewrite !Run.guard_up by exact H. fold (has_token tok).
  destruct (find (has_token tok) (userSessions w)) as [s |] eqn:F; [| reflexivity].
  rewrite (find_existsb _ _ _ F).
  rewrite Run.logSessionActivity_up by exact H. reflexivity.
Qed.

Lemma endSession_down e tok reason w :
  dbUp e = false -> endSession e tok reason w = (Throws "Failed to end session", w).
Proof.
  intros H. unfold endSession, try_catch, bind, Prisma.userSession_findUnique.
  rewrite Run.guard_down by exact H. reflexivity.
Qed.

Lemma ended_token e s : UserSession.token (ended e s) = UserSession.token s.
Proof. reflexivity. Qed.





End EndFacts.



(** C3 as stated fails: ending the already ended session [sess_2] stamps
    its [lastActiveAt] and appends a further [session_ended] event. *)
Lemma endSession_on_ended_session_logs :
  let e := Fixtures.env_at 1700000000000 in
  let w := Fixtures.world_sessions in
  let w1 := snd (SessionService.endSession e "sess_2" "user_logout" w) in
  (exists s, find (Effects.has_token "sess_2") (userSessions w) = Some s /\
             UserSession.isActive s = false) /\
  userSessions w1 <> userSessions w /\
  userActivities w1 =
    userActivities w ++
    [UserActivity.mk "user_123" "session_ended" (Some "sess_2")
       [("reason", Json.Str "user_logout"); ("duration", Json.Num 20000000);
        ("endedAt", Json.Num 1700000000000)] 1700000000000].
Proof.
  cbv zeta. split; [| split].
  - eexists. split; reflexivity.
  - vm_compute. discriminate.
  - vm_compute. reflexivity.
Qed.

(** ** Sorting and row identifiers *)

Module SortFacts.

Section Sort.
Context {A : Type} (le : A -> A -> bool).

Lemma insert_by_perm x l : Permutation (insert_by le x l) (x :: l).
Proof.
  induction l as [| y r IH]; [reflexivity |].
  cbn. destruct (le x y); [reflexivity |].
  rewrite IH. apply perm_swap.
Qed.

Lemma sort_by_perm l : Permutation (sort_by le l) l.
Proof.
  induction l as [| x r IH]; [reflexivity |].
  cbn. rewrite insert_by_perm. constructor. exact IH.
Qed.

Lemma sort_by_In l x : In x (sort_by le l) <-> In x l.
Proof.
  split; apply Permutation_in; [| symmetry]; apply sort_by_perm.
Qed.

Lemma sort_by_length l : List.length (sort_by le l) = List.length l.
Proof. apply Permutation_length, sort_by_perm. Qed.

Lemma sort_by_NoDup l : NoDup l -> NoDup (sort_by le l).
Proof. intros H. eapply Permutation_NoDup; [symmetry; apply sort_by_perm | exact H]. Qed.

End Sort.

(** Sorting commutes with a map that the order does not see. *)
Lemma insert_by_map {A} (le : A -> A -> bool) (g : A -> A) x l :
  (forall a b, le (g a) (g b) = le a b) ->
  insert_by le (g x) (map g l) = map g (insert_by le x l).
Proof.
  intros H. induction l as [| y r IH]; [reflexivity |].
  cbn. rewrite H. destruct (le x y); [reflexivity |]. cbn. rewrite IH. reflexivity.
Qed.

Lemma sort_by_cons {A} (le : A -> A -> bool) x l :
  sort_by le (x :: l) = insert_by le x (sort_by le l).
Proof. reflexivity. Qed.

Lemma sort_by_map {A} (le : A -> A -> bool) (g : A -> A) l :
  (forall a b, le (g a) (g b) = le a b) ->
  sort_by le (map g l) = map g (sort_by le l).
Proof.
  intros H. induction l as [| x r IH]; [reflexivity |].
  cbn [map]. rewrite !sort_by_cons, IH. apply insert_by_map. exact H.
Qed.

Lemma filter_map_inv {A} (p : A -> bool) (g : A -> A) l :
  (forall a, p (g a) = p a) -> filter p (map g l) = map g (filter p l).
Proof.
  intros H. induction l as [| x r IH]; [reflexivity |].
  cbn. rewrite H. destruct (p x); cbn; rewrite IH; reflexivity.
Qed.

Lemma hd_error_map {A B} (g : A -> B) l : hd_error (map g l) = option_map g (hd_error l).
Proof. destruct l; reflexivity. Qed.

End SortFacts.

Module IndexFacts.
Import Prisma Effects.

Lemma indexed_from_cons {A} k (x : A) l :
  indexed_from k (x :: l) = (k, x) :: indexed_from (S k) l.
Proof. reflexivity. Qed.

Lemma indexed_from_app {A} k (l : list A) r :
  indexed_from k (l ++ [r]) = indexed_from k l ++ [((k + List.length l)%nat, r)].
Proof.
  revert k. induction l as [| x l IH]; intros k.
  - cbn. rewrite Nat.add_0_r. reflexivity.
  - cbn [app]. rewrite !indexed_from_cons, IH. cbn [app List.length].
    rewrite Nat.add_succ_r. reflexivity.
Qed.

Lemma indexed_from_In {A} k (l : list A) i x :
  In (i, x) (indexed_from k l) -> (k <= i)%nat /\ nth_error l (i - k) = Some x.
Proof.
  revert k. induction l as [| y l IH]; intros k H; [destruct H |].
  rewrite indexed_from_cons in H. destruct H as [E | H].
  - injection E as <- <-. rewrite Nat.sub_diag. split; [lia | reflexivity].
  - apply IH in H. destruct H as [L N]. split; [lia |].
    replace (i - k)%nat with (S (i - S k)) by lia. exact N.
Qed.

Lemma indexed_unique {A} (l : list A) i x y :
  In (i, x) (indexed l) -> In (i, y) (indexed l) -> x = y.
Proof.
  intros Hx Hy. apply (indexed_from_In 0) in Hx, Hy.
  destruct Hx as [_ Hx], Hy as [_ Hy]. congruence.
Qed.

Lemma indexed_lt {A} (l : list A) i x : In (i, x) (indexed l) -> (i < List.length l)%nat.
Proof.
  intros H. apply (indexed_from_In 0) in H. destruct H as [_ H].
  rewrite Nat.sub_0_r in H. apply nth_error_Some. congruence.
Qed.

Lemma indexed_from_update {A} k n (f : A -> A) l :
  indexed_from k (update_nth n f l) = map (at_id (k + n) f) (indexed_from k l).
Proof.
  revert k n. induction l as [| x l IH]; intros k n; [destruct n; reflexivity |].
  destruct n as [| n].
  - cbn [update_nth]. rewrite !indexed_from_cons. cbn [map]. unfold at_id at 1. cbn [fst snd].
    rewrite Nat.add_0_r, Nat.eqb_refl. f_equal.
    rewrite <- (map_id (indexed_from (S k) l)) at 1. apply map_ext_in.
    intros [i y] Hi. apply indexed_from_In in Hi. destruct Hi as [L _].
    unfold at_id. cbn [fst]. destruct (Nat.eqb_spec i k); [lia | reflexivity].
  - cbn [update_nth]. rewrite !indexed_from_cons. cbn [map]. unfold at_id at 1. cbn [fst snd].
    destruct (Nat.eqb_spec k (k + S n)); [lia |]. f_equal.
    rewrite IH. replace (S k + n)%nat with (k + S n)%nat by lia. reflexivity.
Qed.

Lemma indexed_update {A} n (f : A -> A) l :
  indexed (update_nth n f l) = map (at_id n f) (indexed l).
Proof. exact (indexed_from_update 0 n f l). Qed.

Lemma indexed_app {A} (l : list A) r :
  indexed (l ++ [r]) = indexed l ++ [(List.length l, r)].
Proof. exact (indexed_from_app 0 l r). Qed.

End IndexFacts.

(** ** Backup codes *)

Module BackupFacts.
Import SecurityService Effects.

Section WithHash.
Variable sha256_hex : string -> string.

Lemma flag_le_refl c : flag_le c c.
Proof. unfold flag_le. auto. Qed.

Lemma flags_le_refl l : Forall2 flag_le l l.
Proof. induction l; constructor; auto using flag_le_refl. Qed.

Lemma flags_le_trans l1 l2 l3 :
  Forall2 flag_le l1 l2 -> Forall2 flag_le l2 l3 -> Forall2 flag_le l1 l3.
Proof.
  intros H. revert l3. induction H as [| a b r1 r2 Hab _ IH]; intros l3 H3.
  - inversion H3. constructor.
  - inversion H3 as [| b' c r2' r3 Hbc Hr]; subst. constructor; [| apply IH; exact Hr].
    destruct Hab as [A1 [A2 A3]], Hbc as [B1 [B2 B3]].
    unfold flag_le. repeat split; [congruence | congruence | auto].
Qed.

(** Marking changes only a flag, and only from unused to used. *)
Lemma mark_first_le h l l' : mark_first h l = Some l' -> Forall2 flag_le l l'.
Proof.
  revert l'. induction l as [| c r IH]; intros l' H; [discriminate |].
  cbn in H. destruct (andb (String.eqb (Json.code c) h) (negb (Json.used c))).
  - injection H as <-. constructor; [| apply flags_le_refl].
    unfold flag_le. cbn. auto.
  - destruct (mark_first h r) as [m |]; [| discriminate].
    injection H as <-. constructor; [apply flag_le_refl | apply IH; reflexivity].
Qed.

Lemma mark_used_other h l :
  (forall b, In b l -> Json.code b <> h) -> map (mark_used h) l = l.
Proof.
  intros H. rewrite <- (map_id l) at 2. apply map_ext_in. intros b Hb.
  unfold mark_used. destruct (String.eqb_spec (Json.code b) h) as [E | _]; [| reflexivity].
  exfalso. exact (H b Hb E).
Qed.

(** With pairwise distinct hashes the first unused match is the only row
    with that hash, and it is the row that gets marked. *)
Lemma mark_first_nodup h l :
  NoDup (map Json.code l) ->
  (exists b, In b l /\ Json.code b = h /\ Json.used b = false) ->
  mark_first h l = Some (map (mark_used h) l).
Proof.
  induction l as [| c r IH]; intros N [b [Hb [Hc Hu]]]; [destruct Hb |].
  cbn [map] in N. inversion N as [| x xs Hnot Nr]; subst x xs.
  cbn [mark_first map].
  destruct (String.eqb_spec (Json.code c) h) as [E | NE].
  - assert (b = c).
    { destruct Hb as [-> | Hb]; [reflexivity |].
      exfalso. apply Hnot. rewrite E, <- Hc. apply in_map. exact Hb. }
    subst b. rewrite Hu. cbn [negb andb]. f_equal.
    unfold mark_used at 1. rewrite E, String.eqb_refl. f_equal.
    symmetry. apply mark_used_other. intros b' Hb' Eb'.
    apply Hnot. rewrite E, <- Eb'. apply in_map. exact Hb'.
  - cbn [andb]. destruct Hb as [-> | Hb]; [contradiction |].
    rewrite IH; [| exact Nr | exists b; auto].
    cbn [option_map]. f_equal. f_equal.
    unfold mark_used. destruct (String.eqb_spec (Json.code c) h); [contradiction | reflexivity].
Qed.

Lemma mark_first_none h l :
  (forall b, In b l -> Json.code b = h -> Json.used b = true) -> mark_first h l = None.
Proof.
  induction l as [| c r IH]; intros H; [reflexivity |].
  cbn [mark_first].
  destruct (String.eqb_spec (Json.code c) h) as [E | NE].
  - rewrite (H c (or_introl eq_refl) E). cbn [negb andb].
    rewrite IH; [reflexivity | intros b Hb; apply H; right; exact Hb].
  - cbn [andb]. rewrite IH; [reflexivity | intros b Hb; apply H; right; exact Hb].
Qed.

Lemma all_used_marked h l : all_used h (map (mark_used h) l).
Proof.
  intros b Hb Hc. apply in_map_iff in Hb. destruct Hb as [a [<- _]].
  unfold mark_used in *. destruct (String.eqb_spec (Json.code a) h) as [E | NE].
  - reflexivity.
  - contradiction.
Qed.

Lemma all_used_le h l l' : Forall2 flag_le l l' -> all_used h l -> all_used h l'.
Proof.
  induction 1 as [| a b r r' Hab _ IH]; intros U; [intros ? [] |].
  intros x [<- | Hx] Hc.
  - destruct Hab as [A1 [_ A3]]. apply A3. apply U; [left; reflexivity | congruence].
  - apply IH; [| exact Hx | exact Hc]. intros y Hy. apply U. right. exact Hy.
Qed.

Lemma get_set_same k v o : Json.get k (Json.set k v o) = Some v.
Proof.
  induction o as [| [k' v'] r IH]; cbn.
  - rewrite String.eqb_refl. reflexivity.
  - destruct (String.eqb k k') eqn:E; cbn; rewrite ?String.eqb_refl, ?E; auto.
Qed.

(** *** The newest backup-code row after an update and an insertion *)

Lemma latest_In w userId p :
  latestBackupCodes w userId = Some p ->
  In p (Prisma.indexed (userActivities w)) /\ is_backup_codes_of userId (snd p) = true.
Proof.
  unfold latestBackupCodes. intros H.
  assert (I : In p (sort_by by_createdAt_desc
                      (filter (fun r => is_backup_codes_of userId (snd r))
                         (Prisma.indexed (userActivities w))))).
  { unfold by_createdAt_desc.
    destruct (sort_by _ _) as [| q l]; [discriminate |]. injection H as ->. left. reflexivity. }
  apply SortFacts.sort_by_In in I. apply filter_In in I. exact I.
Qed.

Lemma latest_after_mark e userId id row marked w Q :
  latestBackupCodes (code_used_world e userId id row marked w) Q =
  option_map
    (at_id id (with_metadata (Json.set "codes" (Json.Codes marked) (UserActivity.metadata row))))
    (latestBackupCodes w Q).
Proof.
  unfold latestBackupCodes, code_used_world, add_activity. cbn [userActivities].
  rewrite IndexFacts.indexed_app, filter_app. cbn [filter snd security_row event].
  replace (is_backup_codes_of Q _) with false
    by (unfold is_backup_codes_of; cbn; rewrite Bool.andb_false_r; reflexivity).
  rewrite app_nil_r, IndexFacts.indexed_update.
  rewrite SortFacts.filter_map_inv.
  - rewrite SortFacts.sort_by_map.
    + apply SortFacts.hd_error_map.
    + intros [i a] [j b]. unfold at_id. cbn [fst snd].
      destruct (Nat.eqb i id), (Nat.eqb j id); reflexivity.
  - intros [i a]. unfold at_id. cbn [fst snd]. destruct (Nat.eqb i id); reflexivity.
Qed.

(** *** What one call does *)

Lemma verify_down e userId code w :
  dbUp e = false -> verifyBackupCode sha256_hex e userId code w = (Returns false, w).
Proof.
  intros H. unfold verifyBackupCode, try_catch, bind, Prisma.userActivity_findFirst, bind,
    Prisma.userActivity_findMany.
  rewrite Run.guard_down by exact H. reflexivity.
Qed.

Lemma verify_up e userId code w :
  dbUp e = true ->
  verifyBackupCode sha256_hex e userId code w =
  match latestBackupCodes w userId with
  | Some (id, row) =>
      match codes_of row with
      | Some l =>
          match mark_first (sha256_hex code) l with
          | Some marked => (Returns true, code_used_world e userId id row marked w)
          | None => (Returns false, w)
          end
      | None => (Returns false, w)
      end
  | None => (Returns false, w)
  end.
Proof.
  intros H. unfold verifyBackupCode, try_catch at 1, bind at 1, Prisma.userActivity_findFirst,
    bind at 1.
  rewrite Run.findMany_up by exact H. unfold ret at 1.
  fold (latestBackupCodes w userId).
  destruct (latestBackupCodes w userId) as [[id row] |] eqn:L; [| reflexivity].
  unfold codes_of.
  destruct (Json.get "codes" (UserActivity.metadata row)) as [[| | | | |l] |]; try reflexivity.
  unfold hashBackupCode.
  destruct (mark_first (sha256_hex code) l) as [marked |]; [| reflexivity].
  unfold bind, Prisma.userActivity_update. rewrite Run.guard_up by exact H.
  apply latest_In in L. destruct L as [I _]. apply IndexFacts.indexed_lt in I.
  apply Nat.ltb_lt in I. rewrite I.
  rewrite Run.logSecurityEvent_up by exact H. reflexivity.
Qed.

(** No call resets a flag of any principal's stored codes. *)
Lemma verify_codes_le e userId code w :
  codes_le w (snd (verifyBackupCode sha256_hex e userId code w)).
Proof.
  intros Q l0 S0. destruct (dbUp e) eqn:U.
  2:{ rewrite verify_down by exact U. exists l0. split; [exact S0 | apply flags_le_refl]. }
  rewrite verify_up by exact U.
  destruct (latestBackupCodes w userId) as [[id row] |] eqn:L;
    [| exists l0; split; [exact S0 | apply flags_le_refl]].
  destruct (codes_of row) as [l |] eqn:C;
    [| exists l0; split; [exact S0 | apply flags_le_refl]].
  destruct (mark_first (sha256_hex code) l) as [marked |] eqn:Mk;
    [| exists l0; split; [exact S0 | apply flags_le_refl]].
  cbn [snd]. unfold storedCodes in *. rewrite latest_after_mark.
  destruct (latestBackupCodes w Q) as [[j r] |] eqn:LQ; [| discriminate].
  cbn [option_map]. unfold at_id. cbn [fst snd].
  destruct (Nat.eqb_spec j id) as [-> | NE].
  - assert (r = row).
    { apply latest_In in L, LQ. destruct L as [I1 _], LQ as [I2 _].
      exact (IndexFacts.indexed_unique _ _ _ _ I2 I1). }
    subst r. rewrite C in S0. injection S0 as <-.
    exists marked. split.
    + unfold codes_of, with_metadata. cbn [UserActivity.metadata].
      rewrite get_set_same. reflexivity.
    + exact (mark_first_le _ _ _ Mk).
  - exists l0. split; [exact S0 | apply flags_le_refl].
Qed.

Lemma codes_le_trans w1 w2 w3 : codes_le w1 w2 -> codes_le w2 w3 -> codes_le w1 w3.
Proof.
  intros H12 H23 Q l S. destruct (H12 Q l S) as [l2 [S2 F2]].
  destruct (H23 Q l2 S2) as [l3 [S3 F3]]. exists l3. split; [exact S3 |].
  exact (flags_le_trans _ _ _ F2 F3).
Qed.

Lemma run_verifies_le calls w : codes_le w (run_verifies sha256_hex calls w).
Proof.
  revert w. induction calls as [| c r IH]; intros w.
  - intros Q l S. exists l. split; [exact S | apply flags_le_refl].
  - cbn. eapply codes_le_trans; [apply verify_codes_le | apply IH].
Qed.

(** A candidate all of whose stored matches are used is refused. *)
Lemma verify_refused e userId code w l :
  storedCodes w userId = Some l -> all_used (sha256_hex code) l ->
  verifyBackupCode sha256_hex e userId code w = (Returns false, w).
Proof.
  intros S U. destruct (dbUp e) eqn:Up; [| apply verify_down; exact Up].
  rewrite verify_up by exact Up. unfold storedCodes in S.
  destruct (latestBackupCodes w userId) as [[id row] |]; [| reflexivity].
  rewrite S. rewrite (mark_first_none _ _ U). reflexivity.
Qed.

End WithHash.
End BackupFacts.

(** C1.  Backup codes are single-use.  For a principal whose newest
    [backup_codes_generated] row holds a set of codes with pairwise distinct
    hashes, a [verifyBackupCode] call with a code that matches an unused
    stored code returns [true] (while the store answers) and sets the
    [used] flag of exactly that stored code; after it, and after any further
    [verifyBackupCode] calls, a call with the same code returns [false] and
    changes nothing; and no [verifyBackupCode] call resets a [used] flag of
    any principal's stored codes. *)
Theorem verifyBackupCode_single_use
  (sha256_hex : string -> string) (e : Env) (w : World) (userId code : string)
  (l : list Json.BackupCode) :
  dbUp e = true ->
  Effects.storedCodes w userId = Some l ->
  NoDup (map Json.code l) ->
  (exists b, In b l /\ Json.code b = sha256_hex code /\ Json.used b = false) ->
  let w1 := snd (SecurityService.verifyBackupCode sha256_hex e userId code w) in
  fst (SecurityService.verifyBackupCode sha256_hex e userId code w) = Returns true /\
  Effects.storedCodes w1 userId = Some (map (Effects.mark_used (sha256_hex code)) l) /\
  (forall calls e',
     let w2 := Effects.run_verifies sha256_hex calls w1 in
     SecurityService.verifyBackupCode sha256_hex e' userId code w2 = (Returns false, w2)) /\
  (forall e' userId' code' w',
     Effects.codes_le w' (snd (SecurityService.verifyBackupCode sha256_hex e' userId' code' w'))).
Proof.
  intros Up S N Ex w1.
  assert (R : SecurityService.verifyBackupCode sha256_hex e userId code w =
              match Effects.latestBackupCodes w userId with
              | Some (id, row) =>
                  (Returns true,
                   Effects.code_used_world e userId id row
                     (map (Effects.mark_used (sha256_hex code)) l) w)
              | None => (Returns false, w)
              end).
  { rewrite (BackupFacts.verify_up sha256_hex e userId code w Up).
    unfold Effects.storedCodes in S.
    destruct (Effects.latestBackupCodes w userId) as [[id row] |]; [| discriminate].
    rewrite S, (BackupFacts.mark_first_nodup _ _ N Ex). reflexivity. }
  assert (S1 : Effects.storedCodes w1 userId =
               Some (map (Effects.mark_used (sha256_hex code)) l)).
  { subst w1. rewrite R. unfold Effects.storedCodes in *.
    destruct (Effects.latestBackupCodes w userId) as [[id row] |] eqn:L; [| discriminate].
    cbn [snd]. rewrite BackupFacts.latest_after_mark, L. cbn [option_map].
    unfold Effects.at_id. cbn [fst snd]. rewrite Nat.eqb_refl.
    unfold Effects.codes_of, Effects.with_metadata. cbn [UserActivity.metadata].
    rewrite BackupFacts.get_set_same. reflexivity. }
  split; [| split; [exact S1 | split]].
  - rewrite R. unfold Effects.storedCodes in S.
    destruct (Effects.latestBackupCodes w userId) as [[id row] |]; [reflexivity | discriminate].
  - intros calls e' w2.
    destruct (BackupFacts.run_verifies_le sha256_hex calls w1 userId _ S1) as [l2 [S2 F2]].
    apply (BackupFacts.verify_refused sha256_hex e' userId code w2 l2 S2).
    apply (BackupFacts.all_used_le _ _ _ F2). apply BackupFacts.all_used_marked.
  - intros e' userId' code' w'. apply BackupFacts.verify_codes_le.
Qed.

Lemma verifyBackupCode_single_use_witness :
  let e := Fixtures.env_at 1700000000000 in
  let first := SecurityService.verifyBackupCode Fixtures.tag_hash e "user_123" "ABCD1234"
                 Fixtures.world_2fa in
  fst first = Returns true /\
  fst (SecurityService.verifyBackupCode Fixtures.tag_hash e "user_123" "ABCD1234" (snd first))
  = Returns false.
Proof.
  cbv zeta.
  assert (N : NoDup (map Json.code [Json.mkCode "h:ABCD1234" false 1690000000000;
                                    Json.mkCode "h:WXYZ5678" true 1690000000000])).
  { cbn. constructor.
    - intros [H | []]. discriminate H.
    - constructor; [intros [] | constructor]. }
  destruct (verifyBackupCode_single_use Fixtures.tag_hash (Fixtures.env_at 1700000000000)
              Fixtures.world_2fa "user_123" "ABCD1234" _ eq_refl eq_refl N
              (ex_intro _ (Json.mkCode "h:ABCD1234" false 1690000000000)
                 (conj (or_introl eq_refl) (conj eq_refl eq_refl))))
    as [R [_ [Again _]]].
  split; [exact R |].
  exact (f_equal fst (Again [] (Fixtures.env_at 1700000000000))).
Defined.

(** ** Security policy enforcement *)

Module PolicyFacts.
Import SessionService Effects.

Lemma getActiveSessions_up e userId w :
  dbUp e = true -> getActiveSessions e userId w = (Returns (fetched e userId w), w).
Proof.
  intros H. unfold getActiveSessions, try_catch, Prisma.userSession_findMany.
  rewrite Run.guard_up by exact H. reflexivity.
Qed.

Lemma getActiveSessions_down e userId w :
  dbUp e = false -> getActiveSessions e userId w = (Returns [], w).
Proof.
  intros H. unfold getActiveSessions, try_catch, Prisma.userSession_findMany.
  rewrite Run.guard_down by exact H. reflexivity.
Qed.

Lemma for_each_endSession_up e reason ss w :
  dbUp e = true ->
  for_each (fun s => endSession e (UserSession.token s) reason) ss w
  = (Returns tt, end_all e reason ss w).
Proof.
  intros H. revert w. induction ss as [| s r IH]; intros w; [reflexivity |].
  cbn [for_each]. unfold bind. rewrite EndFacts.endSession_up by exact H.
  rewrite IH. reflexivity.
Qed.

Lemma stale_if_any e cfg fs :
  (if 0 <? len (staleSessions e cfg fs) then staleSessions e cfg fs else [])
  = staleSessions e cfg fs.
Proof.
  unfold len. destruct (staleSessions e cfg fs); reflexivity.
Qed.

(** The call, as a function of the world, while the store answers. *)
Lemma enforce_up e cfg userId w :
  dbUp e = true ->
  enforceSecurityPolicies e cfg userId w =
  (Returns (policy_result e cfg (fetched e userId w)), policy_world e cfg userId w).
Proof.
  intros H. unfold enforceSecurityPolicies, try_catch, bind at 1.
  rewrite getActiveSessions_up by exact H.
  set (fs := fetched e userId w).
  fold (tooMany cfg fs). fold (activeSessions cfg fs). fold (oldestSessions cfg fs).
  fold (staleSessions e cfg fs). fold (ipAddresses cfg fs). fold (suspiciousAgents cfg fs).
  fold (oldAuthSessions e cfg fs).
  fold (policy_violations e cfg fs). fold (policy_actions e cfg fs).
  fold (revokedCount e cfg fs).
  unfold bind at 1. rewrite for_each_endSession_up by exact H.
  unfold bind at 1. rewrite stale_if_any, for_each_endSession_up by exact H.
  unfold bind, policy_world. fold fs.
  destruct (0 <? List.length (policy_violations e cfg fs))%nat eqn:V.
  - rewrite Run.logSessionActivity_up by exact H.
    unfold ret, policy_result, policy_row. rewrite V. reflexivity.
  - unfold ret, policy_result. rewrite V. reflexivity.
Qed.

(** With the store down [getActiveSessions] yields no session, and a
    non-negative limit finds nothing to report. *)
Lemma enforce_down e cfg userId w :
  dbUp e = false -> 0 <= maxConcurrentSessions cfg ->
  enforceSecurityPolicies e cfg userId w
  = (Returns (mkPolicyResult [] [] false 0 0 0), w).
Proof.
  intros H M. unfold enforceSecurityPolicies, try_catch, bind at 1.
  rewrite getActiveSessions_down by exact H.
  replace (maxConcurrentSessions cfg <? len []) with false
    by (symmetry; apply Z.ltb_ge; exact M).
  reflexivity.
Qed.

End PolicyFacts.

(** ** Ending several sessions *)

Module EndAllFacts.
Import SessionService Effects.

Lemma end_rows_absent e tok l :
  find (has_token tok) l = None -> end_rows e tok l = l.
Proof.
  intros F. unfold end_rows. rewrite <- (map_id l) at 2. apply map_ext_in.
  intros s Hs. destruct (has_token tok s) eqn:E; [| reflexivity].
  exfalso. exact (eq_ind true (fun b => if b then True else False) I false
                    (eq_trans (eq_sym E) (find_none _ _ F s Hs))).
Qed.

Lemma sessions_end_effect e tok reason w :
  userSessions (end_effect e tok reason w) = end_rows e tok (userSessions w).
Proof.
  unfold end_effect. destruct (find (has_token tok) (userSessions w)) eqn:F.
  - reflexivity.
  - symmetry. apply end_rows_absent. exact F.
Qed.

Lemma users_end_effect e tok reason w :
  users (end_effect e tok reason w) = users w /\
  clerkUsers (end_effect e tok reason w) = clerkUsers w.
Proof.
  unfold end_effect. destruct (find (has_token tok) (userSessions w)); split; reflexivity.
Qed.

Lemma ended_idem e s : ended e (ended e s) = ended e s.
Proof. reflexivity. Qed.

Lemma end_all_rows_cons e tok toks l :
  end_all_rows e toks (end_rows e tok l) = end_all_rows e (tok :: toks) l.
Proof.
  unfold end_all_rows, end_rows. rewrite map_map. apply map_ext. intros s.
  cbn [existsb]. unfold has_token.
  destruct (String.eqb (UserSession.token s) tok).
  - cbn [orb]. rewrite EndFacts.ended_token.
    destruct (existsb (String.eqb (UserSession.token s)) toks); reflexivity.
  - reflexivity.
Qed.

Lemma end_all_rows_nil e l : end_all_rows e [] l = l.
Proof. unfold end_all_rows. cbn. apply map_id. Qed.

Lemma sessions_end_all e reason ss w :
  userSessions (end_all e reason ss w)
  = end_all_rows e (map UserSession.token ss) (userSessions w).
Proof.
  revert w. induction ss as [| s r IH]; intros w.
  - cbn. symmetry. apply end_all_rows_nil.
  - cbn [end_all fold_left map]. fold (end_all e reason r (end_effect e (UserSession.token s) reason w)).
    rewrite IH, sessions_end_effect. apply end_all_rows_cons.
Qed.

Lemma users_end_all e reason ss w :
  users (end_all e reason ss w) = users w /\
  clerkUsers (end_all e reason ss w) = clerkUsers w.
Proof.
  revert w. induction ss as [| s r IH]; intros w; [split; reflexivity |].
  cbn [end_all fold_left]. fold (end_all e reason r (end_effect e (UserSession.token s) reason w)).
  destruct (IH (end_effect e (UserSession.token s) reason w)) as [A B].
  destruct (users_end_effect e (UserSession.token s) reason w) as [C D].
  split; congruence.
Qed.

Lemma end_all_rows_app e t1 t2 l :
  end_all_rows e t2 (end_all_rows e t1 l) = end_all_rows e (t1 ++ t2) l.
Proof.
  unfold end_all_rows. rewrite map_map. apply map_ext. intros s.
  rewrite existsb_app.
  destruct (existsb (String.eqb (UserSession.token s)) t1).
  - cbn [orb]. rewrite EndFacts.ended_token.
    destruct (existsb (String.eqb (UserSession.token s)) t2); reflexivity.
  - reflexivity.
Qed.

(** A row that is active after the rows of [toks] were ended is a row of the
    old table, unchanged, and its token is not in [toks]. *)
Lemma active_after_end_all e toks l s :
  In s (end_all_rows e toks l) -> UserSession.isActive s = true ->
  In s l /\ existsb (String.eqb (UserSession.token s)) toks = false.
Proof.
  intros H A. unfold end_all_rows in H. apply in_map_iff in H.
  destruct H as [x [E Hx]].
  destruct (existsb (String.eqb (UserSession.token x)) toks) eqn:T.
  - subst s. discriminate A.
  - subst x. split; assumption.
Qed.

(** Ending never reactivates a row and never touches a row of another token. *)
Lemma end_all_rows_other e toks l s :
  In s l -> existsb (String.eqb (UserSession.token s)) toks = false ->
  In s (end_all_rows e toks l).
Proof.
  intros H T. unfold end_all_rows. apply in_map_iff. exists s. rewrite T. auto.
Qed.

Lemma end_all_rows_tokens e toks l :
  map UserSession.token (end_all_rows e toks l) = map UserSession.token l.
Proof.
  unfold end_all_rows. rewrite map_map. apply map_ext. intros s.
  destruct (existsb _ toks); reflexivity.
Qed.

End EndAllFacts.

(** ** The concurrent-session cap *)

Module CapFacts.
Import SessionService Effects.


Lemma find_by_token l s :
  NoDup (map UserSession.token l) -> In s l ->
  find (has_token (UserSession.token s)) l = Some s.
Proof.
  induction l as [| a l IH]; intros N H; [destruct H |].
  cbn [map] in N. inversion N as [| x xs Hnot Nl]; subst x xs.
  cbn [find]. unfold has_token at 1.
  destruct (String.eqb_spec (UserSession.token a) (UserSession.token s)) as [E | NE].
  - destruct H as [-> | H]; [reflexivity |].
    exfalso. apply Hnot. rewrite E. apply in_map. exact H.
  - destruct H as [-> | H]; [contradiction |]. apply IH; assumption.
Qed.

Lemma token_inj l s s' :
  NoDup (map UserSession.token l) -> In s l -> In s' l ->
  UserSession.token s = UserSession.token s' -> s = s'.
Proof.
  intros N H H' E. pose proof (find_by_token l s N H) as F.
  pose proof (find_by_token l s' N H') as F'. rewrite E in F. congruence.
Qed.


Lemma fetched_In e userId w s :
  In s (fetched e userId w) <-> In s (filter (is_active_of e userId) (userSessions w)).
Proof. unfold fetched. apply SortFacts.sort_by_In. Qed.

Lemma fetched_length e userId w :
  List.length (fetched e userId w)
  = List.length (filter (is_active_of e userId) (userSessions w)).
Proof. unfold fetched. apply SortFacts.sort_by_length. Qed.

Lemma activeSessions_In cfg fs s : In s (activeSessions cfg fs) <-> In s fs.
Proof.
  unfold activeSessions. destruct (tooMany cfg fs); [apply SortFacts.sort_by_In | reflexivity].
Qed.

Lemma activeSessions_length cfg fs : List.length (activeSessions cfg fs) = List.length fs.
Proof.
  unfold activeSessions. destruct (tooMany cfg fs); [apply SortFacts.sort_by_length | reflexivity].
Qed.

End CapFacts.


(** ** Re-running the enforcement *)

Module RerunFacts.
Import SessionService Effects.

Lemma len_pos {A} (l : list A) : (0 <? len l) = true <-> exists x, In x l.
Proof.
  unfold len. destruct l as [| a r]; cbn.
  - split; [discriminate | intros [x []]].
  - split; [intros _; exists a; auto | intros _; reflexivity].
Qed.

Lemma len_pos_false {A} (l : list A) : l = [] -> (0 <? len l) = false.
Proof. intros ->. reflexivity. Qed.

Lemma filter_dedup_In x y l :
  In y (filter (fun z => negb (String.eqb z x)) l) <-> In y l /\ y <> x.
Proof.
  rewrite filter_In. split; intros [H1 H2]; split; auto.
  - intros ->. rewrite String.eqb_refl in H2. discriminate.
  - destruct (String.eqb_spec y x); [contradiction | reflexivity].
Qed.

Lemma dedup_In l x : In x (dedup l) <-> In x l.
Proof.
  induction l as [| a r IH]; [reflexivity |].
  cbn [dedup In]. rewrite filter_dedup_In, IH.
  destruct (string_dec a x) as [E | NE].
  - split; auto.
  - split.
    + intros [H | [H _]]; auto.
    + intros [H | H]; [contradiction |]. right. split; [exact H | congruence].
Qed.

Lemma dedup_NoDup l : NoDup (dedup l).
Proof.
  induction l as [| a r IH]; [constructor |].
  cbn [dedup]. constructor.
  - rewrite filter_dedup_In. intros [_ H]. apply H. reflexivity.
  - apply NoDup_filter. exact IH.
Qed.

Lemma dedup_length_mono l1 l2 :
  incl l1 l2 -> (List.length (dedup l1) <= List.length (dedup l2))%nat.
Proof.
  intros H. apply NoDup_incl_length; [apply dedup_NoDup |].
  intros x Hx. apply dedup_In. apply H. apply dedup_In. exact Hx.
Qed.

Lemma truthy_In l x : In x (truthy_strings l) <-> In (Some x) l /\ x <> "".
Proof.
  unfold truthy_strings. rewrite in_flat_map. split.
  - intros [o [Ho Hx]]. destruct o as [[| c r] |]; try destruct Hx as [<- | []]; try destruct Hx.
    split; [exact Ho | discriminate].
  - intros [H NE]. exists (Some x). split; [exact H |].
    destruct x as [| c r]; [contradiction | left; reflexivity].
Qed.

Lemma truthy_incl {A} (f : A -> option string) l1 l2 :
  incl l1 l2 -> incl (truthy_strings (map f l1)) (truthy_strings (map f l2)).
Proof.
  intros H x Hx. apply truthy_In in Hx. destruct Hx as [Hx NE].
  apply truthy_In. split; [| exact NE].
  apply in_map_iff in Hx. destruct Hx as [a [E Ha]].
  apply in_map_iff. exists a. split; [exact E | apply H; exact Ha].
Qed.

(** Staleness and the re-authentication age only grow with the clock. *)
Lemma is_active_earlier e1 e2 userId s :
  now e1 <= now e2 -> is_active_of e2 userId s = true -> is_active_of e1 userId s = true.
Proof.
  intros Le H. unfold is_active_of in *.
  apply andb_true_iff in H. destruct H as [H1 H2]. rewrite H1. cbn [andb].
  apply Z.ltb_lt in H2. apply Z.ltb_lt. lia.
Qed.

(** The session table after a run, while the store answers. *)
Lemma sessions_policy_world e cfg userId w :
  userSessions (policy_world e cfg userId w)
  = end_all_rows e
      (map UserSession.token (oldestSessions cfg (fetched e userId w))
       ++ map UserSession.token (staleSessions e cfg (fetched e userId w)))
      (userSessions w).
Proof.
  unfold policy_world.
  destruct (0 <? List.length _)%nat; cbn [add_activity userSessions];
    rewrite !EndAllFacts.sessions_end_all; apply EndAllFacts.end_all_rows_app.
Qed.

Lemma existsb_token_false toks s :
  existsb (String.eqb (UserSession.token s)) toks = false ->
  ~ In (UserSession.token s) toks.
Proof.
  intros H Hin. assert (T : existsb (String.eqb (UserSession.token s)) toks = true).
  { apply existsb_exists. exists (UserSession.token s). split; [exact Hin | apply String.eqb_refl]. }
  congruence.
Qed.

Lemma NoDup_sessions l : NoDup (map UserSession.token l) -> NoDup l.
Proof. apply NoDup_map_inv. Qed.

End RerunFacts.

(** X5.  Re-running the enforcement.  After a run that the store answered, a
    second run (at the same or a later clock reading at which no session of
    the table has newly crossed the staleness or the re-authentication
    threshold, and with a non-negative session limit) ends no session and
    reports zero revoked sessions; it reports neither [too_many_sessions]
    nor [stale_sessions], and every violation it reports was reported by the
    first run. *)
Theorem enforce_rerun
  (e1 e2 : Env) (cfg : SessionSecurityConfig) (userId : string) (w : World) :
  dbUp e1 = true ->
  0 <= maxConcurrentSessions cfg ->
  NoDup (map UserSession.token (userSessions w)) ->
  now e1 <= now e2 ->
  (forall s, In s (userSessions w) ->
     SessionService.is_stale e2 cfg s = true -> SessionService.is_stale e1 cfg s = true) ->
  (forall s, In s (userSessions w) ->
     SessionService.needs_reauth e2 cfg s = true -> SessionService.needs_reauth e1 cfg s = true) ->
  let first := SessionService.enforceSecurityPolicies e1 cfg userId w in
  let second := SessionService.enforceSecurityPolicies e2 cfg userId (snd first) in
  exists r1 r2,
    fst first = Returns r1 /\ fst second = Returns r2 /\
    revokedSessions r2 = 0 /\
    userSessions (snd second) = userSessions (snd first) /\
    incl (violations r2) (violations r1) /\
    ~ In "too_many_sessions" (violations r2) /\
    ~ In "stale_sessions" (violations r2).
Proof.
  intros Up1 Max N Le HS HR first second. subst second first.
  rewrite (PolicyFacts.enforce_up e1 cfg userId w Up1). cbn [fst snd].
  set (fs1 := Effects.fetched e1 userId w).
  set (w1 := Effects.policy_world e1 cfg userId w).
  exists (Effects.policy_result e1 cfg fs1).
  destruct (dbUp e2) eqn:Up2.
  2:{ rewrite (PolicyFacts.enforce_down e2 cfg userId w1 Up2 Max). cbn [fst snd].
      eexists. split; [reflexivity |]. split; [reflexivity |].
      cbn. repeat split; auto. intros x []. }
  rewrite (PolicyFacts.enforce_up e2 cfg userId w1 Up2). cbn [fst snd].
  set (fs2 := Effects.fetched e2 userId w1).
  exists (Effects.policy_result e2 cfg fs2).
  split; [reflexivity |]. split; [reflexivity |].
  set (A1 := Effects.activeSessions cfg fs1).
  set (O1 := Effects.oldestSessions cfg fs1).
  set (S1 := Effects.staleSessions e1 cfg fs1).
  (* every session fetched by the second run survived the first *)
  assert (Surv : forall x, In x fs2 ->
            In x (userSessions w) /\ In x A1 /\ ~ In x O1 /\
            SessionService.is_stale e2 cfg x = false).
  { intros x Hx. unfold fs2 in Hx. apply CapFacts.fetched_In in Hx.
    apply filter_In in Hx. destruct Hx as [Hx Ax].
    assert (Act : UserSession.isActive x = true).
    { unfold SessionService.is_active_of in Ax.
      apply andb_true_iff in Ax. destruct Ax as [Ax _].
      apply andb_true_iff in Ax. apply Ax. }
    unfold w1 in Hx. rewrite RerunFacts.sessions_policy_world in Hx.
    apply EndAllFacts.active_after_end_all in Hx; [| exact Act].
    destruct Hx as [Hw T]. fold fs1 in T. fold O1 S1 in T.
    apply RerunFacts.existsb_token_false in T.
    assert (HA : In x A1).
    { unfold A1. apply CapFacts.activeSessions_In. unfold fs1. apply CapFacts.fetched_In.
      apply filter_In. split; [exact Hw |].
      exact (RerunFacts.is_active_earlier e1 e2 userId x Le Ax). }
    split; [exact Hw |]. split; [exact HA |]. split.
    - intros HO. apply T. apply in_or_app. left. apply in_map. exact HO.
    - destruct (SessionService.is_stale e2 cfg x) eqn:Stale; [| reflexivity].
      exfalso. apply T. apply in_or_app. right. apply in_map.
      unfold S1, Effects.staleSessions. fold A1. apply filter_In.
      split; [exact HA | exact (HS x Hw Stale)]. }
  assert (ND2 : NoDup fs2).
  { unfold fs2, Effects.fetched. apply SortFacts.sort_by_NoDup. apply NoDup_filter.
    apply RerunFacts.NoDup_sessions. unfold w1.
    rewrite RerunFacts.sessions_policy_world, EndAllFacts.end_all_rows_tokens. exact N. }
  (* the second run is within the limit *)
  assert (TM2 : Effects.tooMany cfg fs2 = false).
  { unfold Effects.tooMany, SessionService.len. apply Z.ltb_ge.
    destruct (Effects.tooMany cfg fs1) eqn:TM1.
    - assert (LA : List.length A1 = List.length fs1)
        by (apply CapFacts.activeSessions_length).
      unfold Effects.tooMany, SessionService.len in TM1. apply Z.ltb_lt in TM1.
      set (k := Z.to_nat (Z.of_nat (List.length A1) - maxConcurrentSessions cfg)).
      assert (EO : O1 = firstn k A1).
      { unfold O1, Effects.oldestSessions. fold A1.
        unfold Effects.tooMany, SessionService.len.
        replace (maxConcurrentSessions cfg <? Z.of_nat (List.length fs1)) with true
          by (symmetry; apply Z.ltb_lt; exact TM1).
        reflexivity. }
      assert (Incl : incl fs2 (skipn k A1)).
      { intros x Hx. destruct (Surv x Hx) as [_ [HA [HO _]]].
        rewrite <- (firstn_skipn k A1) in HA. apply in_app_or in HA.
        destruct HA as [HA | HA]; [| exact HA]. exfalso. apply HO. rewrite EO. exact HA. }
      pose proof (NoDup_incl_length ND2 Incl) as Len.
      rewrite length_skipn in Len. unfold k in Len. lia.
    - assert (Incl : incl fs2 A1) by (intros x Hx; apply (Surv x Hx)).
      pose proof (NoDup_incl_length ND2 Incl) as Len.
      pose proof (CapFacts.activeSessions_length cfg fs1) as LA. fold A1 in LA.
      unfold Effects.tooMany, SessionService.len in TM1. apply Z.ltb_ge in TM1. lia. }
  assert (A2 : Effects.activeSessions cfg fs2 = fs2)
    by (unfold Effects.activeSessions; rewrite TM2; reflexivity).
  assert (O2 : Effects.oldestSessions cfg fs2 = [])
    by (unfold Effects.oldestSessions; rewrite TM2; reflexivity).
  assert (S2 : Effects.staleSessions e2 cfg fs2 = []).
  { unfold Effects.staleSessions. rewrite A2. apply Run.filter_nil.
    intros x Hx. apply (Surv x Hx). }
  assert (InclA : incl fs2 A1) by (intros x Hx; apply (Surv x Hx)).
  split.
  { unfold Effects.policy_result. cbn [revokedSessions].
    unfold Effects.revokedCount. rewrite TM2, S2. reflexivity. }
  split.
  { rewrite RerunFacts.sessions_policy_world. fold fs2. rewrite O2, S2.
    cbn [map app]. apply EndAllFacts.end_all_rows_nil. }
  unfold Effects.policy_result. cbn [violations].
  unfold Effects.policy_violations at 1 3 4.
  rewrite TM2, S2. cbn [SessionService.len List.length Z.of_nat Z.ltb Z.compare app].
  split.
  { intros v Hv. apply in_app_or in Hv. destruct Hv as [Hv | Hv].
    - destruct (3 <? SessionService.len (Effects.ipAddresses cfg fs2)) eqn:ML;
        [| destruct Hv].
      destruct Hv as [<- | []].
      unfold Effects.policy_violations. apply in_or_app. right. apply in_or_app. left.
      replace (3 <? SessionService.len (Effects.ipAddresses cfg fs1)) with true;
        [left; reflexivity |].
      symmetry. apply Z.ltb_lt. apply Z.ltb_lt in ML.
      unfold SessionService.len, Effects.ipAddresses in *. rewrite A2 in ML. fold A1.
      pose proof (RerunFacts.dedup_length_mono _ _
                    (RerunFacts.truthy_incl UserSession.ipAddress fs2 A1 InclA)). lia.
    - apply in_app_or in Hv. destruct Hv as [Hv | Hv].
      + destruct (0 <? SessionService.len (Effects.suspiciousAgents cfg fs2)) eqn:SA;
          [| destruct Hv].
        destruct Hv as [<- | []].
        unfold Effects.policy_violations. do 3 (apply in_or_app; right).
        apply in_or_app. left.
        replace (0 <? SessionService.len (Effects.suspiciousAgents cfg fs1)) with true;
          [left; reflexivity |].
        symmetry. apply RerunFacts.len_pos. apply RerunFacts.len_pos in SA.
        destruct SA as [ua Hua]. exists ua.
        unfold Effects.suspiciousAgents in *. rewrite A2 in Hua. fold A1.
        apply filter_In in Hua. destruct Hua as [Hua Bot]. apply filter_In.
        split; [| exact Bot].
        exact (RerunFacts.truthy_incl UserSession.userAgent fs2 A1 InclA ua Hua).
      + destruct (0 <? SessionService.len (Effects.oldAuthSessions e2 cfg fs2)) eqn:OA;
          [| destruct Hv].
        destruct Hv as [<- | []].
        unfold Effects.policy_violations. do 4 (apply in_or_app; right).
        replace (0 <? SessionService.len (Effects.oldAuthSessions e1 cfg fs1)) with true;
          [left; reflexivity |].
        symmetry. apply RerunFacts.len_pos. apply RerunFacts.len_pos in OA.
        destruct OA as [x Hx]. exists x.
        unfold Effects.oldAuthSessions in *. rewrite A2 in Hx. fold A1.
        apply filter_In in Hx. destruct Hx as [Hx Old]. apply filter_In.
        destruct (Surv x Hx) as [Hw [HA _]]. split; [exact HA | exact (HR x Hw Old)]. }
  split.
  - intros Hv. apply in_app_or in Hv. destruct Hv as [Hv | Hv].
    + destruct (3 <? _); [destruct Hv as [Hv | []]; discriminate Hv | destruct Hv].
    + apply in_app_or in Hv. destruct Hv as [Hv | Hv];
        (destruct (0 <? _); [destruct Hv as [Hv | []]; discriminate Hv | destruct Hv]).
  - intros Hv. apply in_app_or in Hv. destruct Hv as [Hv | Hv].
    + destruct (3 <? _); [destruct Hv as [Hv | []]; discriminate Hv | destruct Hv].
    + apply in_app_or in Hv. destruct Hv as [Hv | Hv];
        (destruct (0 <? _); [destruct Hv as [Hv | []]; discriminate Hv | destruct Hv]).
Qed.


Lemma enforce_rerun_witness :
  let e := Fixtures.env_at Scenarios.t0 in
  let first := SessionService.enforceSecurityPolicies e defaultSecurityConfig "user_123"
                 Scenarios.world_six in
  let second := SessionService.enforceSecurityPolicies e defaultSecurityConfig "user_123"
                  (snd first) in
  exists r2, fst second = Returns r2 /\ revokedSessions r2 = 0 /\
             userSessions (snd second) = userSessions (snd first).
Proof.
  cbv zeta.
  assert (NT : NoDup (map UserSession.token (userSessions Scenarios.world_six)))
    by nodup_by_discriminate.
  destruct (enforce_rerun (Fixtures.env_at Scenarios.t0) (Fixtures.env_at Scenarios.t0)
              defaultSecurityConfig "user_123" Scenarios.world_six eq_refl
              ltac:(cbn; discriminate) NT (Z.le_refl _) (fun _ _ H => H) (fun _ _ H => H))
    as [r1 [r2 [_ [E2 [R [S _]]]]]].
  exists r2. split; [exact E2 |]. split; [exact R | exact S].
Defined.

Module FrameFacts.
Import SessionService Effects.

Lemma logSessionActivity_down e a w :
  dbUp e = false -> logSessionActivity e a w = (Returns tt, w).
Proof.
  intros H. unfold logSessionActivity, try_catch, Prisma.userActivity_create.
  rewrite Run.guard_down by exact H. reflexivity.
Qed.

(** With the store down nothing is fetched and nothing is written. *)
Lemma enforce_down_world e cfg userId w :
  dbUp e = false -> snd (enforceSecurityPolicies e cfg userId w) = w.
Proof.
  intros H. unfold enforceSecurityPolicies, try_catch, bind at 1.
  rewrite PolicyFacts.getActiveSessions_down by exact H.
  destruct (maxConcurrentSessions cfg <? len (@nil UserSession.t)) eqn:T.
  - cbn [sort_by fold_right]. rewrite firstn_nil.
    cbn [for_each map filter truthy_strings flat_map dedup len List.length Z.of_nat Z.ltb
         Z.compare app].
    unfold bind, ret. cbn [Nat.ltb Nat.leb List.length].
    rewrite logSessionActivity_down by exact H. reflexivity.
  - reflexivity.
Qed.

Lemma Forall2_map_r {A B} (R : A -> B -> Prop) (g : A -> B) l :
  (forall x, In x l -> R x (g x)) -> Forall2 R l (map g l).
Proof.
  induction l as [| a r IH]; intros H; [constructor |].
  cbn. constructor; [apply H; left; reflexivity | apply IH; intros x Hx; apply H; right; exact Hx].
Qed.

Lemma in_firstn {A} n (l : list A) x : In x (firstn n l) -> In x l.
Proof.
  intros H. rewrite <- (firstn_skipn n l). apply in_or_app. left. exact H.
Qed.

Lemma in_tokens_inv l tok :
  In tok (map UserSession.token l) -> exists s, In s l /\ UserSession.token s = tok.
Proof.
  intros H. apply in_map_iff in H. destruct H as [s [E Hs]]. exists s. auto.
Qed.

End FrameFacts.

(** X6.  What enforcement may do to the session table.  With unique tokens,
    every row after [enforceSecurityPolicies] is the row before it, either
    untouched or ended; and a row is ended only if it belongs to the
    principal and was active and unexpired.  No row is removed or
    reactivated, no session of another principal is touched, and the user
    table and the identity provider are left alone. *)
Theorem enforce_touches_only_own_active_sessions
  (e : Env) (cfg : SessionSecurityConfig) (userId : string) (w : World) :
  NoDup (map UserSession.token (userSessions w)) ->
  let w' := snd (SessionService.enforceSecurityPolicies e cfg userId w) in
  users w' = users w /\ clerkUsers w' = clerkUsers w /\
  Forall2 (fun s s' =>
             s' = s \/
             (s' = SessionService.ended e s /\ SessionService.is_active_of e userId s = true))
    (userSessions w) (userSessions w').
Proof.
  intros N w'. subst w'. destruct (dbUp e) eqn:Up.
  2:{ rewrite FrameFacts.enforce_down_world by exact Up.
      split; [reflexivity |]. split; [reflexivity |].
      rewrite <- (map_id (userSessions w)) at 2. apply FrameFacts.Forall2_map_r. auto. }
  rewrite (PolicyFacts.enforce_up e cfg userId w Up). cbn [snd].
  split; [| split].
  - unfold Effects.policy_world.
    destruct (0 <? List.length _)%nat; cbn [Effects.add_activity users];
      rewrite (proj1 (EndAllFacts.users_end_all _ _ _ _));
      apply (proj1 (EndAllFacts.users_end_all _ _ _ _)).
  - unfold Effects.policy_world.
    destruct (0 <? List.length _)%nat; cbn [Effects.add_activity clerkUsers];
      rewrite (proj2 (EndAllFacts.users_end_all _ _ _ _));
      apply (proj2 (EndAllFacts.users_end_all _ _ _ _)).
  - rewrite RerunFacts.sessions_policy_world. unfold Effects.end_all_rows.
    apply FrameFacts.Forall2_map_r. intros s Hs.
    set (fs := Effects.fetched e userId w).
    destruct (existsb (String.eqb (UserSession.token s)) _) eqn:T; [| left; reflexivity].
    right. split; [reflexivity |].
    apply existsb_exists in T. destruct T as [tok [Htok E]].
    apply String.eqb_eq in E. subst tok.
    assert (Hx : exists x, In x fs /\ UserSession.token x = UserSession.token s).
    { apply in_app_or in Htok. destruct Htok as [H | H];
        apply FrameFacts.in_tokens_inv in H; destruct H as [x [Hx E]]; exists x;
        (split; [| exact E]).
      - unfold Effects.oldestSessions in Hx. fold fs in Hx.
        destruct (Effects.tooMany cfg fs); [| destruct Hx].
        apply FrameFacts.in_firstn in Hx. apply CapFacts.activeSessions_In in Hx. exact Hx.
      - unfold Effects.staleSessions in Hx. apply filter_In in Hx.
        apply (CapFacts.activeSessions_In cfg fs x). apply Hx. }
    destruct Hx as [x [Hx E]]. unfold fs in Hx. apply CapFacts.fetched_In in Hx.
    apply filter_In in Hx. destruct Hx as [Hxw Ax].
    assert (x = s) by exact (CapFacts.token_inj _ x s N Hxw Hs E).
    subst x. exact Ax.
Qed.

Lemma enforce_touches_only_own_active_sessions_witness :
  let w' := snd (SessionService.enforceSecurityPolicies (Fixtures.env_at Scenarios.t0)
                   defaultSecurityConfig "user_123" Scenarios.world_six) in
  users w' = users Scenarios.world_six /\ clerkUsers w' = clerkUsers Scenarios.world_six.
Proof.
  cbv zeta.
  assert (NT : NoDup (map UserSession.token (userSessions Scenarios.world_six)))
    by nodup_by_discriminate.
  destruct (enforce_touches_only_own_active_sessions (Fixtures.env_at Scenarios.t0)
              defaultSecurityConfig "user_123" Scenarios.world_six NT) as [U [C _]].
  split; [exact U | exact C].
Defined.

(** ** Profile synchronisation *)

Module SyncFacts.
Import ProfileSyncService SyncEffects Effects.

Lemma log_from_clerk_up e cid ch ok err co w :
  dbUp e = true ->
  logSyncActivity e (mkSyncActivity cid "from_clerk" ch ok err co) w
  = (Returns tt, add_activity (sync_row e cid ch ok err co) w).
Proof.
  intros H. unfold logSyncActivity, try_catch. rewrite Run.create_up by exact H. reflexivity.
Qed.


Lemma findUnique_up e cid w :
  dbUp e = true ->
  Prisma.user_findUnique e cid w = (Returns (find (has_clerkId cid) (users w)), w).
Proof. intros H. unfold Prisma.user_findUnique. rewrite Run.guard_up by exact H. reflexivity. Qed.

Lemma relation_upsert_up e cid f w u :
  dbUp e = true -> find (has_clerkId cid) (users w) = Some u ->
  Prisma.relation_upsert e cid f w = (Returns tt, with_users (map_user cid f (users w)) w).
Proof.
  intros H F. unfold Prisma.relation_upsert. rewrite Run.guard_up by exact H.
  fold (has_clerkId cid). rewrite (EndFacts.find_existsb _ _ _ F). reflexivity.
Qed.

Lemma user_update_up e cid f w u :
  dbUp e = true -> find (has_clerkId cid) (users w) = Some u ->
  Prisma.user_update e cid f w =
  if existsb (fun v => andb (negb (String.eqb (User.clerkId v) cid))
                            (String.eqb (User.email v) (User.email (f u)))) (users w)
  then (Throws Prisma.rejected, w)
  else (Returns tt, with_users (map_user cid f (users w)) w).
Proof.
  intros H F. unfold Prisma.user_update. rewrite Run.guard_up by exact H.
  fold (has_clerkId cid). rewrite F. reflexivity.
Qed.

Lemma find_map_user cid f us :
  (forall v, User.clerkId (f v) = User.clerkId v) ->
  find (has_clerkId cid) (map_user cid f us) = option_map f (find (has_clerkId cid) us).
Proof.
  intros K. induction us as [| v r IH]; [reflexivity |].
  cbn [map_user map find]. unfold has_clerkId at 1 3.
  destruct (String.eqb (User.clerkId v) cid) eqn:E.
  - rewrite K, E. reflexivity.
  - rewrite E. exact IH.
Qed.

Lemma users_with_users us w : users (with_users us w) = us.
Proof. reflexivity. Qed.

Lemma with_users_twice us us' w : with_users us (with_users us' w) = with_users us w.
Proof. reflexivity. Qed.

Lemma with_users_same w : with_users (users w) w = w.
Proof. destruct w. reflexivity. Qed.

(** [syncProfileData] while the store answers and the user exists. *)
Lemma syncProfileData_up e cid c o w u :
  dbUp e = true -> find (has_clerkId cid) (users w) = Some u ->
  syncProfileData e cid c o w
  = (Returns (profileChangesOf u c ++ preferencesChangesOf u c),
     with_users (relations_step e cid c o u (users w)) w).
Proof.
  intros H F. unfold syncProfileData, try_catch at 1, bind at 1.
  rewrite findUnique_up by exact H. rewrite F.
  fold (profileData c). fold (preferencesData c). fold (profileChangesOf u c).
  fold (applies o).
  unfold relations_step, preferencesChangesOf.
  set (pc := profileChangesOf u c).
  set (us1 := if andb (0 <? List.length pc)%nat (applies o)
              then map_user cid (setProfile (profileOf e (profileData c))) (users w)
              else users w).
  assert (Step1 :
    (if andb (0 <? List.length pc)%nat (applies o)
     then Prisma.relation_upsert e cid (setProfile (profileOf e (profileData c)))
     else ret tt) w = (Returns tt, with_users us1 w)).
  { unfold us1. destruct (andb (0 <? List.length pc)%nat (applies o)).
    - apply (relation_upsert_up e cid _ w u H F).
    - unfold ret. rewrite with_users_same. reflexivity. }
  assert (F1 : exists u1, find (has_clerkId cid) (users (with_users us1 w)) = Some u1).
  { cbn [users with_users]. unfold us1.
    destruct (andb (0 <? List.length pc)%nat (applies o)).
    - rewrite find_map_user by reflexivity. rewrite F. eexists. reflexivity.
    - eexists. exact F. }
  destruct F1 as [u1 F1].
  unfold try_catch at 1, bind at 1. rewrite Step1.
  destruct (0 <? preferenceKeys (preferencesData c))%nat eqn:K.
  - set (qc := preferencesDiffs (User.preferences u) (preferencesData c)).
    unfold try_catch, bind.
    destruct (andb (0 <? List.length qc)%nat (applies o)).
    + rewrite (relation_upsert_up e cid _ _ u1 H F1). reflexivity.
    + reflexivity.
  - unfold ret. cbn [List.length Nat.ltb Nat.leb andb]. rewrite app_nil_r. reflexivity.
Qed.

Lemma getUser_up e cid w c :
  clerkUp e = true -> find (has_id cid) (clerkUsers w) = Some c ->
  ClerkApi.getUser e cid w = (Returns c, w).
Proof.
  intros H F. unfold ClerkApi.getUser. rewrite H. fold (has_id cid). rewrite F. reflexivity.
Qed.

Lemma conflicts_length o u c :
  Nat.eqb (List.length (if andb (negb (force o)) (Clerk.updatedAt c <? User.updatedAt u)
                        then ["user_data_newer_in_database"] else [])) 0
  = negb (conflict o u c).
Proof. unfold conflict. destruct (andb _ _); reflexivity. Qed.

(** The whole call for an existing local record, while both services answer. *)
Lemma sync_existing e cid o w c u :
  clerkUp e = true -> dbUp e = true ->
  find (has_id cid) (clerkUsers w) = Some c ->
  find (has_clerkId cid) (users w) = Some u ->
  syncFromClerk e cid o w =
  if andb (writes o u c) (email_taken e cid u c (users w))
  then (Returns (failure Prisma.rejected),
        add_activity (sync_row e cid [] false (Some Prisma.rejected) None) w)
  else
    let u1 := if writes o u c then applyUpdateData e c u else u in
    let us1 := if writes o u c then map_user cid (applyUpdateData e c) (users w) else users w in
    let changes := changed (userDiffs u c) ++ profileChangesOf u1 c ++ preferencesChangesOf u1 c in
    let conflicts := if conflict o u c then ["user_data_newer_in_database"] else [] in
    (Returns (mkResult true changes conflicts
                ("Synchronized " ++ Js.toString (Z.of_nat (List.length changes))
                 ++ " changes from Clerk")%string None),
     add_activity (sync_row e cid changes true None (Some conflicts))
       (with_users (relations_step e cid c o u1 us1) w)).
Proof.
  intros CU DU FC FU. unfold syncFromClerk, try_catch, bind at 1.
  rewrite (getUser_up e cid w c CU FC). unfold bind at 1.
  rewrite findUnique_up by exact DU. rewrite FU.
  rewrite conflicts_length. fold (conflict o u c). fold (writes o u c).
  unfold bind at 1. unfold bind at 1.
  destruct (writes o u c) eqn:W.
  - rewrite (user_update_up e cid _ w u DU FU). fold (email_taken e cid u c (users w)).
    destruct (email_taken e cid u c (users w)) eqn:T.
    + cbn [andb]. unfold bind. rewrite log_from_clerk_up by exact DU. reflexivity.
    + cbn [andb]. unfold bind at 1.
      assert (F1 : find (has_clerkId cid)
                     (users (with_users (map_user cid (applyUpdateData e c) (users w)) w))
                   = Some (applyUpdateData e c u)).
      { cbn [users with_users]. rewrite find_map_user by reflexivity. rewrite FU. reflexivity. }
      rewrite (syncProfileData_up e cid c o _ _ DU F1).
      unfold ret at 1. unfold bind. rewrite log_from_clerk_up by exact DU.
      reflexivity.
  - cbn [andb]. unfold ret at 1. unfold bind at 1.
    rewrite (syncProfileData_up e cid c o w u DU FU).
    unfold ret at 1. unfold bind. rewrite log_from_clerk_up by exact DU.
    reflexivity.
Qed.

(** *** Computations that leave the activity log alone *)














End SyncFacts.

Module SyncTwice.
Import ProfileSyncService SyncEffects Effects.






Lemma userDiffs_relations e c o u : userDiffs (relations_user e c o u) c = userDiffs u c.
Proof.
  unfold relations_user. destruct (andb _ (applies o)); destruct (andb _ (applies o));
    reflexivity.
Qed.

Lemma fields_relations e c o u :
  (User.email (relations_user e c o u), User.emailVerified (relations_user e c o u),
   User.firstName (relations_user e c o u), User.lastName (relations_user e c o u),
   User.imageUrl (relations_user e c o u), User.role (relations_user e c o u),
   User.twoFactorEnabled (relations_user e c o u))
  = (User.email u, User.emailVerified u, User.firstName u, User.lastName u,
     User.imageUrl u, User.role u, User.twoFactorEnabled u).
Proof.
  unfold relations_user. destruct (andb _ (applies o)); destruct (andb _ (applies o));
    reflexivity.
Qed.

Lemma updatedAt_relations e c o u : User.updatedAt (relations_user e c o u) = User.updatedAt u.
Proof.
  unfold relations_user. destruct (andb _ (applies o)); destruct (andb _ (applies o));
    reflexivity.
Qed.





Lemma find_relations_step e cid c o u us :
  find (has_clerkId cid) us = Some u ->
  find (has_clerkId cid) (relations_step e cid c o u us) = Some (relations_user e c o u).
Proof.
  intros F. unfold relations_step, relations_user.
  destruct (andb (0 <? List.length (profileChangesOf u c))%nat (applies o));
    destruct (andb (0 <? List.length (preferencesChangesOf u c))%nat (applies o));
    rewrite ?find_map_user by reflexivity;
    rewrite ?SyncFacts.find_map_user by reflexivity; rewrite ?F; try reflexivity;
    rewrite ?SyncFacts.find_map_user by reflexivity; rewrite ?F; reflexivity.
Qed.


End SyncTwice.

Module RecordFacts.


End RecordFacts.




(** X9.  A local record newer than the external one, without [force]: the call
    succeeds with the conflict [user_data_newer_in_database], writes none of
    the user fields, and still reports the differing fields as changes; so
    does every later call, as the record's user fields and its date stay. *)
Theorem syncFromClerk_conflict_keeps_local_fields
  (e e2 : Env) (clerkId : string) (o : ProfileSyncService.SyncOptions) (w : World)
  (c : Clerk.User) (u : User.t) :
  clerkUp e = true -> dbUp e = true ->
  clerkUp e2 = true -> dbUp e2 = true ->
  find (SyncEffects.has_id clerkId) (clerkUsers w) = Some c ->
  find (SyncEffects.has_clerkId clerkId) (users w) = Some u ->
  SyncEffects.conflict o u c = true ->
  exists r w' u' rest,
    ProfileSyncService.syncFromClerk e clerkId o w = (Returns r, w') /\
    ProfileSyncService.success r = true /\
    ProfileSyncService.conflicts r = ["user_data_newer_in_database"] /\
    ProfileSyncService.changes r
      = ProfileSyncService.changed (ProfileSyncService.userDiffs u c) ++ rest /\
    find (SyncEffects.has_clerkId clerkId) (users w') = Some u' /\
    ProfileSyncService.userDiffs u' c = ProfileSyncService.userDiffs u c /\
    (User.email u', User.emailVerified u', User.firstName u', User.lastName u',
     User.imageUrl u', User.role u', User.twoFactorEnabled u')
    = (User.email u, User.emailVerified u, User.firstName u, User.lastName u,
       User.imageUrl u, User.role u, User.twoFactorEnabled u) /\
    User.updatedAt u' = User.updatedAt u /\
    exists r2 w2 rest2,
      ProfileSyncService.syncFromClerk e2 clerkId o w' = (Returns r2, w2) /\
      ProfileSyncService.conflicts r2 = ["user_data_newer_in_database"] /\
      ProfileSyncService.changes r2
        = ProfileSyncService.changed (ProfileSyncService.userDiffs u c) ++ rest2.
Proof.
  intros CU DU CU2 DU2 FC FU K.
  assert (W : SyncEffects.writes o u c = false).
  { unfold SyncEffects.writes. rewrite K.
    pose proof K as K'. unfold SyncEffects.conflict in K'.
    apply Bool.andb_true_iff in K'. destruct K' as [Fo _].
    apply Bool.negb_true_iff in Fo. rewrite Fo. apply Bool.andb_false_r. }
  rewrite (SyncFacts.sync_existing e clerkId o w c u CU DU FC FU).
  rewrite W, K. cbn [andb]. cbv zeta.
  set (w1 := Effects.add_activity _ _).
  assert (FU1 : find (SyncEffects.has_clerkId clerkId) (users w1)
                = Some (SyncEffects.relations_user e c o u)).
  { exact (SyncTwice.find_relations_step e clerkId c o u (users w) FU). }
  assert (FC1 : find (SyncEffects.has_id clerkId) (clerkUsers w1) = Some c) by exact FC.
  assert (K1 : SyncEffects.conflict o (SyncEffects.relations_user e c o u) c = true).
  { unfold SyncEffects.conflict. rewrite SyncTwice.updatedAt_relations. exact K. }
  assert (W1 : SyncEffects.writes o (SyncEffects.relations_user e c o u) c = false).
  { unfold SyncEffects.writes. rewrite K1.
    pose proof K as K'. unfold SyncEffects.conflict in K'.
    apply Bool.andb_true_iff in K'. destruct K' as [Fo _].
    apply Bool.negb_true_iff in Fo. rewrite Fo. apply Bool.andb_false_r. }
  eexists. exists w1. exists (SyncEffects.relations_user e c o u). eexists.
  split; [reflexivity |]. split; [reflexivity |]. split; [reflexivity |].
  split; [reflexivity |]. split; [exact FU1 |].
  split; [apply SyncTwice.userDiffs_relations |].
  split; [apply SyncTwice.fields_relations |].
  split; [apply SyncTwice.updatedAt_relations |].
  rewrite (SyncFacts.sync_existing e2 clerkId o w1 c _ CU2 DU2 FC1 FU1).
  rewrite W1, K1. cbn [andb]. cbv zeta.
  eexists. eexists. eexists. split; [reflexivity |]. split; [reflexivity |].
  cbn [ProfileSyncService.changes]. rewrite SyncTwice.userDiffs_relations. reflexivity.
Qed.

Lemma syncFromClerk_conflict_witness :
  exists r w',
    ProfileSyncService.syncFromClerk (Fixtures.env_at 1700000000000) "user_123"
      ProfileSyncService.defaultOptions SyncScenarios.world_newer_local = (Returns r, w') /\
    ProfileSyncService.conflicts r = ["user_data_newer_in_database"] /\
    users w' <> users SyncScenarios.world_newer_local.
Proof.
  destruct (syncFromClerk_conflict_keeps_local_fields
              (Fixtures.env_at 1700000000000) (Fixtures.env_at 1700000060000) "user_123"
              ProfileSyncService.defaultOptions SyncScenarios.world_newer_local
              (SyncScenarios.ada_clerk 1695000000000) (SyncScenarios.ada_local 1699000000000)
              eq_refl eq_refl eq_refl eq_refl eq_refl eq_refl eq_refl)
    as (r & w' & u' & rest & E & _ & K & _).
  exists r, w'. split; [exact E |]. split; [exact K |].
  vm_compute in E. injection E as _ E. subst w'. vm_compute. discriminate.
Defined.

(** ** More of the security service *)

Module OpsFacts.
Import Effects SyncEffects.




Lemma logSecurityEvent_run e ev w :
  SecurityService.logSecurityEvent e ev w =
  (Returns tt, if dbUp e then add_activity (security_row e ev) w else w).
Proof.
  destruct (dbUp e) eqn:U.
  - apply Run.logSecurityEvent_up. exact U.
  - apply Run.logSecurityEvent_down. exact U.
Qed.




(** What a successful update of a user row says. *)
Lemma user_update_returns e cid f w w' :
  (forall v, User.clerkId (f v) = User.clerkId v) ->
  Prisma.user_update e cid f w = (Returns tt, w') ->
  dbUp e = true /\
  exists u, find (has_clerkId cid) (users w) = Some u /\
            find (has_clerkId cid) (users w') = Some (f u) /\
            w' = with_users (map_user cid f (users w)) w.
Proof.
  intros K H. unfold Prisma.user_update, Prisma.guard in H.
  destruct (dbUp e); [| discriminate H]. split; [reflexivity |].
  fold (has_clerkId cid) in H.
  destruct (find (has_clerkId cid) (users w)) as [u |] eqn:F; [| discriminate H].
  destruct (existsb _ (users w)); [discriminate H |].
  injection H as <-. exists u. split; [reflexivity |]. split; [| reflexivity].
  cbn [users]. fold (map_user cid f (users w)).
  rewrite SyncFacts.find_map_user by exact K. rewrite F. reflexivity.
Qed.

Lemma user_update_keeps_email e cid f w u :
  dbUp e = true -> find (has_clerkId cid) (users w) = Some u ->
  User.email (f u) = User.email u -> OpsEffects.email_free cid u (users w) = true ->
  Prisma.user_update e cid f w = (Returns tt, with_users (map_user cid f (users w)) w).
Proof.
  intros U F E Free. rewrite (SyncFacts.user_update_up e cid f w u U F). rewrite E.
  unfold OpsEffects.email_free in Free. apply Bool.negb_true_iff in Free. rewrite Free. reflexivity.
Qed.

Lemma updateUserRole_denied e target newRole admin w :
  SecurityOps.is_admin (find (has_clerkId admin) (users w)) = false ->
  SecurityOps.updateUserRole e target newRole admin w
  = (Throws "Failed to update user role", w).
Proof.
  intros H. unfold SecurityOps.updateUserRole, try_catch, bind at 1.
  unfold Prisma.user_findUnique. destruct (dbUp e) eqn:U.
  - rewrite Run.guard_up by exact U. fold (has_clerkId admin). rewrite H. reflexivity.
  - rewrite Run.guard_down by exact U. reflexivity.
Qed.

End OpsFacts.



(** X12.  Only an administrator changes roles: when the acting principal has no
    row with role [ADMIN], [updateUserRole] raises its error and leaves the
    user table, the identity provider and the activity log as they were
    (the refused attempt is not recorded). *)
Theorem updateUserRole_needs_admin
  (e : Env) (targetUserId : string) (newRole : UserRole) (adminUserId : string) (w : World) :
  SecurityOps.is_admin (find (SyncEffects.has_clerkId adminUserId) (users w)) = false ->
  SecurityOps.updateUserRole e targetUserId newRole adminUserId w
  = (Throws "Failed to update user role", w).
Proof. apply OpsFacts.updateUserRole_denied. Qed.

Lemma updateUserRole_needs_admin_witness :
  SecurityOps.updateUserRole (Fixtures.env_at 1700000000000) "user_123" ADMIN "user_123"
    (mkWorld [SyncScenarios.ada_local 1690000000000] [] [] [SyncScenarios.ada_clerk 1695000000000])
  = (Throws "Failed to update user role",
     mkWorld [SyncScenarios.ada_local 1690000000000] [] [] [SyncScenarios.ada_clerk 1695000000000]).
Proof.
  apply (updateUserRole_needs_admin (Fixtures.env_at 1700000000000) "user_123" ADMIN "user_123"
           (mkWorld [SyncScenarios.ada_local 1690000000000] [] []
              [SyncScenarios.ada_clerk 1695000000000])).
  reflexivity.
Defined.



(** X14.  The role change is not undone when the identity provider fails after
    the store was updated: the call raises its error, yet the target's row
    carries the new role, and no [role_changed] row is written. *)
Theorem updateUserRole_partial_on_clerk_failure
  (e : Env) (targetUserId : string) (newRole : UserRole) (adminUserId : string)
  (w : World) (u : User.t) :
  dbUp e = true -> clerkUp e = false ->
  SecurityOps.is_admin (find (SyncEffects.has_clerkId adminUserId) (users w)) = true ->
  find (SyncEffects.has_clerkId targetUserId) (users w) = Some u ->
  OpsEffects.email_free targetUserId u (users w) = true ->
  exists w',
    SecurityOps.updateUserRole e targetUserId newRole adminUserId w
    = (Throws "Failed to update user role", w') /\
    find (SyncEffects.has_clerkId targetUserId) (users w')
    = Some (SecurityOps.with_role e newRole u) /\
    userActivities w' = userActivities w /\ clerkUsers w' = clerkUsers w.
Proof.
  intros U CU A Fu Free.
  unfold SecurityOps.updateUserRole, try_catch, bind at 1.
  unfold Prisma.user_findUnique. rewrite Run.guard_up by exact U.
  fold (SyncEffects.has_clerkId adminUserId). rewrite A. cbn [negb].
  unfold bind at 1.
  rewrite (OpsFacts.user_update_keeps_email e targetUserId (SecurityOps.with_role e newRole)
             w u U Fu eq_refl Free).
  unfold bind at 1. unfold StoreOps.updatePublicRole. rewrite CU. unfold throw.
  eexists. split; [reflexivity |].
  split; [| split; reflexivity].
  cbn [users SyncEffects.with_users].
  rewrite SyncFacts.find_map_user by reflexivity. rewrite Fu. reflexivity.
Qed.

Lemma updateUserRole_partial_witness :
  exists w',
    SecurityOps.updateUserRole (mkEnv 1700000000000 true false None) "user_123" EDITOR "admin_1"
      (mkWorld [User.mk "admin_1" "root@example.com" true None None None ADMIN
                  1690000000000 None false None None;
                SyncScenarios.ada_local 1690000000000] [] [] [])
    = (Throws "Failed to update user role", w') /\
    option_map User.role (find (SyncEffects.has_clerkId "user_123") (users w')) = Some EDITOR.
Proof.
  destruct (updateUserRole_partial_on_clerk_failure
              (mkEnv 1700000000000 true false None) "user_123" EDITOR "admin_1"
              (mkWorld [User.mk "admin_1" "root@example.com" true None None None ADMIN
                          1690000000000 None false None None;
                        SyncScenarios.ada_local 1690000000000] [] [] [])
              (SyncScenarios.ada_local 1690000000000)
              eq_refl eq_refl eq_refl eq_refl eq_refl) as (w' & E & F & _).
  exists w'. split; [exact E |]. rewrite F. reflexivity.
Defined.

(** ** Two-factor verification *)

Module VerifyFacts.
Import Effects SyncEffects.
Section WithHash.
Variable sha256_hex : string -> string.

Lemma verifyBackupCode_returns e userId code w :
  exists b w1, SecurityService.verifyBackupCode sha256_hex e userId code w = (Returns b, w1).
Proof.
  destruct (dbUp e) eqn:U.
  - rewrite (BackupFacts.verify_up sha256_hex e userId code w U).
    destruct (latestBackupCodes w userId) as [[id row] |]; [| eexists; eexists; reflexivity].
    destruct (codes_of row) as [l |]; [| eexists; eexists; reflexivity].
    destruct (SecurityService.mark_first (sha256_hex code) l);
      eexists; eexists; reflexivity.
  - rewrite (BackupFacts.verify_down sha256_hex e userId code w U).
    eexists. eexists. reflexivity.
Qed.

Lemma check_token_totp_inv e userId token b used w w1 :
  SecurityOps.check_token sha256_hex e userId token SecurityOps.totp w
  = (Returns (b, used), w1) ->
  used = false /\ w1 = w /\ clerkUp e = true /\
  exists c s, find (has_id userId) (clerkUsers w) = Some c /\
              Clerk.totpSecret (Clerk.privateMetadata c) = Some s /\ s <> "" /\
              Totp.verifyTOTPToken (now e) s token 1 = Some b.
Proof.
  unfold SecurityOps.check_token, bind, ClerkApi.getUser.
  destruct (clerkUp e); [| discriminate].
  fold (has_id userId). destruct (find (has_id userId) (clerkUsers w)) as [c |]; [| discriminate].
  destruct (Clerk.totpSecret (Clerk.privateMetadata c)) as [[| ch r] |] eqn:S;
    try discriminate.
  destruct (Totp.verifyTOTPToken (now e) (String ch r) token 1) as [b' |] eqn:V;
    [| discriminate].
  intros H. injection H as <- <- <-.
  split; [reflexivity |]. split; [reflexivity |]. split; [reflexivity |].
  exists c, (String ch r). split; [reflexivity |]. split; [exact S |].
  split; [discriminate | exact V].
Qed.

Lemma check_token_backup_inv e userId token b used w w1 :
  SecurityOps.check_token sha256_hex e userId token SecurityOps.backup_code w
  = (Returns (b, used), w1) ->
  used = b /\
  SecurityService.verifyBackupCode sha256_hex e userId token w = (Returns b, w1).
Proof.
  unfold SecurityOps.check_token, bind.
  destruct (verifyBackupCode_returns e userId token w) as (b' & w' & E). rewrite E.
  intros H. injection H as <- <- <-. split; reflexivity.
Qed.

(** The three ways [verifyTwoFactor] ends. *)
Lemma verifyTwoFactor_cases e userId token type ip w :
  exists r w',
    SecurityOps.verifyTwoFactor sha256_hex e userId token type ip w = (Returns r, w') /\
    SecurityOps.type r = type /\
    ((SecurityOps.success r = true /\ SecurityOps.error r = None /\
      exists w1 w2,
        SecurityOps.check_token sha256_hex e userId token type w
        = (Returns (true, SecurityOps.usedBackupCode r), w1) /\
        Prisma.user_update e userId (SecurityOps.touched e) w2 = (Returns tt, w'))
     \/
     (SecurityOps.success r = false /\ SecurityOps.usedBackupCode r = false /\
      SecurityOps.error r = None /\
      SecurityOps.message r = "Invalid two-factor authentication code" /\
      exists w1,
        SecurityOps.check_token sha256_hex e userId token type w = (Returns (false, false), w1))
     \/
     (SecurityOps.success r = false /\ SecurityOps.usedBackupCode r = false /\
      SecurityOps.error r <> None /\
      SecurityOps.message r = "Two-factor authentication verification failed")).
Proof.
  unfold SecurityOps.verifyTwoFactor, try_catch, bind at 1.
  destruct (SecurityOps.check_token sha256_hex e userId token type w)
    as [[[b used] | m] w1] eqn:CT.
  - cbn [fst snd]. unfold bind at 1. rewrite OpsFacts.logSecurityEvent_run.
    destruct b.
    + unfold bind at 1.
      match goal with
      | |- context [Prisma.user_update e userId (SecurityOps.touched e) ?w2] =>
          destruct (Prisma.user_update e userId (SecurityOps.touched e) w2)
            as [[[] | m] w3] eqn:UU
      end.
      * eexists. eexists. split; [reflexivity |]. split; [reflexivity |].
        left. split; [reflexivity |]. split; [reflexivity |].
        eexists. eexists. split; [reflexivity | exact UU].
      * unfold bind. rewrite OpsFacts.logSecurityEvent_run.
        eexists. eexists. split; [reflexivity |]. split; [reflexivity |].
        right. right. repeat split; try reflexivity. discriminate.
    + unfold bind, ret.
      assert (used = false) as ->.
      { destruct type.
        - apply check_token_totp_inv in CT. tauto.
        - apply check_token_backup_inv in CT. tauto. }
      eexists. eexists. split; [reflexivity |]. split; [reflexivity |].
      right. left. repeat split; try reflexivity. eexists. reflexivity.
  - unfold bind. rewrite OpsFacts.logSecurityEvent_run.
    eexists. eexists. split; [reflexivity |]. split; [reflexivity |].
    right. right. repeat split; try reflexivity. discriminate.
Qed.

End WithHash.
End VerifyFacts.

(** X15.  [verifyTwoFactor] never raises, and it is sound: a successful result
    means that the submitted code was valid (for a time-based code, the
    identity provider holds a non-empty secret under which the code verifies
    at the current time step or a neighbouring one; for a backup code,
    [verifyBackupCode] accepted it) and that the principal's row was
    stamped with the time of the call. A backup code is reported as used
    only by a successful backup-code verification. *)
Theorem verifyTwoFactor_total_and_sound
  (sha256_hex : string -> string) (e : Env) (userId token : string)
  (type : SecurityOps.TwoFactorType) (ipAddress : option string) (w : World) :
  exists r w',
    SecurityOps.verifyTwoFactor sha256_hex e userId token type ipAddress w = (Returns r, w') /\
    SecurityOps.type r = type /\
    (SecurityOps.usedBackupCode r = true ->
     SecurityOps.success r = true /\ type = SecurityOps.backup_code) /\
    (SecurityOps.success r = true ->
     SecurityOps.error r = None /\
     (exists u, find (SyncEffects.has_clerkId userId) (users w') = Some u /\
                User.updatedAt u = now e) /\
     match type with
     | SecurityOps.totp =>
         exists c s, find (SyncEffects.has_id userId) (clerkUsers w) = Some c /\
                     Clerk.totpSecret (Clerk.privateMetadata c) = Some s /\ s <> "" /\
                     Totp.verifyTOTPToken (now e) s token 1 = Some true
     | SecurityOps.backup_code =>
         fst (SecurityService.verifyBackupCode sha256_hex e userId token w) = Returns true
     end).
Proof.
  destruct (VerifyFacts.verifyTwoFactor_cases sha256_hex e userId token type ipAddress w)
    as (r & w' & E & T & C).
  exists r, w'. split; [exact E |]. split; [exact T |].
  destruct C as [(S & Er & w1 & w2 & CT & UU) | [(S & B & _) | (S & B & _)]].
  - split.
    + intros B. split; [exact S |]. destruct type; [| reflexivity].
      apply VerifyFacts.check_token_totp_inv in CT. destruct CT as (F & _). congruence.
    + intros _. split; [exact Er |]. split.
      * apply OpsFacts.user_update_returns in UU; [| reflexivity].
        destruct UU as (_ & u & _ & F & _). eexists. split; [exact F | reflexivity].
      * destruct type.
        -- apply VerifyFacts.check_token_totp_inv in CT.
           destruct CT as (_ & _ & _ & c & s & H). exists c, s. exact H.
        -- apply VerifyFacts.check_token_backup_inv in CT. destruct CT as (_ & V).
           rewrite V. reflexivity.
  - split; intros H; congruence.
  - split; intros H; congruence.
Qed.

Module CredentialFacts.
Import Effects SyncEffects.
Section WithHash.
Variable sha256_hex : string -> string.

(** A row of another activity does not change which backup codes are the
    stored ones. *)
Lemma latest_add_other row w userId :
  UserActivity.activity row <> "backup_codes_generated" ->
  latestBackupCodes (add_activity row w) userId = latestBackupCodes w userId.
Proof.
  intros N. unfold latestBackupCodes, add_activity. cbn [userActivities].
  rewrite IndexFacts.indexed_app, filter_app. cbn [filter snd].
  replace (SecurityService.is_backup_codes_of userId row) with false.
  - rewrite app_nil_r. reflexivity.
  - symmetry. unfold SecurityService.is_backup_codes_of.
    apply Bool.andb_false_iff. right. apply String.eqb_neq. exact N.
Qed.

Lemma verify_fst_latest e userId code w1 w2 :
  latestBackupCodes w1 userId = latestBackupCodes w2 userId ->
  fst (SecurityService.verifyBackupCode sha256_hex e userId code w1)
  = fst (SecurityService.verifyBackupCode sha256_hex e userId code w2).
Proof.
  intros L. destruct (dbUp e) eqn:U.
  - rewrite !(BackupFacts.verify_up sha256_hex e userId code _ U), L.
    destruct (latestBackupCodes w2 userId) as [[id row] |]; [| reflexivity].
    destruct (codes_of row) as [l |]; [| reflexivity].
    destruct (SecurityService.mark_first (sha256_hex code) l); reflexivity.
  - rewrite !(BackupFacts.verify_down sha256_hex e userId code _ U). reflexivity.
Qed.

Lemma check_token_fst e userId token type w1 w2 :
  clerkUsers w1 = clerkUsers w2 ->
  latestBackupCodes w1 userId = latestBackupCodes w2 userId ->
  fst (SecurityOps.check_token sha256_hex e userId token type w1)
  = fst (SecurityOps.check_token sha256_hex e userId token type w2).
Proof.
  intros C L. destruct type.
  - unfold SecurityOps.check_token, bind, ClerkApi.getUser.
    destruct (clerkUp e); [| reflexivity]. rewrite C.
    destruct (find _ (clerkUsers w2)) as [c |]; [| reflexivity].
    destruct (Clerk.totpSecret (Clerk.privateMetadata c)) as [[| ch r] |]; try reflexivity.
    destruct (Totp.verifyTOTPToken (now e) (String ch r) token 1); reflexivity.
  - pose proof (verify_fst_latest e userId token w1 w2 L) as V.
    unfold SecurityOps.check_token, bind.
    destruct (SecurityService.verifyBackupCode sha256_hex e userId token w1) as [[b1 | m1] u1];
    destruct (SecurityService.verifyBackupCode sha256_hex e userId token w2) as [[b2 | m2] u2];
      cbn in V; try discriminate V; injection V as ->; reflexivity.
Qed.

(** The two worlds that [disableTwoFactor] can leave behind. *)
Lemma disableTwoFactor_world e userId w :
  snd (SecurityOps.disableTwoFactor e userId w) = w \/
  snd (SecurityOps.disableTwoFactor e userId w)
  = add_activity
      (security_row e (mkEvent userId "two_factor_disabled" [("disabledAt", Json.Num (now e))]))
      (with_users (map_user userId (SecurityOps.disabled e) (users w)) w).
Proof.
  unfold SecurityOps.disableTwoFactor, try_catch, bind.
  destruct (Prisma.user_update e userId (SecurityOps.disabled e) w) as [[[] | m] w1] eqn:UU.
  - apply OpsFacts.user_update_returns in UU; [| reflexivity].
    destruct UU as (U & u & _ & _ & ->).
    rewrite OpsFacts.logSecurityEvent_run, U. right. reflexivity.
  - left. cbn. unfold Prisma.user_update, Prisma.guard in UU.
    destruct (dbUp e); [| injection UU as _ <-; reflexivity].
    destruct (find _ (users w)); [| injection UU as _ <-; reflexivity].
    destruct (existsb _ (users w)); [injection UU as _ <-; reflexivity | discriminate UU].
Qed.

End WithHash.
End CredentialFacts.

(** X16.  Disabling two-factor authentication revokes nothing: the identity
    provider (and with it the stored secret) and the session table are left
    as they were, so that, for every principal, a time-based code or a
    backup code gets the same verdict after the call as before it. *)
Theorem disableTwoFactor_keeps_credentials
  (sha256_hex : string -> string) (e e2 : Env) (userId otherId token : string)
  (type : SecurityOps.TwoFactorType) (w : World) :
  let w' := snd (SecurityOps.disableTwoFactor e userId w) in
  clerkUsers w' = clerkUsers w /\ userSessions w' = userSessions w /\
  fst (SecurityOps.check_token sha256_hex e2 otherId token type w')
  = fst (SecurityOps.check_token sha256_hex e2 otherId token type w).
Proof.
  cbv zeta.
  destruct (CredentialFacts.disableTwoFactor_world e userId w) as [-> | ->].
  - split; [reflexivity |]. split; reflexivity.
  - split; [reflexivity |]. split; [reflexivity |].
    apply CredentialFacts.check_token_fst; [reflexivity |].
    rewrite CredentialFacts.latest_add_other by discriminate. reflexivity.
Qed.

Module RegenerateFacts.
Import Effects SyncEffects.


Lemma filter_indexed_In {A} (f : A -> bool) (l : list A) x :
  In x (filter (fun r => f (snd r)) (Prisma.indexed l)) -> In (snd x) l /\ f (snd x) = true.
Proof.
  intros H. apply filter_In in H. destruct H as [H F]. split; [| exact F].
  destruct x as [i a]. exact (Run.indexed_In _ _ _ H).
Qed.



Section WithHash.
Variable sha256_hex : string -> string.

Lemma storeBackupCodes_run e userId codes w :
  SecurityService.storeBackupCodes sha256_hex e userId codes w
  = (Returns tt, if dbUp e then add_activity (OpsEffects.codes_row sha256_hex e userId codes) w else w).
Proof.
  unfold SecurityService.storeBackupCodes, try_catch.
  rewrite OpsFacts.logSecurityEvent_run. reflexivity.
Qed.

Lemma regenerate_run e en userId w :
  SecurityOps.regenerateBackupCodes sha256_hex e en userId w
  = (Returns (SecurityService.generateBackupCodes en),
     if dbUp e
     then add_activity
            (OpsEffects.regenerated_row e userId (SecurityService.generateBackupCodes en))
            (add_activity
               (OpsEffects.codes_row sha256_hex e userId (SecurityService.generateBackupCodes en))
               w)
     else w).
Proof.
  unfold SecurityOps.regenerateBackupCodes, try_catch, bind.
  rewrite storeBackupCodes_run, OpsFacts.logSecurityEvent_run.
  destruct (dbUp e); reflexivity.
Qed.

End WithHash.
End RegenerateFacts.

(** X17.  [regenerateBackupCodes] cannot fail: it hands out ten codes whatever
    the store does, and when the store did not answer nothing was written,
    so the codes it returned were never stored. *)
Theorem regenerateBackupCodes_always_returns
  (sha256_hex : string -> string) (e : Env) (en : Entropy) (userId : string) (w : World) :
  exists codes w',
    SecurityOps.regenerateBackupCodes sha256_hex e en userId w = (Returns codes, w') /\
    codes = SecurityService.generateBackupCodes en /\
    List.length codes = 10%nat /\
    users w' = users w /\ userSessions w' = userSessions w /\ clerkUsers w' = clerkUsers w /\
    (dbUp e = false ->
     w' = w /\
     forall e2 code,
       SecurityService.verifyBackupCode sha256_hex e2 userId code w'
       = SecurityService.verifyBackupCode sha256_hex e2 userId code w).
Proof.
  rewrite RegenerateFacts.regenerate_run.
  eexists. eexists. split; [reflexivity |]. split; [reflexivity |].
  split; [unfold SecurityService.generateBackupCodes; rewrite length_map, length_seq;
          reflexivity |].
  destruct (dbUp e).
  - repeat split; try reflexivity; discriminate.
  - repeat split; reflexivity.
Qed.



(** ** Reading the activity log *)

Module OrderFacts.
Import Effects.

Section Sorted.
Context {A : Type} (le : A -> A -> bool).
Hypothesis le_total : forall a b, le a b = true \/ le b a = true.
Hypothesis le_trans : forall a b c, le a b = true -> le b c = true -> le a c = true.

Lemma insert_by_Forall (P : A -> Prop) x l :
  P x -> Forall P l -> Forall P (insert_by le x l).
Proof.
  intros Px H. induction H as [| y l Py H IH]; cbn [insert_by].
  - constructor; [exact Px | constructor].
  - destruct (le x y); constructor; auto.
Qed.

Lemma insert_by_sorted x l :
  ForallOrdPairs (fun a b => le a b = true) l ->
  ForallOrdPairs (fun a b => le a b = true) (insert_by le x l).
Proof.
  intros H. induction H as [| y l F S IH]; cbn [insert_by].
  - constructor; constructor.
  - destruct (le x y) eqn:E.
    + constructor; [| constructor; assumption].
      constructor; [exact E |].
      eapply Forall_impl; [| exact F]. intros z Hz. exact (le_trans _ _ _ E Hz).
    + constructor; [| exact IH].
      apply insert_by_Forall; [| exact F].
      destruct (le_total x y) as [T | T]; [congruence | exact T].
Qed.

Lemma sort_by_sorted l : ForallOrdPairs (fun a b => le a b = true) (sort_by le l).
Proof.
  induction l as [| x l IH]; [constructor |].
  rewrite SortFacts.sort_by_cons. apply insert_by_sorted. exact IH.
Qed.

End Sorted.

Lemma firstn_sorted {A} (R : A -> A -> Prop) n l :
  ForallOrdPairs R l -> ForallOrdPairs R (firstn n l).
Proof.
  intros H. revert n. induction H as [| x l F S IH]; intros n.
  - rewrite firstn_nil. constructor.
  - destruct n; [constructor |]. cbn [firstn]. constructor; [| apply IH].
    rewrite Forall_forall in *. intros y Hy. apply F. exact (FrameFacts.in_firstn _ _ _ Hy).
Qed.

Lemma map_sorted {A B} (R : A -> A -> Prop) (Q : B -> B -> Prop) (g : A -> B) l :
  (forall a b, R a b -> Q (g a) (g b)) ->
  ForallOrdPairs R l -> ForallOrdPairs Q (map g l).
Proof.
  intros H S. induction S as [| x l F S IH]; [constructor |].
  cbn [map]. constructor; [| exact IH].
  rewrite Forall_forall in *. intros y Hy. apply in_map_iff in Hy.
  destruct Hy as (a & <- & Ha). apply H. apply F. exact Ha.
Qed.

Lemma by_createdAt_desc_total a b :
  by_createdAt_desc a b = true \/ by_createdAt_desc b a = true.
Proof. unfold by_createdAt_desc. rewrite !Z.leb_le. lia. Qed.

Lemma by_createdAt_desc_trans a b c :
  by_createdAt_desc a b = true -> by_createdAt_desc b c = true -> by_createdAt_desc a c = true.
Proof. unfold by_createdAt_desc. rewrite !Z.leb_le. lia. Qed.

(** The rows that a [findMany] on the activity log returns, cut to [limit]. *)
Lemma taken_rows where_ limit (l : list UserActivity.t) p :
  In p (firstn limit (sort_by by_createdAt_desc
                        (filter (fun r => where_ (snd r)) (Prisma.indexed l)))) ->
  In (snd p) l /\ where_ (snd p) = true.
Proof.
  intros H. apply FrameFacts.in_firstn in H. apply SortFacts.sort_by_In in H.
  exact (RegenerateFacts.filter_indexed_In where_ l p H).
Qed.

End OrderFacts.

(** X19.  [getSecurityEvents] never raises and changes nothing. It returns at
    most [limit] events, newest first; each of them is a row of the log
    that belongs to the principal and carries one of the sixteen listed
    names, so the [backup_codes_generated] rows with the stored hashes are
    never handed out; and a store that does not answer yields the empty
    list. *)
Theorem getSecurityEvents_returns_own_listed_events
  (e : Env) (userId : string) (limit : nat) (w : World) :
  exists evs,
    SecurityOps.getSecurityEvents e userId limit w = (Returns evs, w) /\
    (List.length evs <= limit)%nat /\
    ForallOrdPairs (fun a b => snd b <= snd a) evs /\
    (forall ev, In ev evs ->
       ev_userId (fst ev) = userId /\
       In (event (fst ev)) SecurityOps.securityEventNames /\
       event (fst ev) <> "backup_codes_generated" /\
       exists a, In a (userActivities w) /\ SecurityOps.event_of a = ev) /\
    (dbUp e = false -> evs = []).
Proof.
  unfold SecurityOps.getSecurityEvents, try_catch, bind.
  destruct (dbUp e) eqn:U.
  - rewrite Run.findMany_up by exact U. fold Effects.by_createdAt_desc.
    eexists. split; [reflexivity |].
    split; [rewrite length_map; apply firstn_le_length |].
    split.
    { apply (OrderFacts.map_sorted (fun a b => Effects.by_createdAt_desc a b = true)).
      - intros a b H. unfold Effects.by_createdAt_desc in H. apply Z.leb_le in H. exact H.
      - apply OrderFacts.firstn_sorted. apply OrderFacts.sort_by_sorted.
        + apply OrderFacts.by_createdAt_desc_total.
        + apply OrderFacts.by_createdAt_desc_trans. }
    split; [| discriminate].
    intros ev Hev. apply in_map_iff in Hev. destruct Hev as (p & <- & Hp).
    apply OrderFacts.taken_rows in Hp. destruct Hp as [Hin W].
    unfold SecurityOps.is_security_event_of in W. apply Bool.andb_true_iff in W.
    destruct W as [Wu Wn]. apply String.eqb_eq in Wu.
    apply existsb_exists in Wn. destruct Wn as (n & Hn & En). apply String.eqb_eq in En.
    cbn [SecurityOps.event_of fst ev_userId event].
    split; [exact Wu |]. split; [rewrite En; exact Hn |].
    split.
    + rewrite En. intros ->. cbn in Hn.
      repeat (destruct Hn as [Hn | Hn]; [discriminate Hn |]). exact Hn.
    + exists (snd p). split; [exact Hin | reflexivity].
  - unfold Prisma.userActivity_findMany. rewrite Run.guard_down by exact U.
    exists []. split; [reflexivity |]. split; [apply Nat.le_0_l |].
    split; [constructor |]. split; [intros ev [] | reflexivity].
Qed.

(** ** More of the session service *)

Module SessionFacts.
Import Effects SyncEffects OpsEffects.





End SessionFacts.



Module BaselineFacts.
Import Effects SyncEffects OpsEffects.





End BaselineFacts.



Module ActivityFacts.
Import Effects SyncEffects.

Lemma filter_length_le {A} (p q : A -> bool) l :
  (forall x, p x = true -> q x = true) ->
  (List.length (filter p l) <= List.length (filter q l))%nat.
Proof.
  intros H. induction l as [| a l IH]; [apply Nat.le_refl |].
  cbn [filter]. destruct (p a) eqn:P.
  - rewrite (H a P). cbn. lia.
  - destruct (q a); cbn; lia.
Qed.



End ActivityFacts.



(** X24.  [getSessionStatistics] never raises and changes nothing. The active
    count never exceeds the total; while the store answers it is the number
    of sessions that [getActiveSessions] returns, and the reported last
    activity is at least that of every session of the principal. A store
    that does not answer yields the all-zero statistics. *)
Theorem getSessionStatistics_consistent (e : Env) (userId : string) (w : World) :
  exists st,
    SessionOps.getSessionStatistics e userId w = (Returns st, w) /\
    0 <= st_activeSessions st <= st_totalSessions st /\
    (dbUp e = false -> st = mkStatistics 0 0 0 None None) /\
    (dbUp e = true ->
     (exists active,
        SessionService.getActiveSessions e userId w = (Returns active, w) /\
        st_activeSessions st = Z.of_nat (List.length active)) /\
     (st_lastActiveAt st = None <-> st_totalSessions st = 0) /\
     (forall t s, st_lastActiveAt st = Some t -> In s (userSessions w) ->
                  UserSession.userId s = userId -> UserSession.lastActiveAt s <= t)).
Proof.
  unfold SessionOps.getSessionStatistics, try_catch, bind, StoreOps.userSession_count,
    StoreOps.userActivity_count, Prisma.userSession_findMany.
  destruct (dbUp e) eqn:U.
  - rewrite !Run.guard_up by exact U. unfold ret.
    eexists. split; [reflexivity |].
    cbn [st_activeSessions st_totalSessions st_lastActiveAt].
    split.
    { split; [lia |]. apply Nat2Z.inj_le. apply ActivityFacts.filter_length_le.
      intros s H. unfold SessionService.is_active_of in H. unfold SessionOps.of_user.
      apply Bool.andb_true_iff in H. destruct H as [H _].
      apply Bool.andb_true_iff in H. tauto. }
    split; [discriminate |]. intros _.
    split.
    { exists (Effects.fetched e userId w).
      split; [apply PolicyFacts.getActiveSessions_up; exact U |].
      rewrite CapFacts.fetched_length. reflexivity. }
    set (le := fun a b => UserSession.lastActiveAt b <=? UserSession.lastActiveAt a).
    set (mine := filter (SessionOps.of_user userId) (userSessions w)).
    assert (Srt : ForallOrdPairs (fun a b => le a b = true) (sort_by le mine)).
    { apply OrderFacts.sort_by_sorted.
      - intros a b. unfold le. rewrite !Z.leb_le. lia.
      - intros a b c. unfold le. rewrite !Z.leb_le. lia. }
    pose proof (SortFacts.sort_by_length le mine) as Len.
    pose proof (fun x => SortFacts.sort_by_In le mine x) as Mem.
    destruct (sort_by le mine) as [| h rest] eqn:S.
    + cbn [hd_error option_map]. split.
      * split; [intros _ | reflexivity]. cbn in Len. rewrite <- Len. reflexivity.
      * intros t s H. discriminate H.
    + cbn [hd_error option_map]. split.
      * split; [discriminate |]. intros H. rewrite <- Len in H. cbn in H. lia.
      * intros t s H Hin Hu. injection H as <-.
        assert (Hs : In s (h :: rest)).
        { apply Mem. apply filter_In. split; [exact Hin |].
          unfold SessionOps.of_user. rewrite Hu. apply String.eqb_refl. }
        destruct Hs as [<- | Hs]; [lia |].
        inversion Srt as [| a l F _]; subst. rewrite Forall_forall in F.
        specialize (F s Hs). unfold le in F. apply Z.leb_le in F. exact F.
  - rewrite Run.guard_down by exact U. eexists. split; [reflexivity |].
    cbn. split; [lia |]. split; [reflexivity | discriminate].
Qed.

(** ** Bulk synchronisation and the synchronisation history *)

Module BulkFacts.
Import ProfileSyncService.


End BulkFacts.




(** ** The security configuration *)

Module ConfigFacts.
Import SecurityConfig.



End ConfigFacts.


(** ** Enabling two-factor authentication *)

Module EnableFacts.
Import Effects SyncEffects OpsEffects.


Section WithPrimitives.
Variable sha256_hex encodeURIComponent : string -> string.
Variable urlSearchParams : list (string * string) -> string.



End WithPrimitives.
End EnableFacts.



(** ** Revoking the other sessions *)

Module RevokeFacts.
Import Effects OpsEffects RevokeOps.




Lemma revoke_all_ids ids cs : map cs_id (revoke_all ids cs) = map cs_id cs.
Proof.
  unfold revoke_all. rewrite map_map. apply map_ext. intros s.
  destruct (existsb _ ids); reflexivity.
Qed.





End RevokeFacts.



(** ** The base32 secret: what is generated is what is decoded *)

Module Base32Facts.

Lemma toInt32_mod x : Js.toInt32 x mod 4294967296 = x mod 4294967296.
Proof. unfold Js.toInt32, Js.two31, Js.two32. Z.div_mod_to_equations. lia. Qed.

Lemma toInt32_range x : -2147483648 <= Js.toInt32 x < 2147483648.
Proof. unfold Js.toInt32, Js.two31, Js.two32. Z.div_mod_to_equations. lia. Qed.

Lemma toInt32_idem x : Js.toInt32 (Js.toInt32 x) = Js.toInt32 x.
Proof. apply TotpFacts.toInt32_small. apply toInt32_range. Qed.

Lemma mod_32_of_two32 x n :
  0 <= n <= 32 -> (x mod 4294967296) mod 2 ^ n = x mod 2 ^ n.
Proof.
  intros H.
  assert (P : 0 < 2 ^ n) by (apply Z.pow_pos_nonneg; lia).
  assert (T : 4294967296 = 2 ^ (32 - n) * 2 ^ n).
  { rewrite <- Z.pow_add_r by lia. replace (32 - n + n) with 32 by lia. reflexivity. }
  pose proof (Z.div_mod x 4294967296 ltac:(lia)) as D.
  rewrite D at 2. rewrite T at 2.
  replace (2 ^ (32 - n) * 2 ^ n * (x / 4294967296) + x mod 4294967296)
    with (x mod 4294967296 + (2 ^ (32 - n) * (x / 4294967296)) * 2 ^ n) by ring.
  rewrite Z.mod_add by lia. reflexivity.
Qed.

(** [y & (2^m - 1)] is [y mod 2^m], for every integer [y]. *)
Lemma js_and_ones y m : 0 <= m <= 30 -> Js.and y (Z.ones m) = y mod 2 ^ m.
Proof.
  intros Hm. unfold Js.and.
  assert (P : 0 < 2 ^ m <= 2 ^ 30).
  { split; [apply Z.pow_pos_nonneg; lia | apply Z.pow_le_mono_r; lia]. }
  change (2 ^ 30) with 1073741824 in P.
  assert (O : Z.ones m = 2 ^ m - 1) by (rewrite Z.ones_equiv; lia).
  rewrite (TotpFacts.toInt32_small (Z.ones m)) by lia.
  rewrite Z.land_ones by lia.
  rewrite <- (mod_32_of_two32 (Js.toInt32 y) m) by lia.
  rewrite toInt32_mod, mod_32_of_two32 by lia.
  apply TotpFacts.toInt32_small.
  pose proof (Z.mod_pos_bound y (2 ^ m)). lia.
Qed.

Lemma js_and_31 y : Js.and y 31 = y mod 32.
Proof. exact (js_and_ones y 5 ltac:(lia)). Qed.

Lemma js_and_255 y : Js.and y 255 = y mod 256.
Proof. exact (js_and_ones y 8 ltac:(lia)). Qed.

Lemma js_ushr_div v s : 0 <= s < 32 -> Js.ushr v s = (v mod 4294967296) / 2 ^ s.
Proof.
  intros H. unfold Js.ushr, Js.toUint32, Js.two32.
  rewrite (Z.mod_small s 32) by lia. apply Z.shiftr_div_pow2. lia.
Qed.

Lemma land_low_zero a b n :
  0 <= n -> a mod 2 ^ n = 0 -> 0 <= b < 2 ^ n -> Z.land a b = 0.
Proof.
  intros Hn Ha Hb. apply Z.bits_inj'. intros i Hi.
  rewrite Z.land_spec, Z.bits_0.
  destruct (Z.lt_ge_cases i n) as [L | G].
  - rewrite <- (Z.mod_pow2_bits_low a n i) by lia. rewrite Ha, Z.bits_0. reflexivity.
  - replace b with (b mod 2 ^ n) by (apply Z.mod_small; lia).
    rewrite Z.mod_pow2_bits_high by lia. apply Bool.andb_false_r.
Qed.

Lemma js_shl_mod v n :
  0 <= n < 32 -> Js.shl v n mod 4294967296 = (v * 2 ^ n) mod 4294967296.
Proof.
  intros H. unfold Js.shl. rewrite (Z.mod_small n 32) by lia.
  rewrite toInt32_mod, Z.shiftl_mul_pow2 by lia.
  rewrite <- Z.mul_mod_idemp_l by lia. rewrite toInt32_mod.
  rewrite Z.mul_mod_idemp_l by lia. reflexivity.
Qed.

Lemma js_shl_low v n : 0 <= n < 32 -> Js.shl v n mod 2 ^ n = 0.
Proof.
  intros H. rewrite <- mod_32_of_two32 by lia. rewrite js_shl_mod by lia.
  rewrite mod_32_of_two32 by lia. apply Z.mod_mul.
  apply Z.pow_nonzero; lia.
Qed.

(** [(v << n) | x] appends the [n] bits of [x]. *)
Lemma js_or_shl v n x :
  0 <= n <= 30 -> 0 <= x < 2 ^ n ->
  Js.or (Js.shl v n) x mod 4294967296 = (v * 2 ^ n + x) mod 4294967296.
Proof.
  intros Hn Hx. unfold Js.or.
  assert (P : 0 < 2 ^ n <= 2 ^ 30).
  { split; [apply Z.pow_pos_nonneg; lia | apply Z.pow_le_mono_r; lia]. }
  change (2 ^ 30) with 1073741824 in P.
  assert (S : Js.toInt32 (Js.shl v n) = Js.shl v n) by (unfold Js.shl; apply toInt32_idem).
  rewrite S, (TotpFacts.toInt32_small x) by lia.
  pose proof (Z.add_lor_land (Js.shl v n) x) as A.
  rewrite (land_low_zero (Js.shl v n) x n) in A by (try lia; apply js_shl_low; lia).
  rewrite Z.add_0_r in A. rewrite A, toInt32_mod.
  rewrite <- Z.add_mod_idemp_l by lia. rewrite js_shl_mod by lia.
  rewrite Z.add_mod_idemp_l by lia. reflexivity.
Qed.

(** The alphabet: character [q] decodes to [q]. *)
Lemma char_index q :
  0 <= q < 32 ->
  exists c, String.get (Z.to_nat q) Totp.base32chars = Some c /\
            Js.indexOf (Js.upper c) Totp.base32chars = q.
Proof.
  intros H.
  assert (C : In q (map Z.of_nat (seq 0 32))).
  { apply in_map_iff. exists (Z.to_nat q). split; [lia |]. apply in_seq. lia. }
  cbn in C.
  repeat (destruct C as [<- | C]; [eexists; split; [reflexivity | vm_compute; reflexivity] |]).
  contradiction.
Qed.

Lemma append_assoc (a b c : string) : ((a ++ b) ++ c = a ++ (b ++ c))%string.
Proof. induction a as [| x a IH]; [reflexivity |]. cbn. rewrite IH. reflexivity. Qed.

Lemma append_nil_r (a : string) : (a ++ "" = a)%string.
Proof. induction a as [| x a IH]; [reflexivity |]. cbn. rewrite IH. reflexivity. Qed.

Lemma emit_prefix n : forall value bits res,
  SecurityService.emit_quintets n value bits res
  = (fst (SecurityService.emit_quintets n value bits ""),
     (res ++ snd (SecurityService.emit_quintets n value bits ""))%string).
Proof.
  induction n as [| n IH]; intros value bits res.
  - cbn. rewrite append_nil_r. reflexivity.
  - cbn [SecurityService.emit_quintets]. rewrite IH.
    rewrite (IH value (bits - 5) ("" ++ _)%string).
    cbn [fst snd]. rewrite append_assoc. reflexivity.
Qed.

Lemma encode_prefix bs : forall value bits res,
  SecurityService.encode_loop bs value bits res
  = (res ++ SecurityService.encode_loop bs value bits "")%string.
Proof.
  induction bs as [| b bs IH]; intros value bits res.
  - cbn [SecurityService.encode_loop]. destruct (0 <? bits); [| rewrite append_nil_r; reflexivity].
    destruct (String.get _ Totp.base32chars); reflexivity.
  - cbn [SecurityService.encode_loop]. cbv zeta.
    rewrite (emit_prefix _ _ _ res).
    destruct (SecurityService.emit_quintets _ _ _ "") as [bits' r] eqn:E.
    cbn [fst snd]. rewrite IH. rewrite (IH _ _ r). rewrite append_assoc. reflexivity.
Qed.

(** Decoding what the encoder produced. The encoder holds [k] pending bits
    and the decoder [j]; together they are either none or the eight bits of
    the byte [pend] that was read but not yet written. *)
Lemma roundtrip bs :
  Forall (fun b => 0 <= b < 256) bs ->
  forall ve k vd j out pend,
    (k = 0 /\ j = 0 /\ pend = []) \/
    (1 <= k <= 4 /\ j = 8 - k /\ pend = [(vd mod 2 ^ j) * 2 ^ k + ve mod 2 ^ k]) ->
    Totp.decode_loop (SecurityService.encode_loop bs ve k "") vd j out = out ++ pend ++ bs.
Proof.
  induction 1 as [| b bs Hb _ IH]; intros ve k vd j out pend J.
  - destruct J as [(-> & -> & ->) | (Hk & -> & ->)].
    + cbn. rewrite app_nil_r. reflexivity.
    + assert (C : k = 1 \/ k = 2 \/ k = 3 \/ k = 4) by lia.
      cbn [SecurityService.encode_loop].
      replace (0 <? k) with true by (symmetry; apply Z.ltb_lt; lia).
      rewrite js_and_31.
      pose proof (js_shl_mod ve (5 - k) ltac:(lia)) as Hs.
      set (s := Js.shl ve (5 - k)) in *.
      quintet char_index q c Iq. cbn [append]. feed q Iq.
      accumulate js_or_shl vd 5 q vd1 Hd.
      replace (8 <=? 8 - k + 5) with true by (symmetry; apply Z.leb_le; lia).
      cbn [Totp.decode_loop]. rewrite app_nil_r. f_equal. f_equal.
      rewrite js_and_255, js_ushr_div by lia.
      unfold q in *. clear Iq Bq.
      destruct C as [-> | [-> | [-> | ->]]]; znorm.
      all: arith.
  - assert (C : k = 0 \/ k = 1 \/ k = 2 \/ k = 3 \/ k = 4) by (destruct J; lia).
    assert (Hj : j = (if k =? 0 then 0 else 8 - k)).
    { destruct J as [(-> & -> & _) | (Hk & -> & _)]; [reflexivity |].
      replace (k =? 0) with false by (symmetry; apply Z.eqb_neq; lia). reflexivity. }
    assert (Hp : out ++ pend ++ b :: bs
                 = (out ++ (if k =? 0 then [] else [(vd mod 2 ^ j) * 2 ^ k + ve mod 2 ^ k]))
                   ++ b :: bs).
    { rewrite <- app_assoc. destruct J as [(-> & -> & ->) | (Hk & -> & ->)]; [reflexivity |].
      replace (k =? 0) with false by (symmetry; apply Z.eqb_neq; lia). reflexivity. }
    rewrite Hp. clear Hp J pend. subst j.
    cbn [SecurityService.encode_loop]. cbv zeta.
    accumulate js_or_shl ve 8 b ve1 Hv.
    destruct C as [-> | [-> | [-> | [-> | ->]]]]; znorm;
      cbn [SecurityService.emit_quintets]; znorm;
      rewrite !js_and_31, !js_ushr_div by lia; znorm.
    all: quintet char_index q1 c1 I1; try quintet char_index q2 c2 I2;
         rewrite encode_prefix; cbn [append];
         feed q1 I1; accumulate js_or_shl vd 5 q1 vd1 Hd1; znorm;
         try (feed q2 I2; accumulate js_or_shl vd1 5 q2 vd2 Hd2; znorm);
         rewrite ?js_and_255, ?js_ushr_div by lia; znorm.
    all: match goal with
         | |- Totp.decode_loop (SecurityService.encode_loop _ ?v 0 "") ?d ?j ?o = _ =>
             rewrite (IH v 0 d j o []) by (left; repeat split; reflexivity)
         | |- Totp.decode_loop (SecurityService.encode_loop _ ?v ?k "") ?d ?j ?o = _ =>
             rewrite (IH v k d j o [(d mod 2 ^ j) * 2 ^ k + v mod 2 ^ k])
               by (right; repeat split; try reflexivity; lia)
         end; znorm.
    all: rewrite <- ?app_assoc; cbn [app]; clear IH; subst q1; try subst q2;
         apply (f_equal (app out));
         repeat (apply (f_equal2 (@cons Z)); [arith |]); reflexivity.
Qed.

End Base32Facts.

(** X30.  The secret that [generateTOTPSecret] hands out decodes, in
    [verifyTOTPToken], to the twenty random bytes it was made from: the
    32-bit accumulators of the two loops wrap around, but the bits that are
    read are always the pending ones. The key of the verification is thus
    the random key. *)
Theorem totp_secret_round_trip (en : Entropy) :
  Forall (fun b => 0 <= b < 256) (randomBytes en) ->
  Totp.secretBuffer (SecurityService.generateTOTPSecret en) = firstn 20 (randomBytes en) /\
  forall nowMs token window,
    Totp.verifyTOTPToken nowMs (SecurityService.generateTOTPSecret en) token window
    = Totp.check_steps (firstn 20 (randomBytes en)) token
        (Totp.window_steps (Totp.timeStep nowMs) window).
Proof.
  intros F.
  assert (R : Totp.secretBuffer (SecurityService.generateTOTPSecret en)
              = firstn 20 (randomBytes en)).
  { unfold Totp.secretBuffer, SecurityService.generateTOTPSecret.
    rewrite (Base32Facts.roundtrip (firstn 20 (randomBytes en))) with (pend := []).
    - reflexivity.
    - rewrite Forall_forall in *. intros b Hb. apply F.
      exact (FrameFacts.in_firstn _ _ _ Hb).
    - left. repeat split; reflexivity. }
  split; [exact R |]. intros nowMs token window.
  unfold Totp.verifyTOTPToken. rewrite R. reflexivity.
Qed.

Lemma totp_secret_round_trip_witness :
  Totp.secretBuffer (SecurityService.generateTOTPSecret Fixtures.no_entropy) = repeat 7 20.
Proof.
  apply (totp_secret_round_trip Fixtures.no_entropy).
  cbn. repeat constructor; lia.
Defined.
